(** * Request factory of the Tableau server client

    A shallow embedding of [tableauserverclient/server/request_factory.py]:
    the builders that turn item objects into [tsRequest] XML documents and,
    for publishing, into multipart bodies.

    Conventions of the embedding.
    - Text is modelled by [string]; the development is about ASCII text
      (Python's [str.lower] is embedded on the letters A-Z).
    - An attribute of an item that may hold Python's [None] is an [option].
    - A raised exception is the [Raise] case of [result]; a warning sent to
      [warnings.warn] is logged in a list, in the order it was issued.
    - An [ElementTree] element is a tag, an insertion-ordered attribute
      dictionary and the list of its children.  [ET.SubElement parent tag]
      followed by assignments to the child is embedded by building the
      child and appending it to the parent; in every builder a child is
      complete before its next sibling is created, so the order of the
      children is the order of the [SubElement] calls.
    - A statement [if c: element.attrib[k] = v] is the guarded assignment
      [ET.set_if c element k v]; the builders are sequences of them.
    - Each builder is given in two steps, the tree it builds and
      [ET.tostring] of that tree, so that properties of the document can
      be stated on the tree. *)

From Stdlib Require Import String Ascii List ZArith Bool Lia DecimalString.
Import ListNotations.
Open Scope string_scope.

Set Implicit Arguments.

(* ================================================================== *)
(** ** Python values and control *)

Module Py.

Inductive exn : Type :=
| ValueError (msg : string)
| RuntimeError (msg : string)
| TypeError (msg : string).

Inductive warning : Type :=
| DeprecationWarning (msg : string)
| UserWarning (msg : string).

Inductive result (A : Type) : Type :=
| Ok (a : A)
| Raise (e : exn).
Arguments Ok {A} a.
Arguments Raise {A} e.

Definition bind {A B} (m : result A) (k : A -> result B) : result B :=
  match m with
  | Ok a => k a
  | Raise e => Raise e
  end.

Definition is_ok {A} (m : result A) : bool :=
  match m with Ok _ => true | Raise _ => false end.

(** [x is not None] *)
Definition is_not_None {A} (x : option A) : bool :=
  match x with Some _ => true | None => false end.

(** Truth value of an optional string: [None] and [''] are false. *)
Definition truthy_str (x : option string) : bool :=
  match x with
  | Some EmptyString => false
  | Some _ => true
  | None => false
  end.

(** Truth value of a string. *)
Definition truthy (s : string) : bool :=
  match s with EmptyString => false | _ => true end.

(** Truth value of an optional integer: [None] and [0] are false. *)
Definition truthy_int (x : option Z) : bool :=
  match x with
  | Some z => negb (Z.eqb z 0)
  | None => false
  end.

(** Truth value of an optional boolean. *)
Definition truthy_bool (x : option bool) : bool :=
  match x with Some b => b | None => false end.

(** [a or b] on strings: [a] when it is true, else [b]. *)
Definition or_str (a b : string) : string :=
  if truthy a then a else b.

(** [str(b)] for a boolean. *)
Definition str_bool (b : bool) : string :=
  if b then "True" else "False".

(** [str(z)] for an integer. *)
Definition str_int (z : Z) : string :=
  NilZero.string_of_int (Z.to_int z).

(** [str(x)] where [x] is a boolean or [None]. *)
Definition str_opt_bool (x : option bool) : string :=
  match x with Some b => str_bool b | None => "None" end.

(** [str(x)] where [x] is an integer or [None]. *)
Definition str_opt_int (x : option Z) : string :=
  match x with Some z => str_int z | None => "None" end.

(** [str(x)] where [x] is a string or [None]. *)
Definition str_opt_str (x : option string) : string :=
  match x with Some s => s | None => "None" end.

Definition lower_ascii (c : ascii) : ascii :=
  let n := nat_of_ascii c in
  if andb (Nat.leb 65 n) (Nat.leb n 90) then ascii_of_nat (n + 32) else c.

(** [s.lower()] *)
Fixpoint lower (s : string) : string :=
  match s with
  | EmptyString => EmptyString
  | String c s' => String (lower_ascii c) (lower s')
  end.

(** [s.partition(sep)] for a one-character separator: the text before
    the first separator, the separator, and the text after it; when the
    separator does not occur, [(s, '', '')]. *)
Fixpoint partition (sep : ascii) (s : string) : string * string * string :=
  match s with
  | EmptyString => (EmptyString, EmptyString, EmptyString)
  | String c s' =>
      if Ascii.eqb c sep then (EmptyString, String sep EmptyString, s')
      else
        match partition sep s' with
        | (h, EmptyString, _) => (String c s', EmptyString, EmptyString)
        | (h, m, t) => (String c h, m, t)
        end
  end.

End Py.

Import Py.

Notation "x <- m ;; k" := (Py.bind m (fun x => k))
(at level 61, m at next level, right associativity).

(* ================================================================== *)
(** ** xml.etree.ElementTree *)

Module ET.

(** The value stored under an attribute name: a string, or [None] when
    the builder stored an unset field as it was. *)
Definition attrval : Type := option string.

#[warnings="-register-all"]
Inductive Element : Type :=
| Elem (tag : string) (attrib : list (string * attrval))
       (children : list Element).

Definition tag (e : Element) : string :=
  match e with Elem t _ _ => t end.
Definition attrib (e : Element) : list (string * attrval) :=
  match e with Elem _ a _ => a end.
Definition children (e : Element) : list Element :=
  match e with Elem _ _ c => c end.

(** [ET.Element(tag)] *)
Definition new (t : string) : Element := Elem t [] [].

(** [d[k] = v] on an insertion-ordered dictionary. *)
Fixpoint dict_set (d : list (string * attrval)) (k : string) (v : attrval)
  : list (string * attrval) :=
  match d with
  | [] => [(k, v)]
  | (k', v') :: d' =>
      if String.eqb k' k then (k, v) :: d' else (k', v') :: dict_set d' k v
  end.

(** [k in d] and [d[k]] *)
Fixpoint dict_get (d : list (string * attrval)) (k : string)
  : option attrval :=
  match d with
  | [] => None
  | (k', v') :: d' => if String.eqb k' k then Some v' else dict_get d' k
  end.

(** [e.attrib[k] = v] *)
Definition set (e : Element) (k : string) (v : attrval) : Element :=
  match e with Elem t a c => Elem t (dict_set a k v) c end.

(** [e.attrib[k] = s] for a string [s]. *)
Definition sets (e : Element) (k : string) (s : string) : Element :=
  set e k (Some s).

(** The value of attribute [k] of [e], when [e] has one. *)
Definition get (e : Element) (k : string) : option attrval :=
  dict_get (attrib e) k.

Definition has (e : Element) (k : string) : bool :=
  match get e k with Some _ => true | None => false end.

(** [if c: e.attrib[k] = v] *)
Definition set_if (c : bool) (e : Element) (k : string) (v : attrval)
  : Element :=
  if c then set e k v else e.

(** [if c: e.attrib[k] = s] for a string [s]. *)
Definition sets_if (c : bool) (e : Element) (k : string) (s : string)
  : Element :=
  if c then sets e k s else e.

(** Appending a finished child: [ET.SubElement(e, ...)]. *)
Definition append (e : Element) (c : Element) : Element :=
  match e with Elem t a cs => Elem t a (cs ++ [c]) end.

(** [if c: ET.SubElement(e, ...)] with the finished child. *)
Definition append_if (c : bool) (e : Element) (child : Element) : Element :=
  if c then append e child else e.

(** The children of [e] with tag [t], in document order. *)
Definition findall (e : Element) (t : string) : list Element :=
  filter (fun c => String.eqb (tag c) t) (children e).

(** The first child of [e] with tag [t]. *)
Definition find (e : Element) (t : string) : option Element :=
  hd_error (findall e t).

(** The double-quote character. *)
Definition dquote : ascii := ascii_of_nat 34.

(** Escaping of an attribute value by the serializer. *)
Definition escape_attrib_char (c : ascii) : string :=
  if Ascii.eqb c "&" then "&amp;"
  else if Ascii.eqb c "<" then "&lt;"
  else if Ascii.eqb c ">" then "&gt;"
  else if Ascii.eqb c dquote then "&quot;"
  else if Ascii.eqb c "013" then "&#13;"
  else if Ascii.eqb c "010" then "&#10;"
  else if Ascii.eqb c "009" then "&#09;"
  else String c EmptyString.

Fixpoint escape_attrib (s : string) : string :=
  match s with
  | EmptyString => EmptyString
  | String c s' => escape_attrib_char c ++ escape_attrib s'
  end.

Definition serialize_attr (kv : string * attrval) : result string :=
  match snd kv with
  | Some v => Ok (" " ++ fst kv ++ "=" ++ String dquote (escape_attrib v)
                   ++ String dquote EmptyString)
  | None => Raise (TypeError "cannot serialize None (type NoneType)")
  end.

Fixpoint serialize_attrs (d : list (string * attrval)) : result string :=
  match d with
  | [] => Ok EmptyString
  | kv :: d' =>
      x <- serialize_attr kv ;;
      y <- serialize_attrs d' ;;
      Ok (x ++ y)
  end.

(** [ET.tostring(e)]: the element, its attributes in insertion order,
    its children in order; an element without children is written in
    the short form. *)
Fixpoint tostring (e : Element) : result string :=
  match e with
  | Elem t a cs =>
      attrs <- serialize_attrs a ;;
      match cs with
      | [] => Ok ("<" ++ t ++ attrs ++ " />")
      | _ =>
          body <- (fix go (l : list Element) : result string :=
                     match l with
                     | [] => Ok EmptyString
                     | c :: l' =>
                         x <- tostring c ;;
                         y <- go l' ;;
                         Ok (x ++ y)
                     end) cs ;;
          Ok ("<" ++ t ++ attrs ++ ">" ++ body ++ "</" ++ t ++ ">")
      end
  end.

End ET.

(* ================================================================== *)
(** ** Items read by the builders

    The item classes live in [tableauserverclient.models]; a builder only
    reads their attributes.  Each record lists the attributes the
    builders below read, with the type of value the attribute holds. *)

Module ConnectionCredentials.
Record t : Type := mk {
  name : option string;
  password : option string;
  embed : bool;
  oauth : bool
}.
End ConnectionCredentials.

Module ConnectionItem.
Record t : Type := mk {
  server_address : option string;
  server_port : option string;
  username : option string;
  password : option string;
  embed_password : option bool;
  connection_credentials : option ConnectionCredentials.t
}.
End ConnectionItem.

Module DataAlertItem.
Record t : Type := mk {
  subject : option string;
  frequency : option string;
  public : option bool;
  owner_id : option string
}.
End DataAlertItem.

Module DatabaseItem.
Record t : Type := mk {
  contact_id : option string;
  certified : option bool;
  certification_note : option string;
  description : option string
}.
End DatabaseItem.

Module TableItem.
Record t : Type := mk {
  contact_id : option string;
  certified : option bool;
  certification_note : option string;
  description : option string
}.
End TableItem.

Module DatasourceItem.
Record t : Type := mk {
  name : option string;
  description : option string;
  use_remote_query_agent : option bool;
  ask_data_enablement : option string;
  project_id : option string;
  owner_id : option string;
  certified : option bool;
  certification_note : option string;
  encrypt_extracts : option bool
}.
End DatasourceItem.

Module FlowItem.
Record t : Type := mk {
  name : option string;
  project_id : option string;
  owner_id : option string
}.
End FlowItem.

Module GroupItem.
Record t : Type := mk {
  name : option string;
  domain_name : option string;
  license_mode : option string;
  minimum_site_role : option string
}.

(** [group_item.minimum_site_role = v] *)
Definition set_minimum_site_role (g : t) (v : option string) : t :=
  mk (name g) (domain_name g) (license_mode g) v.
End GroupItem.

Module UserItem.
Record t : Type := mk {
  name : option string;
  fullname : option string;
  email : option string;
  site_role : option string;
  auth_setting : option string
}.
End UserItem.

Module WorkbookItem.
Record t : Type := mk {
  name : option string;
  show_tabs : option bool;
  project_id : option string;
  owner_id : option string;
  hidden_views : option (list string);
  acceleration_enabled : option bool;
  accelerate_now : option bool
}.

(** [workbook_item.hidden_views = v] *)
Definition set_hidden_views (w : t) (v : option (list string)) : t :=
  mk (name w) (show_tabs w) (project_id w) (owner_id w) v
     (acceleration_enabled w) (accelerate_now w).
End WorkbookItem.

(** The server object handed to the site builders. *)
Module Server.
Record t : Type := mk {
  new_flow_settings : bool
}.
End Server.

Module SiteItem.
Record t : Type := mk {
  name : option string;
  content_url : option string;
  admin_mode : option string;
  user_quota : option Z;
  state : option string;
  storage_quota : option Z;
  disable_subscriptions : option bool;
  subscribe_others_enabled : option bool;
  revision_limit : option Z;
  revision_history_enabled : option bool;
  data_acceleration_mode : option string;
  cataloging_enabled : option bool;
  editing_flows_enabled : option bool;
  scheduling_flows_enabled : option bool;
  flows_enabled : option bool;
  allow_subscription_attachments : option bool;
  guest_access_enabled : option bool;
  cache_warmup_enabled : option bool;
  commenting_enabled : option bool;
  extract_encryption_mode : option string;
  request_access_enabled : option bool;
  run_now_enabled : option bool;
  tier_creator_capacity : option Z;
  tier_explorer_capacity : option Z;
  tier_viewer_capacity : option Z;
  data_alerts_enabled : option bool;
  commenting_mentions_enabled : option bool;
  catalog_obfuscation_enabled : option bool;
  flow_auto_save_enabled : option bool;
  web_extraction_enabled : option bool;
  metrics_content_type_enabled : option bool;
  notify_site_admins_on_throttle : option bool;
  authoring_enabled : option bool;
  custom_subscription_email_enabled : option bool;
  custom_subscription_email : option string;
  custom_subscription_footer_enabled : option bool;
  custom_subscription_footer : option string;
  ask_data_mode : option string;
  named_sharing_enabled : option bool;
  mobile_biometrics_enabled : option bool;
  sheet_image_enabled : option bool;
  derived_permissions_enabled : option bool;
  user_visibility_mode : option string;
  use_default_time_zone : option bool;
  time_zone : option string;
  auto_suspend_refresh_enabled : option bool;
  auto_suspend_refresh_inactivity_window : option Z
}.

(** Modelled from the spec: [SiteItem.use_new_flow_settings] is declared
    with the item classes, outside this module.  The spec describes it as
    the capability flag supplied by the caller's server context that
    selects between the legacy single flag and the split flags. *)
Definition use_new_flow_settings (parent_srv : Server.t) : bool :=
  Server.new_flow_settings parent_srv.

(** A site item with every attribute unset. *)
Definition empty : t :=
  mk None None None None None None None None None None None None None None
     None None None None None None None None None None None None None None
     None None None None None None None None None None None None None None
     None None None None None.
(** [site_item.flows_enabled = v] *)
Definition set_flows_enabled (s : t) (v : option bool) : t :=
  mk (name s) (content_url s) (admin_mode s) (user_quota s) (state s)
    (storage_quota s) (disable_subscriptions s) (subscribe_others_enabled s)
    (revision_limit s) (revision_history_enabled s)
    (data_acceleration_mode s) (cataloging_enabled s)
    (editing_flows_enabled s) (scheduling_flows_enabled s) v
    (allow_subscription_attachments s) (guest_access_enabled s)
    (cache_warmup_enabled s) (commenting_enabled s)
    (extract_encryption_mode s) (request_access_enabled s)
    (run_now_enabled s) (tier_creator_capacity s) (tier_explorer_capacity s)
    (tier_viewer_capacity s) (data_alerts_enabled s)
    (commenting_mentions_enabled s) (catalog_obfuscation_enabled s)
    (flow_auto_save_enabled s) (web_extraction_enabled s)
    (metrics_content_type_enabled s) (notify_site_admins_on_throttle s)
    (authoring_enabled s) (custom_subscription_email_enabled s)
    (custom_subscription_email s) (custom_subscription_footer_enabled s)
    (custom_subscription_footer s) (ask_data_mode s)
    (named_sharing_enabled s) (mobile_biometrics_enabled s)
    (sheet_image_enabled s) (derived_permissions_enabled s)
    (user_visibility_mode s) (use_default_time_zone s) (time_zone s)
    (auto_suspend_refresh_enabled s)
    (auto_suspend_refresh_inactivity_window s).

(** [site_item.editing_flows_enabled = v] *)
Definition set_editing_flows_enabled (s : t) (v : option bool) : t :=
  mk (name s) (content_url s) (admin_mode s) (user_quota s) (state s)
    (storage_quota s) (disable_subscriptions s) (subscribe_others_enabled s)
    (revision_limit s) (revision_history_enabled s)
    (data_acceleration_mode s) (cataloging_enabled s) v
    (scheduling_flows_enabled s) (flows_enabled s)
    (allow_subscription_attachments s) (guest_access_enabled s)
    (cache_warmup_enabled s) (commenting_enabled s)
    (extract_encryption_mode s) (request_access_enabled s)
    (run_now_enabled s) (tier_creator_capacity s) (tier_explorer_capacity s)
    (tier_viewer_capacity s) (data_alerts_enabled s)
    (commenting_mentions_enabled s) (catalog_obfuscation_enabled s)
    (flow_auto_save_enabled s) (web_extraction_enabled s)
    (metrics_content_type_enabled s) (notify_site_admins_on_throttle s)
    (authoring_enabled s) (custom_subscription_email_enabled s)
    (custom_subscription_email s) (custom_subscription_footer_enabled s)
    (custom_subscription_footer s) (ask_data_mode s)
    (named_sharing_enabled s) (mobile_biometrics_enabled s)
    (sheet_image_enabled s) (derived_permissions_enabled s)
    (user_visibility_mode s) (use_default_time_zone s) (time_zone s)
    (auto_suspend_refresh_enabled s)
    (auto_suspend_refresh_inactivity_window s).

(** [site_item.scheduling_flows_enabled = v] *)
Definition set_scheduling_flows_enabled (s : t) (v : option bool) : t :=
  mk (name s) (content_url s) (admin_mode s) (user_quota s) (state s)
    (storage_quota s) (disable_subscriptions s) (subscribe_others_enabled s)
    (revision_limit s) (revision_history_enabled s)
    (data_acceleration_mode s) (cataloging_enabled s)
    (editing_flows_enabled s) v (flows_enabled s)
    (allow_subscription_attachments s) (guest_access_enabled s)
    (cache_warmup_enabled s) (commenting_enabled s)
    (extract_encryption_mode s) (request_access_enabled s)
    (run_now_enabled s) (tier_creator_capacity s) (tier_explorer_capacity s)
    (tier_viewer_capacity s) (data_alerts_enabled s)
    (commenting_mentions_enabled s) (catalog_obfuscation_enabled s)
    (flow_auto_save_enabled s) (web_extraction_enabled s)
    (metrics_content_type_enabled s) (notify_site_admins_on_throttle s)
    (authoring_enabled s) (custom_subscription_email_enabled s)
    (custom_subscription_email s) (custom_subscription_footer_enabled s)
    (custom_subscription_footer s) (ask_data_mode s)
    (named_sharing_enabled s) (mobile_biometrics_enabled s)
    (sheet_image_enabled s) (derived_permissions_enabled s)
    (user_visibility_mode s) (use_default_time_zone s) (time_zone s)
    (auto_suspend_refresh_enabled s)
    (auto_suspend_refresh_inactivity_window s).

(** [site_item.data_alerts_enabled = v] *)
Definition set_data_alerts_enabled (s : t) (v : option bool) : t :=
  mk (name s) (content_url s) (admin_mode s) (user_quota s) (state s)
    (storage_quota s) (disable_subscriptions s) (subscribe_others_enabled s)
    (revision_limit s) (revision_history_enabled s)
    (data_acceleration_mode s) (cataloging_enabled s)
    (editing_flows_enabled s) (scheduling_flows_enabled s) (flows_enabled s)
    (allow_subscription_attachments s) (guest_access_enabled s)
    (cache_warmup_enabled s) (commenting_enabled s)
    (extract_encryption_mode s) (request_access_enabled s)
    (run_now_enabled s) (tier_creator_capacity s) (tier_explorer_capacity s)
    (tier_viewer_capacity s) v (commenting_mentions_enabled s)
    (catalog_obfuscation_enabled s) (flow_auto_save_enabled s)
    (web_extraction_enabled s) (metrics_content_type_enabled s)
    (notify_site_admins_on_throttle s) (authoring_enabled s)
    (custom_subscription_email_enabled s) (custom_subscription_email s)
    (custom_subscription_footer_enabled s) (custom_subscription_footer s)
    (ask_data_mode s) (named_sharing_enabled s)
    (mobile_biometrics_enabled s) (sheet_image_enabled s)
    (derived_permissions_enabled s) (user_visibility_mode s)
    (use_default_time_zone s) (time_zone s) (auto_suspend_refresh_enabled s)
    (auto_suspend_refresh_inactivity_window s).

End SiteItem.

(* ================================================================== *)
(** ** Shared helpers of the module *)

(** A field of a multipart body ([urllib3.fields.RequestField]);
    [content_type] is set by [make_multipart]. *)
Module RequestField.
Record t : Type := mk {
  name : string;
  data : string;
  filename : string;
  content_type : option string
}.

Definition make_multipart (f : t) (ct : string) : t :=
  mk (name f) (data f) (filename f) (Some ct).
End RequestField.

(** The multipart primitive [encode_multipart_formdata] of the HTTP
    library: from the fields, a body and a content type.  It draws a
    fresh boundary on each call, so the builders take it as an argument. *)
Definition encoder : Type := list RequestField.t -> string * string.

(** The fields built by the loop of [_add_multipart]. *)
Definition mime_multipart_parts
  (parts : list (string * (string * string * string)))
  : list RequestField.t :=
  map (fun p =>
         match p with
         | (name, (filename, data, content_type)) =>
             RequestField.make_multipart
               (RequestField.mk name data filename None) content_type
         end) parts.

Definition _add_multipart (encode_multipart_formdata : encoder)
  (parts : list (string * (string * string * string))) : string * string :=
  let (xml_request, content_type) :=
    encode_multipart_formdata (mime_multipart_parts parts) in
  let content_type :=
    match partition ";" content_type with
    | (_, sep, tail) => "multipart/mixed" ++ sep ++ tail
    end in
  (xml_request, content_type).

(** The decorator [_tsrequest_wrapped]: the wrapped function fills a fresh
    root, which is then serialized. *)
Definition _tsrequest_wrapped
  (func : ET.Element -> result ET.Element) : result string :=
  let xml_request := ET.new "tsRequest" in
  xml_request <- func xml_request ;;
  ET.tostring xml_request.

Definition _add_credentials_element (parent_element : ET.Element)
  (connection_credentials : ConnectionCredentials.t) : result ET.Element :=
  let credentials_element := ET.new "connectionCredentials" in
  if negb (truthy_str (ConnectionCredentials.password connection_credentials))
     || negb (truthy_str (ConnectionCredentials.name connection_credentials))
  then Raise (ValueError "Connection Credentials must have a name and password")
  else
    let credentials_element :=
      ET.set credentials_element "name"
        (ConnectionCredentials.name connection_credentials) in
    let credentials_element :=
      ET.set credentials_element "password"
        (ConnectionCredentials.password connection_credentials) in
    let credentials_element :=
      ET.sets credentials_element "embed"
        (if ConnectionCredentials.embed connection_credentials
         then "true" else "false") in
    let credentials_element :=
      ET.sets_if
        (ConnectionCredentials.oauth connection_credentials)
        credentials_element "oAuth"
        "true" in
    Ok (ET.append parent_element credentials_element).

Definition _add_connections_element (connections_element : ET.Element)
  (connection : ConnectionItem.t) : result ET.Element :=
  let connection_element := ET.new "connection" in
  if negb (truthy_str (ConnectionItem.server_address connection))
  then Raise (ValueError "Connection must have a server address")
  else
    let connection_element :=
      ET.set connection_element "serverAddress"
        (ConnectionItem.server_address connection) in
    let connection_element :=
      ET.set_if
        (truthy_str (ConnectionItem.server_port connection))
        connection_element "serverPort"
        (ConnectionItem.server_port connection) in
    connection_element <-
      match ConnectionItem.connection_credentials connection with
      | Some connection_credentials =>
          _add_credentials_element connection_element connection_credentials
      | None => Ok connection_element
      end ;;
    Ok (ET.append connections_element connection_element).

(** [for connection in connections: _add_connections_element(...)] *)
Fixpoint add_connections (connections_element : ET.Element)
  (connections : list ConnectionItem.t) : result ET.Element :=
  match connections with
  | [] => Ok connections_element
  | connection :: rest =>
      connections_element <-
        _add_connections_element connections_element connection ;;
      add_connections connections_element rest
  end.

Definition _add_hiddenview_element (views_element : ET.Element)
  (view_name : string) : ET.Element :=
  let view_element := ET.new "view" in
  let view_element := ET.sets view_element "name" view_name in
  let view_element := ET.sets view_element "hidden" "true" in
  ET.append views_element view_element.

(* ================================================================== *)
(** ** The builders *)

Module DataAlertRequest.
Import DataAlertItem.

Definition update_element (alert_item : DataAlertItem.t)
  : ET.Element :=
  let dataAlert_element := ET.new "dataAlert" in
  let dataAlert_element :=
    ET.set_if (is_not_None (subject alert_item)) dataAlert_element "subject"
      (subject alert_item) in
  let dataAlert_element :=
    match frequency alert_item with
    | Some f => ET.sets dataAlert_element "frequency" (lower f)
    | None => dataAlert_element
    end in
  let dataAlert_element :=
    ET.sets_if (is_not_None (public alert_item)) dataAlert_element "public"
      (lower (str_opt_bool (public alert_item))) in
  let owner := ET.new "owner" in
  let owner :=
    ET.set_if (is_not_None (owner_id alert_item)) owner "id"
      (owner_id alert_item) in
  ET.append dataAlert_element owner.

Definition update_tree (alert_item : DataAlertItem.t)
  : ET.Element :=
  let xml_request := ET.new "tsRequest" in
  ET.append xml_request (update_element alert_item).

Definition update_req (alert_item : DataAlertItem.t) : result string :=
  ET.tostring (update_tree alert_item).

Definition add_user_to_alert (alert_item : DataAlertItem.t)
  (user_id : option string) : result string :=
  let xml_request := ET.new "tsRequest" in
  let user_element := ET.new "user" in
  let user_element := ET.set user_element "id" user_id in
  ET.tostring (ET.append xml_request user_element).
End DataAlertRequest.

Module DatabaseRequest.
Import DatabaseItem.

Definition update_element (database_item : DatabaseItem.t)
  : ET.Element :=
  let database_element := ET.new "database" in
  let database_element :=
    ET.append_if (truthy_str (contact_id database_item)) database_element
      (ET.set (ET.new "contact") "id" (contact_id database_item)) in
  let database_element :=
    ET.sets database_element "isCertified"
      (lower (str_opt_bool (certified database_item))) in
  let database_element :=
    ET.sets_if
      (truthy_str (certification_note database_item))
      database_element "certificationNote"
      (str_opt_str (certification_note database_item)) in
  let database_element :=
    ET.sets_if
      (truthy_str (description database_item))
      database_element "description"
      (str_opt_str (description database_item)) in
  database_element.

Definition update_tree (database_item : DatabaseItem.t)
  : ET.Element :=
  let xml_request := ET.new "tsRequest" in
  ET.append xml_request (update_element database_item).

Definition update_req (database_item : DatabaseItem.t) : result string :=
  ET.tostring (update_tree database_item).
End DatabaseRequest.

Module TableRequest.
Import TableItem.

Definition update_element (table_item : TableItem.t)
  : ET.Element :=
  let table_element := ET.new "table" in
  let table_element :=
    ET.append_if (truthy_str (contact_id table_item)) table_element
      (ET.set (ET.new "contact") "id" (contact_id table_item)) in
  let table_element :=
    ET.sets table_element "isCertified"
      (lower (str_opt_bool (certified table_item))) in
  let table_element :=
    ET.sets_if
      (truthy_str (certification_note table_item))
      table_element "certificationNote"
      (str_opt_str (certification_note table_item)) in
  let table_element :=
    ET.sets_if
      (truthy_str (description table_item))
      table_element "description"
      (str_opt_str (description table_item)) in
  table_element.

Definition update_tree (table_item : TableItem.t)
  : ET.Element :=
  let xml_request := ET.new "tsRequest" in
  ET.append xml_request (update_element table_item).

Definition update_req (table_item : TableItem.t) : result string :=
  ET.tostring (update_tree table_item).
End TableRequest.

Definition both_set_message : string :=
  "You cannot set both `connections` and `connection_credentials`".

Module DatasourceRequest.
Import DatasourceItem.

Definition generate_tree (datasource_item : DatasourceItem.t)
  (connection_credentials : option ConnectionCredentials.t)
  (connections : option (list ConnectionItem.t)) : result ET.Element :=
  let xml_request := ET.new "tsRequest" in
  let datasource_element := ET.new "datasource" in
  let datasource_element :=
    ET.set datasource_element "name" (name datasource_item) in
  let datasource_element :=
    ET.sets_if
      (truthy_str (description datasource_item))
      datasource_element "description"
      (str_opt_str (description datasource_item)) in
  let datasource_element :=
    ET.sets_if
      (is_not_None (use_remote_query_agent datasource_item))
      datasource_element "useRemoteQueryAgent"
      (lower (str_opt_bool (use_remote_query_agent datasource_item))) in
  let datasource_element :=
    ET.append_if
      (truthy_str (ask_data_enablement datasource_item))
      datasource_element
      (ET.set (ET.new "askData") "enablement"
         (ask_data_enablement datasource_item)) in
  let datasource_element :=
    ET.append datasource_element
      (ET.set (ET.new "project") "id" (project_id datasource_item)) in
  if is_not_None connection_credentials && is_not_None connections
  then Raise (RuntimeError both_set_message)
  else
    datasource_element <-
      match connection_credentials with
      | Some cc => _add_credentials_element datasource_element cc
      | None => Ok datasource_element
      end ;;
    datasource_element <-
      match connections with
      | Some cs =>
          connections_element <- add_connections (ET.new "connections") cs ;;
          Ok (ET.append datasource_element connections_element)
      | None => Ok datasource_element
      end ;;
    Ok (ET.append xml_request datasource_element).

Definition _generate_xml (datasource_item : DatasourceItem.t)
  (connection_credentials : option ConnectionCredentials.t)
  (connections : option (list ConnectionItem.t)) : result string :=
  xml_request <-
    generate_tree datasource_item connection_credentials connections ;;
  ET.tostring xml_request.

Definition update_element (datasource_item : DatasourceItem.t)
  : ET.Element :=
  let datasource_element := ET.new "datasource" in
  let datasource_element :=
    ET.set_if (truthy_str (name datasource_item)) datasource_element "name"
      (name datasource_item) in
  let datasource_element :=
    ET.append_if
      (truthy_str (ask_data_enablement datasource_item))
      datasource_element
      (ET.set (ET.new "askData") "enablement"
         (ask_data_enablement datasource_item)) in
  let datasource_element :=
    ET.append_if (truthy_str (project_id datasource_item)) datasource_element
      (ET.set (ET.new "project") "id" (project_id datasource_item)) in
  let datasource_element :=
    ET.append_if (truthy_str (owner_id datasource_item)) datasource_element
      (ET.set (ET.new "owner") "id" (owner_id datasource_item)) in
  let datasource_element :=
    ET.sets datasource_element "isCertified"
      (lower (str_opt_bool (certified datasource_item))) in
  let datasource_element :=
    ET.sets_if
      (truthy_str (certification_note datasource_item))
      datasource_element "certificationNote"
      (str_opt_str (certification_note datasource_item)) in
  let datasource_element :=
    ET.sets_if
      (is_not_None (encrypt_extracts datasource_item))
      datasource_element "encryptExtracts"
      (lower (str_opt_bool (encrypt_extracts datasource_item))) in
  datasource_element.

Definition update_tree (datasource_item : DatasourceItem.t)
  : ET.Element :=
  let xml_request := ET.new "tsRequest" in
  ET.append xml_request (update_element datasource_item).

Definition update_req (datasource_item : DatasourceItem.t) : result string :=
  ET.tostring (update_tree datasource_item).

Definition publish_parts (xml_request filename file_contents : string)
  : list (string * (string * string * string)) :=
  [ ("request_payload", ("", xml_request, "text/xml"));
    ("tableau_datasource",
      (filename, file_contents, "application/octet-stream")) ].

Definition publish_req (encode_multipart_formdata : encoder)
  (datasource_item : DatasourceItem.t) (filename file_contents : string)
  (connection_credentials : option ConnectionCredentials.t)
  (connections : option (list ConnectionItem.t))
  : result (string * string) :=
  xml_request <-
    _generate_xml datasource_item connection_credentials connections ;;
  let parts := publish_parts xml_request filename file_contents in
  Ok (_add_multipart encode_multipart_formdata parts).

Definition publish_req_chunked (encode_multipart_formdata : encoder)
  (datasource_item : DatasourceItem.t)
  (connection_credentials : option ConnectionCredentials.t)
  (connections : option (list ConnectionItem.t))
  : result (string * string) :=
  xml_request <-
    _generate_xml datasource_item connection_credentials connections ;;
  let parts := [ ("request_payload", ("", xml_request, "text/xml")) ] in
  Ok (_add_multipart encode_multipart_formdata parts).
End DatasourceRequest.

Module FlowRequest.
Import FlowItem.

Definition generate_tree (flow_item : FlowItem.t)
  (connections : option (list ConnectionItem.t)) : result ET.Element :=
  let xml_request := ET.new "tsRequest" in
  let flow_element := ET.new "flow" in
  let flow_element :=
    ET.set_if (is_not_None (name flow_item)) flow_element "name"
      (name flow_item) in
  let flow_element :=
    ET.append flow_element
      (ET.set (ET.new "project") "id" (project_id flow_item)) in
  flow_element <-
    match connections with
    | Some cs =>
        connections_element <- add_connections (ET.new "connections") cs ;;
        Ok (ET.append flow_element connections_element)
    | None => Ok flow_element
    end ;;
  Ok (ET.append xml_request flow_element).

Definition _generate_xml (flow_item : FlowItem.t)
  (connections : option (list ConnectionItem.t)) : result string :=
  xml_request <- generate_tree flow_item connections ;;
  ET.tostring xml_request.

Definition publish_parts (xml_request filename file_contents : string)
  : list (string * (string * string * string)) :=
  [ ("request_payload", ("", xml_request, "text/xml"));
    ("tableau_flow", (filename, file_contents, "application/octet-stream")) ].

Definition publish_req (encode_multipart_formdata : encoder)
  (flow_item : FlowItem.t) (filename file_contents : string)
  (connections : option (list ConnectionItem.t))
  : result (string * string) :=
  xml_request <- _generate_xml flow_item connections ;;
  let parts := publish_parts xml_request filename file_contents in
  Ok (_add_multipart encode_multipart_formdata parts).

Definition update_element (flow_item : FlowItem.t) : ET.Element :=
  let flow_element := ET.new "flow" in
  let flow_element :=
    ET.append_if (truthy_str (project_id flow_item)) flow_element
      (ET.set (ET.new "project") "id" (project_id flow_item)) in
  let flow_element :=
    ET.append_if (truthy_str (owner_id flow_item)) flow_element
      (ET.set (ET.new "owner") "id" (owner_id flow_item)) in
  flow_element.

Definition update_req (flow_item : FlowItem.t) : result string :=
  let xml_request := ET.new "tsRequest" in
  ET.tostring (ET.append xml_request (update_element flow_item)).

Definition publish_req_chunked (encode_multipart_formdata : encoder)
  (flow_item : FlowItem.t) (connections : option (list ConnectionItem.t))
  : result (string * string) :=
  xml_request <- _generate_xml flow_item connections ;;
  let parts := [ ("request_payload", ("", xml_request, "text/xml")) ] in
  Ok (_add_multipart encode_multipart_formdata parts).
End FlowRequest.

Module GroupRequest.
Import GroupItem.

Definition deprecated_role_warning : string :=
  "RequestFactory.Group.update_req(...default_site_role="
  ++ String ET.dquote (String ET.dquote
       ") is deprecated, please set the minimum_site_role field of GroupItem").

Definition create_local_tree (group_item : GroupItem.t)
  : result ET.Element :=
  let xml_request := ET.new "tsRequest" in
  let group_element := ET.new "group" in
  if is_not_None (name group_item) then
    let group_element := ET.set group_element "name" (name group_item) in
    let group_element :=
      ET.set_if
        (is_not_None (minimum_site_role group_item))
        group_element "minimumSiteRole"
        (minimum_site_role group_item) in
    Ok (ET.append xml_request group_element)
  else Raise (ValueError "Group name must be populated").

Definition create_local_req (group_item : GroupItem.t) : result string :=
  xml_request <- create_local_tree group_item ;;
  ET.tostring xml_request.

(** The body of [update_req] after the handling of the deprecated
    argument. *)
Definition update_tree (group_item : GroupItem.t) : result ET.Element :=
  let xml_request := ET.new "tsRequest" in
  let group_element := ET.new "group" in
  if is_not_None (name group_item) then
    let group_element := ET.set group_element "name" (name group_item) in
    group_element <-
      match domain_name group_item with
      | Some d =>
          if negb (String.eqb d "local") then
            let import_element := ET.new "import" in
            let import_element :=
              ET.sets import_element "source" "ActiveDirectory" in
            let import_element := ET.sets import_element "domainName" d in
            match minimum_site_role group_item with
            | Some r =>
                let import_element := ET.sets import_element "siteRole" r in
                let import_element :=
                  ET.set_if
                    (is_not_None (license_mode group_item))
                    import_element "grantLicenseMode"
                    (license_mode group_item) in
                Ok (ET.append group_element import_element)
            | None => Raise (ValueError "Minimum site role must be provided.")
            end
          else
            Ok (if is_not_None (minimum_site_role group_item)
                then ET.set group_element "minimumSiteRole"
                       (minimum_site_role group_item)
                else group_element)
      | None =>
          Ok (if is_not_None (minimum_site_role group_item)
              then ET.set group_element "minimumSiteRole"
                     (minimum_site_role group_item)
              else group_element)
      end ;;
    Ok (ET.append xml_request group_element)
  else Raise (ValueError "Group name must be populated").

(** [update_req] returns the group item as the call leaves it, the
    warnings issued, and the request or the exception. *)
Definition update_req (group_item : GroupItem.t)
  (default_site_role : option string)
  : GroupItem.t * list warning * result string :=
  let (group_item, warns) :=
    match default_site_role with
    | Some r =>
        (set_minimum_site_role group_item (Some r),
         [DeprecationWarning deprecated_role_warning])
    | None => (group_item, [])
    end in
  (group_item, warns,
   xml_request <- update_tree group_item ;; ET.tostring xml_request).

Definition add_user_req (user_id : option string) : result string :=
  let xml_request := ET.new "tsRequest" in
  let user_element := ET.new "user" in
  let user_element := ET.set user_element "id" user_id in
  ET.tostring (ET.append xml_request user_element).

Definition create_ad_tree (group_item : GroupItem.t) : result ET.Element :=
  let xml_request := ET.new "tsRequest" in
  let group_element := ET.new "group" in
  if is_not_None (name group_item) then
    let group_element := ET.set group_element "name" (name group_item) in
    let import_element := ET.new "import" in
    let import_element :=
      ET.sets import_element "source" "ActiveDirectory" in
    if is_not_None (domain_name group_item) then
      let import_element :=
        ET.set import_element "domainName" (domain_name group_item) in
      let import_element :=
        ET.set_if (is_not_None (license_mode group_item)) import_element
          "grantLicenseMode" (license_mode group_item) in
      let import_element :=
        ET.set_if (is_not_None (minimum_site_role group_item))
          import_element "siteRole" (minimum_site_role group_item) in
      Ok (ET.append xml_request (ET.append group_element import_element))
    else Raise (ValueError "Group Domain undefined.")
  else Raise (ValueError "Group name must be populated").

Definition create_ad_req (group_item : GroupItem.t) : result string :=
  xml_request <- create_ad_tree group_item ;;
  ET.tostring xml_request.
End GroupRequest.

Module UserRequest.
Import UserItem.

Definition update_element (user_item : UserItem.t) (password : option string)
  : ET.Element :=
  let user_element := ET.new "user" in
  let user_element :=
    ET.set_if (truthy_str (fullname user_item)) user_element "fullName"
      (fullname user_item) in
  let user_element :=
    ET.set_if (truthy_str (email user_item)) user_element "email"
      (email user_item) in
  let user_element :=
    match site_role user_item with
    | Some r =>
        if truthy r then
          if negb (String.eqb r "ServerAdministrator")
          then ET.sets user_element "siteRole" r
          else user_element
        else user_element
    | None => user_element
    end in
  let user_element :=
    ET.set_if (truthy_str (auth_setting user_item)) user_element "authSetting"
      (auth_setting user_item) in
  let user_element :=
    ET.set_if (truthy_str password) user_element "password" password in
  user_element.

Definition update_tree (user_item : UserItem.t) (password : option string)
  : ET.Element :=
  let xml_request := ET.new "tsRequest" in
  ET.append xml_request (update_element user_item password).

Definition update_req (user_item : UserItem.t) (password : option string)
  : result string :=
  ET.tostring (update_tree user_item password).

(** The messages of [add_req] print the item ([f"{user_item} ..."]); the
    printed form of an item is defined with the item classes, so the
    builder takes it as [fmt]. *)
Definition add_tree (fmt : UserItem.t -> string) (user_item : UserItem.t)
  : result ET.Element :=
  let xml_request := ET.new "tsRequest" in
  let user_element := ET.new "user" in
  match name user_item with
  | Some n =>
      let user_element := ET.sets user_element "name" n in
      match site_role user_item with
      | Some r =>
          let user_element := ET.sets user_element "siteRole" r in
          let user_element :=
            ET.set_if
              (truthy_str (auth_setting user_item))
              user_element "authSetting"
              (auth_setting user_item) in
          Ok (ET.append xml_request user_element)
      | None =>
          Raise (ValueError
                   (fmt user_item ++ " must have site role populated."))
      end
  | None => Raise (ValueError (fmt user_item ++ " missing name."))
  end.

Definition add_req (fmt : UserItem.t -> string) (user_item : UserItem.t)
  : result string :=
  xml_request <- add_tree fmt user_item ;;
  ET.tostring xml_request.
End UserRequest.

Module SiteRequest.
Import SiteItem.

Definition new_scheme_warning : string :=
  "FlowsEnabled has been removed and become two options:"
  ++ " SchedulingFlowsEnabled and EditingFlowsEnabled".

Definition legacy_scheme_warning : string :=
  "In version 3.10 and earlier there is only one option: FlowsEnabled".

(** [(not parent_srv) or SiteItem.use_new_flow_settings(parent_srv)] *)
Definition new_scheme (parent_srv : option Server.t) : bool :=
  match parent_srv with
  | None => true
  | Some srv => SiteItem.use_new_flow_settings srv
  end.

Definition set_versioned_flow_attributes
  (flows_all flows_edit flows_schedule : string)
  (parent_srv : option Server.t) (site_element : ET.Element)
  (site_item : SiteItem.t) : ET.Element * list warning :=
  if new_scheme parent_srv then
    let '(flows_edit, flows_schedule, warns) :=
      if is_not_None (flows_enabled site_item)
      then (or_str flows_edit flows_all, or_str flows_schedule flows_all,
            [UserWarning new_scheme_warning])
      else (flows_edit, flows_schedule, []) in
    let site_element :=
      ET.sets_if
        (is_not_None (editing_flows_enabled site_item))
        site_element "editingFlowsEnabled"
        flows_edit in
    let site_element :=
      ET.sets_if
        (is_not_None (scheduling_flows_enabled site_item))
        site_element "schedulingFlowsEnabled"
        flows_schedule in
    (site_element, warns)
  else
    let site_element :=
      ET.sets_if
        (is_not_None (flows_enabled site_item))
        site_element "flowsEnabled"
        (lower (str_opt_bool (flows_enabled site_item))) in
    if is_not_None (editing_flows_enabled site_item)
       || is_not_None (scheduling_flows_enabled site_item)
    then
      let flows_all := or_str (or_str flows_all flows_edit) flows_schedule in
      (ET.sets site_element "flowsEnabled" flows_all,
       [UserWarning legacy_scheme_warning])
    else (site_element, []).

(** The [site] element of [update_req] and the warnings it issued. *)
Definition update_element (site_item : SiteItem.t)
  (parent_srv : option Server.t) : ET.Element * list warning :=
  let site_element := ET.new "site" in
  let site_element :=
    ET.set_if (truthy_str (name site_item)) site_element "name"
      (name site_item) in
  let site_element :=
    ET.set_if (truthy_str (content_url site_item)) site_element "contentUrl"
      (content_url site_item) in
  let site_element :=
    ET.set_if (truthy_str (admin_mode site_item)) site_element "adminMode"
      (admin_mode site_item) in
  let site_element :=
    ET.sets_if (truthy_int (user_quota site_item)) site_element "userQuota"
      (str_opt_int (user_quota site_item)) in
  let site_element :=
    ET.set_if (truthy_str (state site_item)) site_element "state"
      (state site_item) in
  let site_element :=
    ET.sets_if
      (truthy_int (storage_quota site_item))
      site_element "storageQuota"
      (str_opt_int (storage_quota site_item)) in
  let site_element :=
    ET.sets_if
      (is_not_None (disable_subscriptions site_item))
      site_element "disableSubscriptions"
      (lower (str_opt_bool (disable_subscriptions site_item))) in
  let site_element :=
    ET.sets_if
      (is_not_None (subscribe_others_enabled site_item))
      site_element "subscribeOthersEnabled"
      (lower (str_opt_bool (subscribe_others_enabled site_item))) in
  let site_element :=
    ET.sets_if
      (truthy_int (revision_limit site_item))
      site_element "revisionLimit"
      (str_opt_int (revision_limit site_item)) in
  let site_element :=
    ET.sets_if
      (is_not_None (revision_history_enabled site_item))
      site_element "revisionHistoryEnabled"
      (lower (str_opt_bool (revision_history_enabled site_item))) in
  let site_element :=
    ET.sets_if
      (is_not_None (data_acceleration_mode site_item))
      site_element "dataAccelerationMode"
      (lower (str_opt_str (data_acceleration_mode site_item))) in
  let site_element :=
    ET.sets_if
      (is_not_None (cataloging_enabled site_item))
      site_element "catalogingEnabled"
      (lower (str_opt_bool (cataloging_enabled site_item))) in
  let flows_edit := lower (str_opt_bool (editing_flows_enabled site_item)) in
  let flows_schedule :=
    lower (str_opt_bool (scheduling_flows_enabled site_item)) in
  let flows_all := lower (str_opt_bool (flows_enabled site_item)) in
  let (site_element, warns) :=
    set_versioned_flow_attributes flows_all flows_edit flows_schedule
      parent_srv site_element site_item in
  let site_element :=
    ET.sets_if
      (is_not_None (allow_subscription_attachments site_item))
      site_element "allowSubscriptionAttachments"
      (lower (str_opt_bool (allow_subscription_attachments site_item))) in
  let site_element :=
    ET.sets_if
      (is_not_None (guest_access_enabled site_item))
      site_element "guestAccessEnabled"
      (lower (str_opt_bool (guest_access_enabled site_item))) in
  let site_element :=
    ET.sets_if
      (is_not_None (cache_warmup_enabled site_item))
      site_element "cacheWarmupEnabled"
      (lower (str_opt_bool (cache_warmup_enabled site_item))) in
  let site_element :=
    ET.sets_if
      (is_not_None (commenting_enabled site_item))
      site_element "commentingEnabled"
      (lower (str_opt_bool (commenting_enabled site_item))) in
  let site_element :=
    ET.sets_if
      (is_not_None (extract_encryption_mode site_item))
      site_element "extractEncryptionMode"
      (lower (str_opt_str (extract_encryption_mode site_item))) in
  let site_element :=
    ET.sets_if
      (is_not_None (request_access_enabled site_item))
      site_element "requestAccessEnabled"
      (lower (str_opt_bool (request_access_enabled site_item))) in
  let site_element :=
    ET.sets_if
      (is_not_None (run_now_enabled site_item))
      site_element "runNowEnabled"
      (lower (str_opt_bool (run_now_enabled site_item))) in
  let site_element :=
    ET.sets_if
      (is_not_None (tier_creator_capacity site_item))
      site_element "tierCreatorCapacity"
      (lower (str_opt_int (tier_creator_capacity site_item))) in
  let site_element :=
    ET.sets_if
      (is_not_None (tier_explorer_capacity site_item))
      site_element "tierExplorerCapacity"
      (lower (str_opt_int (tier_explorer_capacity site_item))) in
  let site_element :=
    ET.sets_if
      (is_not_None (tier_viewer_capacity site_item))
      site_element "tierViewerCapacity"
      (lower (str_opt_int (tier_viewer_capacity site_item))) in
  let site_element :=
    ET.sets_if
      (is_not_None (data_alerts_enabled site_item))
      site_element "dataAlertsEnabled"
      (str_opt_bool (data_alerts_enabled site_item)) in
  let site_element :=
    ET.sets_if
      (is_not_None (commenting_mentions_enabled site_item))
      site_element "commentingMentionsEnabled"
      (lower (str_opt_bool (commenting_mentions_enabled site_item))) in
  let site_element :=
    ET.sets_if
      (is_not_None (catalog_obfuscation_enabled site_item))
      site_element "catalogObfuscationEnabled"
      (lower (str_opt_bool (catalog_obfuscation_enabled site_item))) in
  let site_element :=
    ET.sets_if
      (is_not_None (flow_auto_save_enabled site_item))
      site_element "flowAutoSaveEnabled"
      (lower (str_opt_bool (flow_auto_save_enabled site_item))) in
  let site_element :=
    ET.sets_if
      (is_not_None (web_extraction_enabled site_item))
      site_element "webExtractionEnabled"
      (lower (str_opt_bool (web_extraction_enabled site_item))) in
  let site_element :=
    ET.sets_if
      (is_not_None (metrics_content_type_enabled site_item))
      site_element "metricsContentTypeEnabled"
      (lower (str_opt_bool (metrics_content_type_enabled site_item))) in
  let site_element :=
    ET.sets_if
      (is_not_None (notify_site_admins_on_throttle site_item))
      site_element "notifySiteAdminsOnThrottle"
      (lower (str_opt_bool (notify_site_admins_on_throttle site_item))) in
  let site_element :=
    ET.sets_if
      (is_not_None (authoring_enabled site_item))
      site_element "authoringEnabled"
      (lower (str_opt_bool (authoring_enabled site_item))) in
  let site_element :=
    ET.sets_if
      (is_not_None (custom_subscription_email_enabled site_item))
      site_element "customSubscriptionEmailEnabled"
      (lower (str_opt_bool (custom_subscription_email_enabled site_item))) in
  let site_element :=
    ET.sets_if
      (is_not_None (custom_subscription_email site_item))
      site_element "customSubscriptionEmail"
      (lower (str_opt_str (custom_subscription_email site_item))) in
  let site_element :=
    ET.sets_if
      (is_not_None (custom_subscription_footer_enabled site_item))
      site_element "customSubscriptionFooterEnabled"
      (lower (str_opt_bool (custom_subscription_footer_enabled site_item))) in
  let site_element :=
    ET.sets_if
      (is_not_None (custom_subscription_footer site_item))
      site_element "customSubscriptionFooter"
      (lower (str_opt_str (custom_subscription_footer site_item))) in
  let site_element :=
    ET.sets_if
      (is_not_None (ask_data_mode site_item))
      site_element "askDataMode"
      (str_opt_str (ask_data_mode site_item)) in
  let site_element :=
    ET.sets_if
      (is_not_None (named_sharing_enabled site_item))
      site_element "namedSharingEnabled"
      (lower (str_opt_bool (named_sharing_enabled site_item))) in
  let site_element :=
    ET.sets_if
      (is_not_None (mobile_biometrics_enabled site_item))
      site_element "mobileBiometricsEnabled"
      (lower (str_opt_bool (mobile_biometrics_enabled site_item))) in
  let site_element :=
    ET.sets_if
      (is_not_None (sheet_image_enabled site_item))
      site_element "sheetImageEnabled"
      (lower (str_opt_bool (sheet_image_enabled site_item))) in
  let site_element :=
    ET.sets_if
      (is_not_None (derived_permissions_enabled site_item))
      site_element "derivedPermissionsEnabled"
      (lower (str_opt_bool (derived_permissions_enabled site_item))) in
  let site_element :=
    ET.sets_if
      (is_not_None (user_visibility_mode site_item))
      site_element "userVisibilityMode"
      (str_opt_str (user_visibility_mode site_item)) in
  let site_element :=
    ET.sets_if
      (is_not_None (use_default_time_zone site_item))
      site_element "useDefaultTimeZone"
      (lower (str_opt_bool (use_default_time_zone site_item))) in
  let site_element :=
    ET.sets_if (is_not_None (time_zone site_item)) site_element "timeZone"
      (str_opt_str (time_zone site_item)) in
  let site_element :=
    ET.sets_if
      (is_not_None (auto_suspend_refresh_enabled site_item))
      site_element "autoSuspendRefreshEnabled"
      (lower (str_opt_bool (auto_suspend_refresh_enabled site_item))) in
  let site_element :=
    ET.sets_if
      (is_not_None (auto_suspend_refresh_inactivity_window site_item))
      site_element "autoSuspendRefreshInactivityWindow"
      (str_opt_int (auto_suspend_refresh_inactivity_window site_item)) in
  (site_element, warns).

Definition update_req (site_item : SiteItem.t)
  (parent_srv : option Server.t) : list warning * result string :=
  let xml_request := ET.new "tsRequest" in
  let (site_element, warns) := update_element site_item parent_srv in
  (warns, ET.tostring (ET.append xml_request site_element)).

(** The [site] element of [create_req] and the warnings it issued. *)
Definition create_element (site_item : SiteItem.t)
  (parent_srv : option Server.t) : ET.Element * list warning :=
  let site_element := ET.new "site" in
  let site_element :=
    ET.set site_element "name" (name site_item) in
  let site_element :=
    ET.set site_element "contentUrl" (content_url site_item) in
  let site_element :=
    ET.set_if (truthy_str (admin_mode site_item)) site_element "adminMode"
      (admin_mode site_item) in
  let site_element :=
    ET.sets_if (truthy_int (user_quota site_item)) site_element "userQuota"
      (str_opt_int (user_quota site_item)) in
  let site_element :=
    ET.sets_if
      (truthy_int (storage_quota site_item))
      site_element "storageQuota"
      (str_opt_int (storage_quota site_item)) in
  let site_element :=
    ET.sets_if
      (is_not_None (disable_subscriptions site_item))
      site_element "disableSubscriptions"
      (lower (str_opt_bool (disable_subscriptions site_item))) in
  let site_element :=
    ET.sets_if
      (is_not_None (subscribe_others_enabled site_item))
      site_element "subscribeOthersEnabled"
      (lower (str_opt_bool (subscribe_others_enabled site_item))) in
  let site_element :=
    ET.sets_if
      (truthy_int (revision_limit site_item))
      site_element "revisionLimit"
      (str_opt_int (revision_limit site_item)) in
  let site_element :=
    ET.sets_if
      (is_not_None (data_acceleration_mode site_item))
      site_element "dataAccelerationMode"
      (lower (str_opt_str (data_acceleration_mode site_item))) in
  let flows_edit := lower (str_opt_bool (editing_flows_enabled site_item)) in
  let flows_schedule :=
    lower (str_opt_bool (scheduling_flows_enabled site_item)) in
  let flows_all := lower (str_opt_bool (flows_enabled site_item)) in
  let (site_element, warns) :=
    set_versioned_flow_attributes flows_all flows_edit flows_schedule
      parent_srv site_element site_item in
  let site_element :=
    ET.sets_if
      (is_not_None (allow_subscription_attachments site_item))
      site_element "allowSubscriptionAttachments"
      (lower (str_opt_bool (allow_subscription_attachments site_item))) in
  let site_element :=
    ET.sets_if
      (is_not_None (guest_access_enabled site_item))
      site_element "guestAccessEnabled"
      (lower (str_opt_bool (guest_access_enabled site_item))) in
  let site_element :=
    ET.sets_if
      (is_not_None (cache_warmup_enabled site_item))
      site_element "cacheWarmupEnabled"
      (lower (str_opt_bool (cache_warmup_enabled site_item))) in
  let site_element :=
    ET.sets_if
      (is_not_None (commenting_enabled site_item))
      site_element "commentingEnabled"
      (lower (str_opt_bool (commenting_enabled site_item))) in
  let site_element :=
    ET.sets_if
      (is_not_None (revision_history_enabled site_item))
      site_element "revisionHistoryEnabled"
      (lower (str_opt_bool (revision_history_enabled site_item))) in
  let site_element :=
    ET.sets_if
      (is_not_None (extract_encryption_mode site_item))
      site_element "extractEncryptionMode"
      (lower (str_opt_str (extract_encryption_mode site_item))) in
  let site_element :=
    ET.sets_if
      (is_not_None (request_access_enabled site_item))
      site_element "requestAccessEnabled"
      (lower (str_opt_bool (request_access_enabled site_item))) in
  let site_element :=
    ET.sets_if
      (is_not_None (run_now_enabled site_item))
      site_element "runNowEnabled"
      (lower (str_opt_bool (run_now_enabled site_item))) in
  let site_element :=
    ET.sets_if
      (is_not_None (tier_creator_capacity site_item))
      site_element "tierCreatorCapacity"
      (lower (str_opt_int (tier_creator_capacity site_item))) in
  let site_element :=
    ET.sets_if
      (is_not_None (tier_explorer_capacity site_item))
      site_element "tierExplorerCapacity"
      (lower (str_opt_int (tier_explorer_capacity site_item))) in
  let site_element :=
    ET.sets_if
      (is_not_None (tier_viewer_capacity site_item))
      site_element "tierViewerCapacity"
      (lower (str_opt_int (tier_viewer_capacity site_item))) in
  let site_element :=
    ET.sets_if
      (is_not_None (data_alerts_enabled site_item))
      site_element "dataAlertsEnabled"
      (lower (str_opt_bool (data_alerts_enabled site_item))) in
  let site_element :=
    ET.sets_if
      (is_not_None (commenting_mentions_enabled site_item))
      site_element "commentingMentionsEnabled"
      (lower (str_opt_bool (commenting_mentions_enabled site_item))) in
  let site_element :=
    ET.sets_if
      (is_not_None (catalog_obfuscation_enabled site_item))
      site_element "catalogObfuscationEnabled"
      (lower (str_opt_bool (catalog_obfuscation_enabled site_item))) in
  let site_element :=
    ET.sets_if
      (is_not_None (flow_auto_save_enabled site_item))
      site_element "flowAutoSaveEnabled"
      (lower (str_opt_bool (flow_auto_save_enabled site_item))) in
  let site_element :=
    ET.sets_if
      (is_not_None (web_extraction_enabled site_item))
      site_element "webExtractionEnabled"
      (lower (str_opt_bool (web_extraction_enabled site_item))) in
  let site_element :=
    ET.sets_if
      (is_not_None (metrics_content_type_enabled site_item))
      site_element "metricsContentTypeEnabled"
      (lower (str_opt_bool (metrics_content_type_enabled site_item))) in
  let site_element :=
    ET.sets_if
      (is_not_None (notify_site_admins_on_throttle site_item))
      site_element "notifySiteAdminsOnThrottle"
      (lower (str_opt_bool (notify_site_admins_on_throttle site_item))) in
  let site_element :=
    ET.sets_if
      (is_not_None (authoring_enabled site_item))
      site_element "authoringEnabled"
      (lower (str_opt_bool (authoring_enabled site_item))) in
  let site_element :=
    ET.sets_if
      (is_not_None (custom_subscription_email_enabled site_item))
      site_element "customSubscriptionEmailEnabled"
      (lower (str_opt_bool (custom_subscription_email_enabled site_item))) in
  let site_element :=
    ET.sets_if
      (is_not_None (custom_subscription_email site_item))
      site_element "customSubscriptionEmail"
      (lower (str_opt_str (custom_subscription_email site_item))) in
  let site_element :=
    ET.sets_if
      (is_not_None (custom_subscription_footer_enabled site_item))
      site_element "customSubscriptionFooterEnabled"
      (lower (str_opt_bool (custom_subscription_footer_enabled site_item))) in
  let site_element :=
    ET.sets_if
      (is_not_None (custom_subscription_footer site_item))
      site_element "customSubscriptionFooter"
      (lower (str_opt_str (custom_subscription_footer site_item))) in
  let site_element :=
    ET.sets_if
      (is_not_None (ask_data_mode site_item))
      site_element "askDataMode"
      (str_opt_str (ask_data_mode site_item)) in
  let site_element :=
    ET.sets_if
      (is_not_None (named_sharing_enabled site_item))
      site_element "namedSharingEnabled"
      (lower (str_opt_bool (named_sharing_enabled site_item))) in
  let site_element :=
    ET.sets_if
      (is_not_None (mobile_biometrics_enabled site_item))
      site_element "mobileBiometricsEnabled"
      (lower (str_opt_bool (mobile_biometrics_enabled site_item))) in
  let site_element :=
    ET.sets_if
      (is_not_None (sheet_image_enabled site_item))
      site_element "sheetImageEnabled"
      (lower (str_opt_bool (sheet_image_enabled site_item))) in
  let site_element :=
    ET.sets_if
      (is_not_None (cataloging_enabled site_item))
      site_element "catalogingEnabled"
      (lower (str_opt_bool (cataloging_enabled site_item))) in
  let site_element :=
    ET.sets_if
      (is_not_None (derived_permissions_enabled site_item))
      site_element "derivedPermissionsEnabled"
      (lower (str_opt_bool (derived_permissions_enabled site_item))) in
  let site_element :=
    ET.sets_if
      (is_not_None (user_visibility_mode site_item))
      site_element "userVisibilityMode"
      (str_opt_str (user_visibility_mode site_item)) in
  let site_element :=
    ET.sets_if
      (is_not_None (use_default_time_zone site_item))
      site_element "useDefaultTimeZone"
      (lower (str_opt_bool (use_default_time_zone site_item))) in
  let site_element :=
    ET.sets_if (is_not_None (time_zone site_item)) site_element "timeZone"
      (str_opt_str (time_zone site_item)) in
  let site_element :=
    ET.sets_if
      (is_not_None (auto_suspend_refresh_enabled site_item))
      site_element "autoSuspendRefreshEnabled"
      (lower (str_opt_bool (auto_suspend_refresh_enabled site_item))) in
  let site_element :=
    ET.sets_if
      (is_not_None (auto_suspend_refresh_inactivity_window site_item))
      site_element "autoSuspendRefreshInactivityWindow"
      (str_opt_int (auto_suspend_refresh_inactivity_window site_item)) in
  (site_element, warns).

Definition create_req (site_item : SiteItem.t)
  (parent_srv : option Server.t) : list warning * result string :=
  let xml_request := ET.new "tsRequest" in
  let (site_element, warns) := create_element site_item parent_srv in
  (warns, ET.tostring (ET.append xml_request site_element)).
End SiteRequest.

Module WorkbookRequest.
Import WorkbookItem.

Definition hidden_views_warning : string :=
  "the hidden_views parameter should now be set on the workbook directly".

(** [for view_name in hidden_views: _add_hiddenview_element(...)] *)
Definition add_hidden_views (views_element : ET.Element)
  (views : list string) : ET.Element :=
  fold_left _add_hiddenview_element views views_element.

(** The workbook element up to and including the connections, which is
    where [_generate_xml] can raise. *)
Definition workbook_head (workbook_item : WorkbookItem.t)
  (connection_credentials : option ConnectionCredentials.t)
  (connections : option (list ConnectionItem.t)) : result ET.Element :=
  let workbook_element := ET.new "workbook" in
  let workbook_element :=
    ET.set workbook_element "name" (name workbook_item) in
  let workbook_element :=
    ET.sets_if
      (truthy_bool (show_tabs workbook_item))
      workbook_element "showTabs"
      (lower (str_opt_bool (show_tabs workbook_item))) in
  let workbook_element :=
    ET.append workbook_element
      (ET.sets (ET.new "project") "id"
         (str_opt_str (project_id workbook_item))) in
  if is_not_None connection_credentials && is_not_None connections
  then Raise (RuntimeError both_set_message)
  else
    workbook_element <-
      match connection_credentials with
      | Some cc => _add_credentials_element workbook_element cc
      | None => Ok workbook_element
      end ;;
    match connections with
    | Some cs =>
        connections_element <- add_connections (ET.new "connections") cs ;;
        Ok (ET.append workbook_element connections_element)
    | None => Ok workbook_element
    end.

(** [_generate_xml] returns the workbook item as the call leaves it, the
    warnings issued, and the tree or the exception. *)
Definition generate_tree (workbook_item : WorkbookItem.t)
  (connection_credentials : option ConnectionCredentials.t)
  (connections : option (list ConnectionItem.t))
  (hidden_views_arg : option (list string))
  : WorkbookItem.t * list warning * result ET.Element :=
  let xml_request := ET.new "tsRequest" in
  match workbook_head workbook_item connection_credentials connections with
  | Raise e => (workbook_item, [], Raise e)
  | Ok workbook_element =>
      let (workbook_item, warns) :=
        match hidden_views_arg with
        | Some hv =>
            (if is_not_None (hidden_views workbook_item)
             then workbook_item
             else set_hidden_views workbook_item (Some hv),
             [DeprecationWarning hidden_views_warning])
        | None => (workbook_item, [])
        end in
      let workbook_element :=
        match hidden_views workbook_item with
        | Some views =>
            ET.append workbook_element
              (add_hidden_views (ET.new "views") views)
        | None => workbook_element
        end in
      (workbook_item, warns, Ok (ET.append xml_request workbook_element))
  end.

Definition _generate_xml (workbook_item : WorkbookItem.t)
  (connection_credentials : option ConnectionCredentials.t)
  (connections : option (list ConnectionItem.t))
  (hidden_views_arg : option (list string))
  : WorkbookItem.t * list warning * result string :=
  match generate_tree workbook_item connection_credentials connections
          hidden_views_arg with
  | (workbook_item, warns, r) =>
      (workbook_item, warns, xml_request <- r ;; ET.tostring xml_request)
  end.

Definition update_element (workbook_item : WorkbookItem.t)
  : ET.Element :=
  let workbook_element := ET.new "workbook" in
  let workbook_element :=
    ET.set_if (truthy_str (name workbook_item)) workbook_element "name"
      (name workbook_item) in
  let workbook_element :=
    ET.sets_if
      (is_not_None (show_tabs workbook_item))
      workbook_element "showTabs"
      (lower (str_opt_bool (show_tabs workbook_item))) in
  let workbook_element :=
    ET.append_if (truthy_str (project_id workbook_item)) workbook_element
      (ET.set (ET.new "project") "id" (project_id workbook_item)) in
  let workbook_element :=
    ET.append_if (truthy_str (owner_id workbook_item)) workbook_element
      (ET.set (ET.new "owner") "id" (owner_id workbook_item)) in
  let workbook_element :=
    if is_not_None (acceleration_enabled workbook_item) then
      let data_acceleration_element := ET.new "dataAccelerationConfig" in
      let data_acceleration_element :=
        ET.sets data_acceleration_element "accelerationEnabled"
          (lower (str_opt_bool (acceleration_enabled workbook_item))) in
      let data_acceleration_element :=
        ET.sets_if
          (is_not_None (accelerate_now workbook_item))
          data_acceleration_element "accelerateNow"
          (lower (str_opt_bool (accelerate_now workbook_item))) in
      ET.append workbook_element data_acceleration_element
    else workbook_element in
  workbook_element.

Definition update_tree (workbook_item : WorkbookItem.t)
  : ET.Element :=
  let xml_request := ET.new "tsRequest" in
  ET.append xml_request (update_element workbook_item).

Definition update_req (workbook_item : WorkbookItem.t) : result string :=
  ET.tostring (update_tree workbook_item).

Definition publish_parts (xml_request filename file_contents : string)
  : list (string * (string * string * string)) :=
  [ ("request_payload", ("", xml_request, "text/xml"));
    ("tableau_workbook",
      (filename, file_contents, "application/octet-stream")) ].

Definition publish_req (encode_multipart_formdata : encoder)
  (workbook_item : WorkbookItem.t) (filename file_contents : string)
  (connection_credentials : option ConnectionCredentials.t)
  (connections : option (list ConnectionItem.t))
  (hidden_views_arg : option (list string))
  : WorkbookItem.t * list warning * result (string * string) :=
  match _generate_xml workbook_item connection_credentials connections
          hidden_views_arg with
  | (workbook_item, warns, r) =>
      (workbook_item, warns,
       xml_request <- r ;;
       let parts := publish_parts xml_request filename file_contents in
       Ok (_add_multipart encode_multipart_formdata parts))
  end.

Definition publish_req_chunked (encode_multipart_formdata : encoder)
  (workbook_item : WorkbookItem.t)
  (connection_credentials : option ConnectionCredentials.t)
  (connections : option (list ConnectionItem.t))
  (hidden_views_arg : option (list string))
  : WorkbookItem.t * list warning * result (string * string) :=
  match _generate_xml workbook_item connection_credentials connections
          hidden_views_arg with
  | (workbook_item, warns, r) =>
      (workbook_item, warns,
       xml_request <- r ;;
       let parts := [ ("request_payload", ("", xml_request, "text/xml")) ] in
       Ok (_add_multipart encode_multipart_formdata parts))
  end.

(** [datasources] is read through the [id] of its items only; it is
    given as the list of these. *)
Definition embedded_extract_fill (xml_request : ET.Element)
  (include_all : bool) (datasources : option (list (option string)))
  : ET.Element :=
  let list_element := ET.new "datasources" in
  let list_element :=
    if include_all then ET.sets list_element "includeAll" "true"
    else
      match datasources with
      | Some (d :: ds) =>
          fold_left
            (fun e id => ET.append e (ET.set (ET.new "datasource") "id" id))
            (d :: ds) list_element
      | _ => list_element
      end in
  ET.append xml_request list_element.

Definition embedded_extract_req (include_all : bool)
  (datasources : option (list (option string))) : result string :=
  _tsrequest_wrapped
    (fun xml_request =>
       Ok (embedded_extract_fill xml_request include_all datasources)).
End WorkbookRequest.

Module Connection.
Import ConnectionItem.

Definition update_element (connection_item : ConnectionItem.t)
  : ET.Element :=
  let connection_element := ET.new "connection" in
  let connection_element :=
    match server_address connection_item with
    | Some a => ET.sets connection_element "serverAddress" (lower a)
    | None => connection_element
    end in
  let connection_element :=
    ET.sets_if
      (is_not_None (server_port connection_item))
      connection_element "serverPort"
      (str_opt_str (server_port connection_item)) in
  let connection_element :=
    ET.set_if
      (is_not_None (username connection_item))
      connection_element "userName"
      (username connection_item) in
  let connection_element :=
    ET.set_if
      (is_not_None (password connection_item))
      connection_element "password"
      (password connection_item) in
  let connection_element :=
    ET.sets_if
      (is_not_None (embed_password connection_item))
      connection_element "embedPassword"
      (lower (str_opt_bool (embed_password connection_item))) in
  connection_element.

(** The function under the decorator: it fills the root it is given. *)
Definition update_fill (xml_request : ET.Element)
  (connection_item : ConnectionItem.t) : result ET.Element :=
  Ok (ET.append xml_request (update_element connection_item)).

Definition update_req (connection_item : ConnectionItem.t) : result string :=
  _tsrequest_wrapped
    (fun xml_request => update_fill xml_request connection_item).
End Connection.

(* ================================================================== *)
(** ** Further items and builders *)

Module AuthItem.
(** [credentials] is the dictionary of the sign-in attributes, in its
    own order. *)
Record t : Type := mk {
  credentials : list (string * ET.attrval);
  site_id : option string;
  user_id_to_impersonate : option string
}.
End AuthItem.

Module ColumnItem.
Record t : Type := mk {
  description : option string
}.
End ColumnItem.

Module DQWItem.
Record t : Type := mk {
  active : option bool;
  severe : option bool;
  warning_type : option string;
  message : option string
}.
End DQWItem.

(** The names of the kinds of favorites and of tasks are constants of
    the item classes; the builders take them as they are. *)
Module FavoriteItem.
Record Type_ : Type := mk {
  Datasource : string;
  Flow : string;
  Project : string;
  View : string;
  Workbook : string
}.
End FavoriteItem.

Module Grantee.
Record t : Type := mk {
  tag_name : string;
  id : option string
}.
End Grantee.

Module PermissionsRule.
(** [capabilities] is the dictionary from capability name to mode, in
    its own order. *)
Record t : Type := mk {
  grantee : Grantee.t;
  capabilities : list (string * string)
}.
End PermissionsRule.

Module ProjectItem.
Record t : Type := mk {
  name : option string;
  description : option string;
  content_permissions : option string;
  parent_id : option string
}.
End ProjectItem.

Module Target.
Record t : Type := mk {
  id : option string;
  type : option string
}.
End Target.

Module SubscriptionItem.
Record t : Type := mk {
  subject : option string;
  attach_image : option bool;
  attach_pdf : option bool;
  message : option string;
  page_orientation : option string;
  page_size_option : option string;
  target : Target.t;
  send_if_view_empty : option bool;
  schedule_id : option string;
  user_id : option string;
  suspended : option bool
}.
End SubscriptionItem.

Module WebhookItem.
Record t : Type := mk {
  name : option string;
  _event : option string;
  url : option string
}.
End WebhookItem.

Module MetricItem.
Record t : Type := mk {
  id : option string;
  name : option string;
  description : option string;
  suspended : option bool;
  project_id : option string;
  owner_id : option string
}.
End MetricItem.

Module AuthRequest.
Import AuthItem.

(** [for attribute_name, attribute_value in credentials.items(): ...] *)
Definition set_all (e : ET.Element) (items : list (string * ET.attrval))
  : ET.Element :=
  fold_left (fun e kv => ET.set e (fst kv) (snd kv)) items e.

Definition signin_tree (auth_item : AuthItem.t) : ET.Element :=
  let xml_request := ET.new "tsRequest" in
  let credentials_element := ET.new "credentials" in
  let credentials_element :=
    set_all credentials_element (credentials auth_item) in
  let site_element := ET.new "site" in
  let site_element :=
    ET.set site_element "contentUrl" (site_id auth_item) in
  let credentials_element := ET.append credentials_element site_element in
  let credentials_element :=
    ET.append_if (truthy_str (user_id_to_impersonate auth_item))
      credentials_element
      (ET.set (ET.new "user") "id" (user_id_to_impersonate auth_item)) in
  ET.append xml_request credentials_element.

Definition signin_req (auth_item : AuthItem.t) : result string :=
  ET.tostring (signin_tree auth_item).

Definition switch_req (site_content_url : option string) : result string :=
  let xml_request := ET.new "tsRequest" in
  let site_element := ET.new "site" in
  let site_element := ET.set site_element "contentUrl" site_content_url in
  ET.tostring (ET.append xml_request site_element).
End AuthRequest.

Module ColumnRequest.
Import ColumnItem.

Definition update_element (column_item : ColumnItem.t) : ET.Element :=
  let column_element := ET.new "column" in
  let column_element :=
    ET.sets_if (truthy_str (description column_item)) column_element
      "description" (str_opt_str (description column_item)) in
  column_element.

Definition update_req (column_item : ColumnItem.t) : result string :=
  let xml_request := ET.new "tsRequest" in
  ET.tostring (ET.append xml_request (update_element column_item)).
End ColumnRequest.

Module DQWRequest.
Import DQWItem.

Definition add_element (dqw_item : DQWItem.t) : ET.Element :=
  let dqw_element := ET.new "dataQualityWarning" in
  let dqw_element :=
    ET.sets dqw_element "isActive"
      (lower (str_opt_bool (active dqw_item))) in
  let dqw_element :=
    ET.sets dqw_element "isSevere"
      (lower (str_opt_bool (severe dqw_item))) in
  let dqw_element := ET.set dqw_element "type" (warning_type dqw_item) in
  let dqw_element :=
    ET.sets_if (truthy_str (message dqw_item)) dqw_element "message"
      (str_opt_str (message dqw_item)) in
  dqw_element.

Definition add_req (dqw_item : DQWItem.t) : result string :=
  let xml_request := ET.new "tsRequest" in
  ET.tostring (ET.append xml_request (add_element dqw_item)).

Definition update_element (dqw_item : DQWItem.t) : ET.Element :=
  let dqw_element := ET.new "dataQualityWarning" in
  let dqw_element :=
    ET.sets dqw_element "isActive"
      (lower (str_opt_bool (active dqw_item))) in
  let dqw_element :=
    ET.sets dqw_element "isSevere"
      (lower (str_opt_bool (severe dqw_item))) in
  let dqw_element := ET.set dqw_element "type" (warning_type dqw_item) in
  let dqw_element :=
    ET.sets_if (truthy_str (message dqw_item)) dqw_element "message"
      (str_opt_str (message dqw_item)) in
  dqw_element.

Definition update_req (dqw_item : DQWItem.t) : result string :=
  let xml_request := ET.new "tsRequest" in
  ET.tostring (ET.append xml_request (update_element dqw_item)).
End DQWRequest.

Module FavoriteRequest.

Definition add_to_tree (id_ target_type label : string) : ET.Element :=
  let xml_request := ET.new "tsRequest" in
  let favorite_element := ET.new "favorite" in
  let target := ET.new target_type in
  let favorite_element := ET.sets favorite_element "label" label in
  let target := ET.sets target "id" id_ in
  ET.append xml_request (ET.append favorite_element target).

Definition _add_to_req (id_ target_type label : string) : result string :=
  ET.tostring (add_to_tree id_ target_type label).

(** The body shared by the five [add_..._req]: the checks, then
    [_add_to_req] with the name of the kind. *)
Definition add_req (target_type : string) (id_ name : option string)
  : result string :=
  match id_ with
  | None => Raise (ValueError "id must exist to add to favorites")
  | Some i =>
      match name with
      | None => Raise (ValueError "Name must exist to add to favorites.")
      | Some n => _add_to_req i target_type n
      end
  end.

Definition add_datasource_req (T : FavoriteItem.Type_)
  (id_ name : option string) : result string :=
  add_req (FavoriteItem.Datasource T) id_ name.

Definition add_flow_req (T : FavoriteItem.Type_)
  (id_ name : option string) : result string :=
  add_req (FavoriteItem.Flow T) id_ name.

Definition add_project_req (T : FavoriteItem.Type_)
  (id_ name : option string) : result string :=
  add_req (FavoriteItem.Project T) id_ name.

Definition add_view_req (T : FavoriteItem.Type_)
  (id_ name : option string) : result string :=
  add_req (FavoriteItem.View T) id_ name.

Definition add_workbook_req (T : FavoriteItem.Type_)
  (id_ name : option string) : result string :=
  add_req (FavoriteItem.Workbook T) id_ name.
End FavoriteRequest.

Module FileuploadRequest.

Definition chunk_req (encode_multipart_formdata : encoder) (chunk : string)
  : string * string :=
  let parts :=
    [ ("request_payload", ("", "", "text/xml"));
      ("tableau_file", ("file", chunk, "application/octet-stream")) ] in
  _add_multipart encode_multipart_formdata parts.
End FileuploadRequest.

Module PermissionRequest.
Import PermissionsRule.

Definition capability_element (entry : string * string) : ET.Element :=
  let capability_element := ET.new "capability" in
  let capability_element := ET.sets capability_element "name" (fst entry) in
  ET.sets capability_element "mode" (snd entry).

Definition _add_all_capabilities (capabilities_element : ET.Element)
  (capabilities_map : list (string * string)) : ET.Element :=
  fold_left (fun e entry => ET.append e (capability_element entry))
    capabilities_map capabilities_element.

(** The body of the loop of [add_req] for one rule. *)
Definition add_rule (permissions_element : ET.Element)
  (rule : PermissionsRule.t) : ET.Element :=
  let grantee_capabilities_element := ET.new "granteeCapabilities" in
  let grantee_element := ET.new (Grantee.tag_name (grantee rule)) in
  let grantee_element :=
    ET.set grantee_element "id" (Grantee.id (grantee rule)) in
  let grantee_capabilities_element :=
    ET.append grantee_capabilities_element grantee_element in
  let capabilities_element := ET.new "capabilities" in
  let capabilities_element :=
    _add_all_capabilities capabilities_element (capabilities rule) in
  let grantee_capabilities_element :=
    ET.append grantee_capabilities_element capabilities_element in
  ET.append permissions_element grantee_capabilities_element.

Definition add_tree (rules : list PermissionsRule.t) : ET.Element :=
  let xml_request := ET.new "tsRequest" in
  let permissions_element := ET.new "permissions" in
  let permissions_element := fold_left add_rule rules permissions_element in
  ET.append xml_request permissions_element.

Definition add_req (rules : list PermissionsRule.t) : result string :=
  ET.tostring (add_tree rules).
End PermissionRequest.

Module ProjectRequest.
Import ProjectItem.

Definition update_element (project_item : ProjectItem.t) : ET.Element :=
  let project_element := ET.new "project" in
  let project_element :=
    ET.set_if (truthy_str (name project_item)) project_element "name"
      (name project_item) in
  let project_element :=
    ET.set_if (truthy_str (description project_item)) project_element
      "description" (description project_item) in
  let project_element :=
    ET.set_if (truthy_str (content_permissions project_item))
      project_element "contentPermissions"
      (content_permissions project_item) in
  let project_element :=
    ET.set_if (is_not_None (parent_id project_item)) project_element
      "parentProjectId" (parent_id project_item) in
  project_element.

Definition update_req (project_item : ProjectItem.t) : result string :=
  let xml_request := ET.new "tsRequest" in
  ET.tostring (ET.append xml_request (update_element project_item)).

Definition create_element (project_item : ProjectItem.t) : ET.Element :=
  let project_element := ET.new "project" in
  let project_element :=
    ET.set project_element "name" (name project_item) in
  let project_element :=
    ET.set_if (truthy_str (description project_item)) project_element
      "description" (description project_item) in
  let project_element :=
    ET.set_if (truthy_str (content_permissions project_item))
      project_element "contentPermissions"
      (content_permissions project_item) in
  let project_element :=
    ET.set_if (truthy_str (parent_id project_item)) project_element
      "parentProjectId" (parent_id project_item) in
  project_element.

Definition create_req (project_item : ProjectItem.t) : result string :=
  let xml_request := ET.new "tsRequest" in
  ET.tostring (ET.append xml_request (create_element project_item)).
End ProjectRequest.

Module ScheduleRequest.

Definition add_to_tree (id_ target_type task_type : string) : ET.Element :=
  let xml_request := ET.new "tsRequest" in
  let task_element := ET.new "task" in
  let task := ET.new task_type in
  let workbook := ET.new target_type in
  let workbook := ET.sets workbook "id" id_ in
  ET.append xml_request
    (ET.append task_element (ET.append task workbook)).

(** [id_] is a string or [None]; the message prints the type of what
    was received. *)
Definition _add_to_req (id_ : option string) (target_type task_type : string)
  : result string :=
  match id_ with
  | None =>
      Raise (ValueError
               "id_ should be a string, received: <class 'NoneType'>")
  | Some i => ET.tostring (add_to_tree i target_type task_type)
  end.

Definition add_workbook_req (id_ : option string) (task_type : string)
  : result string :=
  _add_to_req id_ "workbook" task_type.

Definition add_datasource_req (id_ : option string) (task_type : string)
  : result string :=
  _add_to_req id_ "datasource" task_type.

Definition add_flow_req (id_ : option string) (task_type : string)
  : result string :=
  _add_to_req id_ "flow" task_type.
End ScheduleRequest.

Module TagRequest.

(** [tag_set] in the order of its iteration. *)
Definition add_tree (tag_set : list string) : ET.Element :=
  let xml_request := ET.new "tsRequest" in
  let tags_element := ET.new "tags" in
  let tags_element :=
    fold_left (fun e tag => ET.append e (ET.sets (ET.new "tag") "label" tag))
      tag_set tags_element in
  ET.append xml_request tags_element.

Definition add_req (tag_set : list string) : result string :=
  ET.tostring (add_tree tag_set).
End TagRequest.

Module TaskRequest.
Definition run_req : result string :=
  _tsrequest_wrapped (fun xml_request => Ok xml_request).
End TaskRequest.

Module EmptyRequest.
Definition empty_req : result string :=
  _tsrequest_wrapped (fun xml_request => Ok xml_request).
End EmptyRequest.

Module SubscriptionRequest.
Import SubscriptionItem.

Definition create_element (subscription_item : SubscriptionItem.t)
  : ET.Element :=
  let subscription_element := ET.new "subscription" in
  let subscription_element :=
    ET.set subscription_element "subject" (subject subscription_item) in
  let subscription_element :=
    ET.sets_if (is_not_None (attach_image subscription_item))
      subscription_element "attachImage"
      (lower (str_opt_bool (attach_image subscription_item))) in
  let subscription_element :=
    ET.sets_if (is_not_None (attach_pdf subscription_item))
      subscription_element "attachPdf"
      (lower (str_opt_bool (attach_pdf subscription_item))) in
  let subscription_element :=
    ET.set_if (is_not_None (message subscription_item))
      subscription_element "message" (message subscription_item) in
  let subscription_element :=
    ET.set_if (is_not_None (page_orientation subscription_item))
      subscription_element "pageOrientation"
      (page_orientation subscription_item) in
  let subscription_element :=
    ET.set_if (is_not_None (page_size_option subscription_item))
      subscription_element "pageSizeOption"
      (page_size_option subscription_item) in
  let content_element := ET.new "content" in
  let content_element :=
    ET.set content_element "id" (Target.id (target subscription_item)) in
  let content_element :=
    ET.set content_element "type" (Target.type (target subscription_item)) in
  let content_element :=
    ET.sets_if (is_not_None (send_if_view_empty subscription_item))
      content_element "sendIfViewEmpty"
      (lower (str_opt_bool (send_if_view_empty subscription_item))) in
  let subscription_element :=
    ET.append subscription_element content_element in
  let schedule_element := ET.new "schedule" in
  let schedule_element :=
    ET.set schedule_element "id" (schedule_id subscription_item) in
  let subscription_element :=
    ET.append subscription_element schedule_element in
  let user_element := ET.new "user" in
  let user_element :=
    ET.set user_element "id" (user_id subscription_item) in
  ET.append subscription_element user_element.

(** The decorated function serializes the root itself before it
    returns; the decorator drops that value and serializes again. *)
Definition create_req (subscription_item : SubscriptionItem.t)
  : result string :=
  _tsrequest_wrapped
    (fun xml_request =>
       let xml_request :=
         ET.append xml_request (create_element subscription_item) in
       _ <- ET.tostring xml_request ;;
       Ok xml_request).

Definition update_element (subscription_item : SubscriptionItem.t)
  : ET.Element :=
  let subscription := ET.new "subscription" in
  let subscription :=
    ET.set_if (is_not_None (subject subscription_item)) subscription
      "subject" (subject subscription_item) in
  let subscription :=
    ET.sets_if (is_not_None (attach_image subscription_item)) subscription
      "attachImage"
      (lower (str_opt_bool (attach_image subscription_item))) in
  let subscription :=
    ET.sets_if (is_not_None (attach_pdf subscription_item)) subscription
      "attachPdf" (lower (str_opt_bool (attach_pdf subscription_item))) in
  let subscription :=
    ET.set_if (is_not_None (page_orientation subscription_item))
      subscription "pageOrientation"
      (page_orientation subscription_item) in
  let subscription :=
    ET.set_if (is_not_None (page_size_option subscription_item))
      subscription "pageSizeOption" (page_size_option subscription_item) in
  let subscription :=
    ET.sets_if (is_not_None (suspended subscription_item)) subscription
      "suspended" (lower (str_opt_bool (suspended subscription_item))) in
  let schedule := ET.new "schedule" in
  let schedule :=
    ET.set_if (is_not_None (schedule_id subscription_item)) schedule "id"
      (schedule_id subscription_item) in
  let subscription := ET.append subscription schedule in
  let content := ET.new "content" in
  let content :=
    ET.sets_if (is_not_None (send_if_view_empty subscription_item)) content
      "sendIfViewEmpty"
      (lower (str_opt_bool (send_if_view_empty subscription_item))) in
  ET.append subscription content.

Definition update_req (subscription_item : SubscriptionItem.t)
  : result string :=
  _tsrequest_wrapped
    (fun xml_request =>
       let xml_request :=
         ET.append xml_request (update_element subscription_item) in
       _ <- ET.tostring xml_request ;;
       Ok xml_request).
End SubscriptionRequest.

Module WebhookRequest.
Import WebhookItem.

(** The messages print the item; its printed form is defined with the
    item classes, so the builder takes it as [fmt]. *)
Definition create_tree (fmt : WebhookItem.t -> string)
  (webhook_item : WebhookItem.t) (xml_request : ET.Element)
  : result ET.Element :=
  let webhook := ET.new "webhook" in
  match name webhook_item with
  | Some n =>
      let webhook := ET.sets webhook "name" n in
      let source := ET.new "webhook-source" in
      match _event webhook_item with
      | Some ev =>
          let source := ET.append source (ET.new ev) in
          let webhook := ET.append webhook source in
          let destination := ET.new "webhook-destination" in
          let post := ET.new "webhook-destination-http" in
          let post := ET.sets post "method" "POST" in
          match url webhook_item with
          | Some u =>
              let post := ET.sets post "url" u in
              let webhook :=
                ET.append webhook (ET.append destination post) in
              Ok (ET.append xml_request webhook)
          | None =>
              Raise (ValueError
                       ("URL must be provided on " ++ fmt webhook_item))
          end
      | None =>
          Raise (ValueError
                   ("_event for Webhook must be provided. "
                    ++ fmt webhook_item))
      end
  | None =>
      Raise (ValueError ("Name must be provided for " ++ fmt webhook_item))
  end.

Definition create_req (fmt : WebhookItem.t -> string)
  (webhook_item : WebhookItem.t) : result string :=
  _tsrequest_wrapped
    (fun xml_request =>
       xml_request <- create_tree fmt webhook_item xml_request ;;
       _ <- ET.tostring xml_request ;;
       Ok xml_request).
End WebhookRequest.

Module MetricRequest.
Import MetricItem.

Definition update_element (metric_item : MetricItem.t) : ET.Element :=
  let metric_element := ET.new "metric" in
  let metric_element :=
    ET.set_if (is_not_None (id metric_item)) metric_element "id"
      (id metric_item) in
  let metric_element :=
    ET.set_if (is_not_None (name metric_item)) metric_element "name"
      (name metric_item) in
  let metric_element :=
    ET.set_if (is_not_None (description metric_item)) metric_element
      "description" (description metric_item) in
  let metric_element :=
    ET.sets_if (is_not_None (suspended metric_item)) metric_element
      "suspended" (lower (str_opt_bool (suspended metric_item))) in
  let metric_element :=
    ET.append_if (is_not_None (project_id metric_item)) metric_element
      (ET.Elem "project" [("id", project_id metric_item)] []) in
  let metric_element :=
    ET.append_if (is_not_None (owner_id metric_item)) metric_element
      (ET.Elem "owner" [("id", owner_id metric_item)] []) in
  metric_element.

Definition update_req (metric_item : MetricItem.t) : result string :=
  _tsrequest_wrapped
    (fun xml_request =>
       let xml_request :=
         ET.append xml_request (update_element metric_item) in
       _ <- ET.tostring xml_request ;;
       Ok xml_request).
End MetricRequest.

(* ================================================================== *)
(** ** Vocabulary of the statements *)

(** [c] occurs in [s]. *)
Fixpoint occurs (c : ascii) (s : string) : bool :=
  match s with
  | EmptyString => false
  | String c' s' => Ascii.eqb c' c || occurs c s'
  end.

(** A multipart primitive in the manner of the HTTP library: the fields
    between boundary lines, and a [multipart/form-data] content type that
    carries the boundary. *)
Definition render_field (boundary : string) (f : RequestField.t) : string :=
  "--" ++ boundary ++ " name=" ++ RequestField.name f
  ++ " filename=" ++ RequestField.filename f
  ++ " type=" ++ match RequestField.content_type f with
                 | Some ct => ct
                 | None => ""
                 end
  ++ " " ++ RequestField.data f ++ " ".

Definition form_data_encoder (boundary : string) : encoder :=
  fun fields =>
    (String.concat "" (map (render_field boundary) fields)
       ++ "--" ++ boundary ++ "--",
     "multipart/form-data; boundary=" ++ boundary).

(** The two fields of a publish request, in order: the metadata field
    with an empty file name, then the file. *)
Definition publish_fields (file_part xml_request filename file_contents : string)
  : list RequestField.t :=
  [ RequestField.mk "request_payload" xml_request "" (Some "text/xml");
    RequestField.mk file_part file_contents filename
      (Some "application/octet-stream") ].

(** What a publish builder returns for the document [xml_request]. *)
Definition multipart_mixed_of (encode : encoder) (file_part xml_request
  filename file_contents : string) (out : string * string) : Prop :=
  let fields := publish_fields file_part xml_request filename file_contents in
  fst out = fst (encode fields)
  /\ (snd out = "multipart/mixed"
      \/ exists params, snd out = "multipart/mixed;" ++ params)
  /\ (forall ty params,
        snd (encode fields) = ty ++ ";" ++ params ->
        occurs ";" ty = false ->
        snd out = "multipart/mixed;" ++ params).

(** The site role that a group request carries: [minimumSiteRole] on the
    group, or [siteRole] on its [import] child. *)
Definition group_role (root : ET.Element) : option ET.attrval :=
  match ET.find root "group" with
  | Some g =>
      match ET.find g "import" with
      | Some i => ET.get i "siteRole"
      | None => ET.get g "minimumSiteRole"
      end
  | None => None
  end.

(** The names of the hidden views that a workbook request carries. *)
Definition hidden_view_names (root : ET.Element) : option (list ET.attrval) :=
  match ET.find root "workbook" with
  | Some w =>
      match ET.find w "views" with
      | Some vs =>
          Some (map (fun v => match ET.get v "name" with
                              | Some a => a
                              | None => None
                              end) (ET.children vs))
      | None => None
      end
  | None => None
  end.


(** The boolean fields among them, [data_alerts_enabled] apart. *)
Definition site_update_flags : list (string * (SiteItem.t -> option bool)) :=
  [
    ("disableSubscriptions", SiteItem.disable_subscriptions);
    ("subscribeOthersEnabled", SiteItem.subscribe_others_enabled);
    ("revisionHistoryEnabled", SiteItem.revision_history_enabled);
    ("catalogingEnabled", SiteItem.cataloging_enabled);
    ("allowSubscriptionAttachments", SiteItem.allow_subscription_attachments);
    ("guestAccessEnabled", SiteItem.guest_access_enabled);
    ("cacheWarmupEnabled", SiteItem.cache_warmup_enabled);
    ("commentingEnabled", SiteItem.commenting_enabled);
    ("requestAccessEnabled", SiteItem.request_access_enabled);
    ("runNowEnabled", SiteItem.run_now_enabled);
    ("commentingMentionsEnabled", SiteItem.commenting_mentions_enabled);
    ("catalogObfuscationEnabled", SiteItem.catalog_obfuscation_enabled);
    ("flowAutoSaveEnabled", SiteItem.flow_auto_save_enabled);
    ("webExtractionEnabled", SiteItem.web_extraction_enabled);
    ("metricsContentTypeEnabled", SiteItem.metrics_content_type_enabled);
    ("notifySiteAdminsOnThrottle", SiteItem.notify_site_admins_on_throttle);
    ("authoringEnabled", SiteItem.authoring_enabled);
    ("customSubscriptionEmailEnabled", SiteItem.custom_subscription_email_enabled);
    ("customSubscriptionFooterEnabled", SiteItem.custom_subscription_footer_enabled);
    ("namedSharingEnabled", SiteItem.named_sharing_enabled);
    ("mobileBiometricsEnabled", SiteItem.mobile_biometrics_enabled);
    ("sheetImageEnabled", SiteItem.sheet_image_enabled);
    ("derivedPermissionsEnabled", SiteItem.derived_permissions_enabled);
    ("useDefaultTimeZone", SiteItem.use_default_time_zone);
    ("autoSuspendRefreshEnabled", SiteItem.auto_suspend_refresh_enabled)
  ].





(** Every entry of the dictionary holds a text. *)
Definition all_set (d : list (string * ET.attrval)) : bool :=
  forallb (fun kv : string * ET.attrval => is_not_None (snd kv)) d.

(** [ET.tostring] succeeds on [e]. *)
Definition serializable (e : ET.Element) : bool := is_ok (ET.tostring e).

(** The exception of the serializer. *)
Definition cannot_serialize : exn :=
  TypeError "cannot serialize None (type NoneType)".

(** Credentials and connections that pass the checks of the helpers. *)
Definition valid_credentials (cc : ConnectionCredentials.t) : bool :=
  truthy_str (ConnectionCredentials.password cc)
  && truthy_str (ConnectionCredentials.name cc).

Definition valid_connection (c : ConnectionItem.t) : bool :=
  truthy_str (ConnectionItem.server_address c)
  && match ConnectionItem.connection_credentials c with
     | Some cc => valid_credentials cc
     | None => true
     end.

(** Reading a list of elements back, all or nothing. *)
Fixpoint read_all {A} (read : ET.Element -> option A) (l : list ET.Element)
  : option (list A) :=
  match l with
  | [] => Some []
  | e :: l' =>
      match read e, read_all read l' with
      | Some a, Some r => Some (a :: r)
      | _, _ => None
      end
  end.

(** Reading a permissions request back into rules. *)
Definition read_capability (e : ET.Element) : option (string * string) :=
  match ET.get e "name", ET.get e "mode" with
  | Some (Some n), Some (Some m) => Some (n, m)
  | _, _ => None
  end.

Definition read_rule (e : ET.Element) : option PermissionsRule.t :=
  match ET.children e with
  | [g; caps] =>
      match ET.get g "id", read_all read_capability (ET.children caps) with
      | Some i, Some l =>
          Some (PermissionsRule.mk (Grantee.mk (ET.tag g) i) l)
      | _, _ => None
      end
  | _ => None
  end.

Definition read_rules (root : ET.Element)
  : option (list PermissionsRule.t) :=
  match ET.find root "permissions" with
  | Some p => read_all read_rule (ET.children p)
  | None => None
  end.

(** The value of attribute [k] in each element of a list. *)
Definition attribute_of (k : string) (l : list ET.Element)
  : list (option ET.attrval) :=
  map (fun e => ET.get e k) l.

(** ** Sample inputs *)

Module Sample.

Definition fmt (u : UserItem.t) : string :=
  "<User " ++ str_opt_str (UserItem.name u) ++ ">".

Definition user (name site_role : option string) : UserItem.t :=
  UserItem.mk name None None site_role None.

Definition credentials (name password : option string)
  : ConnectionCredentials.t :=
  ConnectionCredentials.mk name password true false.

Definition connection (server_address : option string)
  (cc : option ConnectionCredentials.t) : ConnectionItem.t :=
  ConnectionItem.mk server_address None None None None cc.

Definition datasource : DatasourceItem.t :=
  DatasourceItem.mk (Some "sales") None None None (Some "p1") None None None
    None.

Definition workbook (hidden_views : option (list string)) : WorkbookItem.t :=
  WorkbookItem.mk (Some "report") None (Some "p1") None hidden_views None
    None.

Definition flow : FlowItem.t := FlowItem.mk (Some "etl") (Some "p1") None.








Definition legacy_server : Server.t := Server.mk false.

Definition new_server : Server.t := Server.mk true.


Definition favorite_kinds : FavoriteItem.Type_ :=
  FavoriteItem.mk "datasource" "flow" "project" "view" "workbook".

Definition webhook_fmt (w : WebhookItem.t) : string :=
  "<Webhook " ++ str_opt_str (WebhookItem.name w) ++ ">".

Definition project (name parent_id : option string) : ProjectItem.t :=
  ProjectItem.mk name None None parent_id.

Definition subscription : SubscriptionItem.t :=
  SubscriptionItem.mk (Some "Weekly") None None None None None
    (Target.mk (Some "v1") (Some "View")) None (Some "s1") (Some "u1") None.

Definition auth : AuthItem.t :=
  AuthItem.mk [("name", Some "ann"); ("password", Some "secret")]
    (Some "sales") None.

End Sample.

(* ================================================================== *)
(** * Properties of the builders *)

(** ** Attribute dictionaries and elements *)

Lemma dict_get_set_same d k v : ET.dict_get (ET.dict_set d k v) k = Some v.
Proof.
  induction d as [|[k' v'] d IH]; simpl.
  - now rewrite String.eqb_refl.
  - destruct (String.eqb k' k) eqn:E; simpl.
    + now rewrite String.eqb_refl.
    + now rewrite E.
Qed.

Lemma dict_get_set_other d k k' v :
  String.eqb k' k = false ->
  ET.dict_get (ET.dict_set d k' v) k = ET.dict_get d k.
Proof.
  intros H. induction d as [|[k0 v0] d IH]; simpl.
  - now rewrite H.
  - destruct (String.eqb k0 k') eqn:E; simpl.
    + apply String.eqb_eq in E. subst k0. now rewrite H.
    + now rewrite IH.
Qed.

Lemma get_new t k : ET.get (ET.new t) k = None.
Proof. reflexivity. Qed.

Lemma get_set_same e k v : ET.get (ET.set e k v) k = Some v.
Proof. destruct e. apply dict_get_set_same. Qed.

Lemma get_set_other e k k' v :
  String.eqb k' k = false -> ET.get (ET.set e k' v) k = ET.get e k.
Proof. destruct e. apply dict_get_set_other. Qed.

Lemma get_sets_same e k s : ET.get (ET.sets e k s) k = Some (Some s).
Proof. apply get_set_same. Qed.

Lemma get_sets_other e k k' s :
  String.eqb k' k = false -> ET.get (ET.sets e k' s) k = ET.get e k.
Proof. apply get_set_other. Qed.

Lemma get_set_if_same c e k v :
  ET.get (ET.set_if c e k v) k = if c then Some v else ET.get e k.
Proof. destruct c; simpl; auto using get_set_same. Qed.

Lemma get_set_if_other c e k k' v :
  String.eqb k' k = false -> ET.get (ET.set_if c e k' v) k = ET.get e k.
Proof. destruct c; simpl; auto using get_set_other. Qed.

Lemma get_sets_if_same c e k s :
  ET.get (ET.sets_if c e k s) k = if c then Some (Some s) else ET.get e k.
Proof. destruct c; simpl; auto using get_sets_same. Qed.

Lemma get_sets_if_other c e k k' s :
  String.eqb k' k = false -> ET.get (ET.sets_if c e k' s) k = ET.get e k.
Proof. destruct c; simpl; auto using get_sets_other. Qed.

Lemma get_append e c k : ET.get (ET.append e c) k = ET.get e k.
Proof. now destruct e. Qed.

Lemma get_append_if b e c k : ET.get (ET.append_if b e c) k = ET.get e k.
Proof. destruct b; simpl; auto using get_append. Qed.

Lemma has_get e k : ET.has e k = is_not_None (ET.get e k).
Proof. unfold ET.has. now destruct (ET.get e k). Qed.

(** Reading an attribute through a sequence of assignments: assignments
    to other names, and children, are skipped. *)
Ltac attrs :=
  repeat first
    [ rewrite get_sets_if_other by reflexivity
    | rewrite get_set_if_other by reflexivity
    | rewrite get_sets_other by reflexivity
    | rewrite get_set_other by reflexivity
    | rewrite get_append_if
    | rewrite get_append
    | rewrite get_sets_if_same
    | rewrite get_set_if_same
    | rewrite get_sets_same
    | rewrite get_set_same
    | rewrite get_new ].

(** ** Documents and trees

    The request of a builder is the serialization of the root that holds
    the element the statements below are about. *)

Lemma site_update_document s srv :
  snd (SiteRequest.update_req s srv)
  = ET.tostring (ET.append (ET.new "tsRequest")
                   (fst (SiteRequest.update_element s srv)))
  /\ fst (SiteRequest.update_req s srv)
     = snd (SiteRequest.update_element s srv).
Proof.
  unfold SiteRequest.update_req.
  now destruct (SiteRequest.update_element s srv).
Qed.

Lemma site_create_document s srv :
  snd (SiteRequest.create_req s srv)
  = ET.tostring (ET.append (ET.new "tsRequest")
                   (fst (SiteRequest.create_element s srv)))
  /\ fst (SiteRequest.create_req s srv)
     = snd (SiteRequest.create_element s srv).
Proof.
  unfold SiteRequest.create_req.
  now destruct (SiteRequest.create_element s srv).
Qed.

Lemma update_documents :
  (forall ds, DatasourceRequest.update_req ds
              = ET.tostring (ET.append (ET.new "tsRequest")
                               (DatasourceRequest.update_element ds)))
  /\ (forall db, DatabaseRequest.update_req db
                 = ET.tostring (ET.append (ET.new "tsRequest")
                                  (DatabaseRequest.update_element db)))
  /\ (forall tb, TableRequest.update_req tb
                 = ET.tostring (ET.append (ET.new "tsRequest")
                                  (TableRequest.update_element tb)))
  /\ (forall a, DataAlertRequest.update_req a
                = ET.tostring (ET.append (ET.new "tsRequest")
                                 (DataAlertRequest.update_element a)))
  /\ (forall u pw, UserRequest.update_req u pw
                   = ET.tostring (ET.append (ET.new "tsRequest")
                                    (UserRequest.update_element u pw)))
  /\ (forall c, Connection.update_req c
                = ET.tostring (ET.append (ET.new "tsRequest")
                                 (Connection.update_element c))).
Proof. repeat split. Qed.

(** ** The shared helpers *)

Lemma add_credentials_rejects parent cc :
  truthy_str (ConnectionCredentials.name cc) = false
  \/ truthy_str (ConnectionCredentials.password cc) = false ->
  _add_credentials_element parent cc
  = Raise (ValueError "Connection Credentials must have a name and password").
Proof.
  intros H. unfold _add_credentials_element.
  destruct H as [H|H]; rewrite H; simpl; [|reflexivity].
  now rewrite orb_true_r.
Qed.


Lemma add_connection_rejects parent c :
  truthy_str (ConnectionItem.server_address c) = false ->
  _add_connections_element parent c
  = Raise (ValueError "Connection must have a server address").
Proof.
  intros H. unfold _add_connections_element. now rewrite H.
Qed.



(** ** Mutually exclusive inputs *)

(** C2. When both a connection list and a credential descriptor are
    given, every data source and workbook builder that accepts them
    raises the error that names the two arguments, and returns no
    payload; the workbook item is left as it was and no warning is
    issued.  Both are arguments of one call, so no order is involved. *)
Theorem connections_and_credentials_conflict :
  forall (encode : encoder) (ds : DatasourceItem.t) (wb : WorkbookItem.t)
         (filename contents : string) (cc : ConnectionCredentials.t)
         (conns : list ConnectionItem.t) (hv : option (list string)),
    DatasourceRequest._generate_xml ds (Some cc) (Some conns)
    = Raise (RuntimeError both_set_message)
    /\ DatasourceRequest.publish_req encode ds filename contents
         (Some cc) (Some conns)
       = Raise (RuntimeError both_set_message)
    /\ DatasourceRequest.publish_req_chunked encode ds (Some cc) (Some conns)
       = Raise (RuntimeError both_set_message)
    /\ WorkbookRequest._generate_xml wb (Some cc) (Some conns) hv
       = (wb, [], Raise (RuntimeError both_set_message))
    /\ WorkbookRequest.publish_req encode wb filename contents
         (Some cc) (Some conns) hv
       = (wb, [], Raise (RuntimeError both_set_message))
    /\ WorkbookRequest.publish_req_chunked encode wb (Some cc) (Some conns) hv
       = (wb, [], Raise (RuntimeError both_set_message)).
Proof.
  intros. repeat split; reflexivity.
Qed.

(** ** Required fields *)




(** ** The site role of a user update *)



(** ** The flow settings of a site *)

Lemma get_set_congr e e' k k' v :
  ET.get e k = ET.get e' k ->
  ET.get (ET.set e k' v) k = ET.get (ET.set e' k' v) k.
Proof.
  intros H. destruct (String.eqb k' k) eqn:E.
  - apply String.eqb_eq in E. subst k'. now rewrite !get_set_same.
  - now rewrite !get_set_other by assumption.
Qed.

Lemma get_sets_if_congr c e e' k k' s :
  ET.get e k = ET.get e' k ->
  ET.get (ET.sets_if c e k' s) k = ET.get (ET.sets_if c e' k' s) k.
Proof.
  intros H. destruct c; simpl; [|assumption].
  now apply get_set_congr.
Qed.

(** The flow settings read the element they extend only through the
    attribute that is asked for. *)
Lemma flow_attributes_congr fa fe fs srv e e' s k :
  ET.get e k = ET.get e' k ->
  ET.get (fst (SiteRequest.set_versioned_flow_attributes fa fe fs srv e s)) k
  = ET.get
      (fst (SiteRequest.set_versioned_flow_attributes fa fe fs srv e' s)) k.
Proof.
  intros H. unfold SiteRequest.set_versioned_flow_attributes.
  destruct (SiteRequest.new_scheme srv).
  - destruct (is_not_None (SiteItem.flows_enabled s)); cbv iota zeta beta;
      simpl fst; auto using get_sets_if_congr.
  - cbv zeta. destruct (_ || _); simpl fst;
      auto using get_sets_if_congr, get_set_congr.
    unfold ET.sets. auto using get_sets_if_congr, get_set_congr.
Qed.

(** They assign no attribute other than the three flow attributes. *)
Lemma flow_attributes_other fa fe fs srv e s k :
  String.eqb "editingFlowsEnabled" k = false ->
  String.eqb "schedulingFlowsEnabled" k = false ->
  String.eqb "flowsEnabled" k = false ->
  ET.get (fst (SiteRequest.set_versioned_flow_attributes fa fe fs srv e s)) k
  = ET.get e k.
Proof.
  intros H1 H2 H3. unfold SiteRequest.set_versioned_flow_attributes.
  destruct (SiteRequest.new_scheme srv).
  - destruct (is_not_None (SiteItem.flows_enabled s)); cbv iota zeta beta;
      simpl fst;
      now rewrite get_sets_if_other, get_sets_if_other by assumption.
  - cbv zeta. destruct (_ || _); simpl fst.
    + now rewrite get_sets_other, get_sets_if_other by assumption.
    + now rewrite get_sets_if_other by assumption.
Qed.

(** Opening a site builder: the element is the second run of
    assignments applied to the outcome of the flow settings. *)
Ltac open_site :=
  cbv zeta;
  match goal with
  | |- context [SiteRequest.set_versioned_flow_attributes ?a ?b ?c ?d ?e ?f] =>
      let se := fresh "se" in
      let w := fresh "w" in
      let E := fresh "E" in
      destruct (SiteRequest.set_versioned_flow_attributes a b c d e f)
        as [se w] eqn:E;
      apply (f_equal fst) in E; simpl fst in E; simpl fst; subst se
  end.

(** The value of a flow attribute in the site element is the one the
    flow settings give on an empty element. *)
Lemma site_update_flow_attribute s srv k :
  In k ["editingFlowsEnabled"; "schedulingFlowsEnabled"; "flowsEnabled"] ->
  ET.get (fst (SiteRequest.update_element s srv)) k
  = ET.get
      (fst (SiteRequest.set_versioned_flow_attributes
              (lower (str_opt_bool (SiteItem.flows_enabled s)))
              (lower (str_opt_bool (SiteItem.editing_flows_enabled s)))
              (lower (str_opt_bool (SiteItem.scheduling_flows_enabled s)))
              srv (ET.new "site") s)) k.
Proof.
  intros Hk. unfold SiteRequest.update_element. open_site.
  simpl in Hk. destruct Hk as [<-|[<-|[<-|[]]]];
    attrs; apply flow_attributes_congr; now attrs.
Qed.

Lemma site_create_flow_attribute s srv k :
  In k ["editingFlowsEnabled"; "schedulingFlowsEnabled"; "flowsEnabled"] ->
  ET.get (fst (SiteRequest.create_element s srv)) k
  = ET.get
      (fst (SiteRequest.set_versioned_flow_attributes
              (lower (str_opt_bool (SiteItem.flows_enabled s)))
              (lower (str_opt_bool (SiteItem.editing_flows_enabled s)))
              (lower (str_opt_bool (SiteItem.scheduling_flows_enabled s)))
              srv (ET.new "site") s)) k.
Proof.
  intros Hk. unfold SiteRequest.create_element. open_site.
  simpl in Hk. destruct Hk as [<-|[<-|[<-|[]]]];
    attrs; apply flow_attributes_congr; now attrs.
Qed.

Lemma lower_str_bool b :
  lower (str_bool b) = if b then "true" else "false".
Proof. now destruct b. Qed.

(** The text of a flag is never empty, so [flag_text or other] is the
    text of the flag, also when the flag is unset. *)
Lemma or_str_flag (x : option bool) (other : string) :
  or_str (lower (str_opt_bool x)) other = lower (str_opt_bool x).
Proof. now destruct x as [[|]|]. Qed.

(** Under the split scheme the builder writes each split attribute when
    its own field is set, with the text of that field, and never writes
    [flowsEnabled]. *)
Lemma flow_attributes_split_scheme s srv :
  SiteRequest.new_scheme srv = true ->
  let e := fst (SiteRequest.update_element s srv) in
  ET.get e "editingFlowsEnabled"
  = (if is_not_None (SiteItem.editing_flows_enabled s)
     then Some (Some (lower (str_opt_bool (SiteItem.editing_flows_enabled s))))
     else None)
  /\ ET.get e "schedulingFlowsEnabled"
     = (if is_not_None (SiteItem.scheduling_flows_enabled s)
        then Some (Some (lower (str_opt_bool
                                  (SiteItem.scheduling_flows_enabled s))))
        else None)
  /\ ET.get e "flowsEnabled" = None.
Proof.
  intros Hs e. subst e.
  rewrite !site_update_flow_attribute by (simpl; tauto).
  unfold SiteRequest.set_versioned_flow_attributes. rewrite Hs.
  destruct (is_not_None (SiteItem.flows_enabled s));
    cbv iota zeta beta; simpl fst; rewrite ?or_str_flag;
    repeat split; now attrs.
Qed.

(** Under the legacy scheme the builder never writes a split attribute;
    it writes [flowsEnabled] when one of the three fields is set, always
    with the text of the legacy field. *)
Lemma flow_attributes_legacy_scheme s srv :
  SiteRequest.new_scheme srv = false ->
  let e := fst (SiteRequest.update_element s srv) in
  ET.get e "editingFlowsEnabled" = None
  /\ ET.get e "schedulingFlowsEnabled" = None
  /\ ET.get e "flowsEnabled"
     = (if is_not_None (SiteItem.flows_enabled s)
           || is_not_None (SiteItem.editing_flows_enabled s)
           || is_not_None (SiteItem.scheduling_flows_enabled s)
        then Some (Some (lower (str_opt_bool (SiteItem.flows_enabled s))))
        else None).
Proof.
  intros Hs e. subst e.
  rewrite !site_update_flow_attribute by (simpl; tauto).
  unfold SiteRequest.set_versioned_flow_attributes. rewrite Hs.
  cbv zeta. rewrite !or_str_flag.
  destruct (is_not_None (SiteItem.editing_flows_enabled s)
            || is_not_None (SiteItem.scheduling_flows_enabled s)) eqn:E;
    simpl fst.
  - repeat split; attrs; try reflexivity.
    rewrite <- orb_assoc, E. now rewrite orb_true_r.
  - repeat split; attrs; try reflexivity.
    rewrite <- orb_assoc, E. now rewrite orb_false_r.
Qed.

(** No site update carries the legacy attribute together with a split
    attribute. *)
Lemma site_update_one_scheme s srv :
  let e := fst (SiteRequest.update_element s srv) in
  ET.has e "flowsEnabled"
  && (ET.has e "editingFlowsEnabled" || ET.has e "schedulingFlowsEnabled")
  = false.
Proof.
  intros e. subst e. rewrite !has_get.
  destruct (SiteRequest.new_scheme srv) eqn:Hs.
  - destruct (flow_attributes_split_scheme s srv Hs) as (_ & _ & ->).
    reflexivity.
  - destruct (flow_attributes_legacy_scheme s srv Hs) as (-> & -> & _).
    now rewrite andb_false_r.
Qed.

Lemma site_create_one_scheme s srv :
  let e := fst (SiteRequest.create_element s srv) in
  ET.has e "flowsEnabled"
  && (ET.has e "editingFlowsEnabled" || ET.has e "schedulingFlowsEnabled")
  = false.
Proof.
  intros e. subst e. rewrite !has_get.
  rewrite !site_create_flow_attribute by (simpl; tauto).
  unfold SiteRequest.set_versioned_flow_attributes.
  destruct (SiteRequest.new_scheme srv).
  - destruct (is_not_None (SiteItem.flows_enabled s));
      cbv iota zeta beta; simpl fst; now attrs.
  - cbv zeta. destruct (_ || _); simpl fst; attrs;
      now rewrite andb_false_r.
Qed.

(** C1. The flow settings of a site with a single flow field set.
    With only the legacy field set to [b] and the split scheme selected
    (no server, or a server with the new flow settings), the update and
    the create request carry neither split attribute.  With only one
    split field set to [b] and the legacy scheme selected, they carry
    [flowsEnabled] with the text of the unset legacy field, which is
    [none], whatever [b] is. *)
Theorem site_flow_synthesis_at_single_field :
  forall b : bool,
    let legacy_only := SiteItem.set_flows_enabled SiteItem.empty (Some b) in
    let editing_only :=
      SiteItem.set_editing_flows_enabled SiteItem.empty (Some b) in
    let scheduling_only :=
      SiteItem.set_scheduling_flows_enabled SiteItem.empty (Some b) in
    let old := Some Sample.legacy_server in
    let no_split_attribute (srv : option Server.t) : Prop :=
      ET.has (fst (SiteRequest.update_element legacy_only srv))
        "editingFlowsEnabled" = false
      /\ ET.has (fst (SiteRequest.update_element legacy_only srv))
           "schedulingFlowsEnabled" = false
      /\ ET.has (fst (SiteRequest.create_element legacy_only srv))
           "editingFlowsEnabled" = false
      /\ ET.has (fst (SiteRequest.create_element legacy_only srv))
           "schedulingFlowsEnabled" = false in
    no_split_attribute None
    /\ no_split_attribute (Some Sample.new_server)
    /\ ET.get (fst (SiteRequest.update_element editing_only old))
         "flowsEnabled" = Some (Some "none")
    /\ ET.get (fst (SiteRequest.update_element scheduling_only old))
         "flowsEnabled" = Some (Some "none")
    /\ ET.get (fst (SiteRequest.create_element editing_only old))
         "flowsEnabled" = Some (Some "none")
    /\ ET.get (fst (SiteRequest.create_element scheduling_only old))
         "flowsEnabled" = Some (Some "none").
Proof.
  intros b. cbv zeta beta.
  destruct b; vm_compute; repeat split.
Qed.

(** ** Rendering of booleans *)

(** The site update writes [dataAlertsEnabled] with the text of the
    boolean as it is, the site creation writes it in lower case. *)
Lemma site_data_alerts_enabled s srv b :
  SiteItem.data_alerts_enabled s = Some b ->
  ET.get (fst (SiteRequest.update_element s srv)) "dataAlertsEnabled"
  = Some (Some (if b then "True" else "False"))
  /\ ET.get (fst (SiteRequest.create_element s srv)) "dataAlertsEnabled"
     = Some (Some (if b then "true" else "false")).
Proof.
  intros H. split.
  - unfold SiteRequest.update_element. open_site. attrs. rewrite H.
    reflexivity.
  - unfold SiteRequest.create_element. open_site. attrs. rewrite H.
    simpl. now rewrite lower_str_bool.
Qed.

(** Every other boolean field of the site update that is set is
    rendered as [true] or [false]. *)
Lemma site_update_flags_rendered :
  Forall (fun p : string * (SiteItem.t -> option bool) =>
            forall s srv b,
              snd p s = Some b ->
              ET.get (fst (SiteRequest.update_element s srv)) (fst p)
              = Some (Some (if b then "true" else "false")))
    site_update_flags.
Proof.
  unfold site_update_flags.
  repeat (apply Forall_cons; [|]); try apply Forall_nil;
    intros s srv b H; cbn [fst snd] in *;
    unfold SiteRequest.update_element; open_site;
    repeat (attrs; try rewrite flow_attributes_other by reflexivity);
    rewrite H; simpl; now rewrite lower_str_bool.
Qed.

(** C4. The site update request for a site whose [data_alerts_enabled]
    is [True] carries [dataAlertsEnabled] with the value [True], and for
    [False] the value [False]: the capitalised text of the boolean.  The
    site creation request carries [true] or [false] there. *)
Theorem site_update_data_alerts_capitalised :
  forall b : bool,
    let site_item :=
      SiteItem.set_data_alerts_enabled SiteItem.empty (Some b) in
    ET.get (fst (SiteRequest.update_element site_item None))
      "dataAlertsEnabled"
    = Some (Some (if b then "True" else "False"))
    /\ ET.get (fst (SiteRequest.create_element site_item None))
         "dataAlertsEnabled"
       = Some (Some (if b then "true" else "false")).
Proof.
  intros b. cbv zeta. destruct b; vm_compute; split; reflexivity.
Qed.

(** ** Multipart encoding *)

(** [partition] yields either no separator and no tail, or the
    separator itself. *)
Lemma partition_shape s :
  match partition ";" s with
  | (_, m, t) => (m = "" /\ t = "") \/ m = ";"
  end.
Proof.
  induction s as [|c s IH]; simpl.
  - now left.
  - destruct (Ascii.eqb c ";").
    + now right.
    + destruct (partition ";" s) as [[h m] t].
      destruct m as [|c' m'].
      * now left.
      * right. destruct IH as [[IH _]|IH]; [discriminate|assumption].
Qed.

(** [partition] splits at the first separator. *)
Lemma partition_first ty params :
  occurs ";" ty = false ->
  partition ";" (ty ++ ";" ++ params) = (ty, ";", params).
Proof.
  induction ty as [|c ty IH]; simpl in *; intros H.
  - reflexivity.
  - apply orb_false_iff in H. destruct H as [Hc Hty].
    rewrite Hc. now rewrite (IH Hty).
Qed.

(** The body is the one of the multipart primitive, applied to the
    fields of the parts in their order; the content type is
    [multipart/mixed] followed by the parameters of the content type of
    the primitive, whatever its own type was. *)
Lemma add_multipart_spec (encode : encoder) parts :
  let out := _add_multipart encode parts in
  let fields := mime_multipart_parts parts in
  fst out = fst (encode fields)
  /\ (snd out = "multipart/mixed"
      \/ exists params, snd out = "multipart/mixed;" ++ params)
  /\ (forall ty params,
        snd (encode fields) = ty ++ ";" ++ params ->
        occurs ";" ty = false ->
        snd out = "multipart/mixed;" ++ params).
Proof.
  cbv zeta. unfold _add_multipart.
  destruct (encode (mime_multipart_parts parts)) as [body ct]. simpl fst.
  split; [reflexivity|]. split.
  - pose proof (partition_shape ct) as H.
    destruct (partition ";" ct) as [[h m] t]. simpl snd.
    destruct H as [[-> ->]| ->].
    + now left.
    + right. now exists t.
  - intros ty params Hct Hty. simpl snd in Hct. subst ct.
    now rewrite partition_first.
Qed.

Lemma publish_parts_fields file_part xml filename contents :
  mime_multipart_parts
    [ ("request_payload", ("", xml, "text/xml"));
      (file_part, (filename, contents, "application/octet-stream")) ]
  = publish_fields file_part xml filename contents.
Proof. reflexivity. Qed.

Lemma add_multipart_publish encode file_part xml filename contents :
  multipart_mixed_of encode file_part xml filename contents
    (_add_multipart encode
       [ ("request_payload", ("", xml, "text/xml"));
         (file_part, (filename, contents, "application/octet-stream")) ]).
Proof.
  unfold multipart_mixed_of. cbv zeta.
  rewrite <- publish_parts_fields. apply add_multipart_spec.
Qed.

(** C5. Whenever a publish builder returns, what it returns is the body
    that the multipart primitive makes of exactly two fields, in this
    order: [request_payload], with an empty file name, the content type
    [text/xml] and the serialized document as data; then the file field,
    with the file name and the contents given by the caller and the
    content type [application/octet-stream].  The content type returned
    is [multipart/mixed], followed by the parameters (the boundary) of
    the content type of the primitive. *)
Theorem publish_is_multipart_mixed :
  forall (encode : encoder) (filename contents : string),
    (forall ds cc conns out,
        DatasourceRequest.publish_req encode ds filename contents cc conns
        = Ok out ->
        exists xml,
          DatasourceRequest._generate_xml ds cc conns = Ok xml
          /\ multipart_mixed_of encode "tableau_datasource" xml filename
               contents out)
    /\ (forall wb cc conns hv out,
          snd (WorkbookRequest.publish_req encode wb filename contents cc
                 conns hv) = Ok out ->
          exists xml,
            snd (WorkbookRequest._generate_xml wb cc conns hv) = Ok xml
            /\ multipart_mixed_of encode "tableau_workbook" xml filename
                 contents out)
    /\ (forall fl conns out,
          FlowRequest.publish_req encode fl filename contents conns
          = Ok out ->
          exists xml,
            FlowRequest._generate_xml fl conns = Ok xml
            /\ multipart_mixed_of encode "tableau_flow" xml filename
                 contents out).
Proof.
  intros encode filename contents. repeat apply conj.
  - intros ds cc conns out. unfold DatasourceRequest.publish_req.
    destruct (DatasourceRequest._generate_xml ds cc conns) as [xml|ex];
      simpl; [|discriminate].
    intros H. inversion H. exists xml. split; [reflexivity|].
    apply add_multipart_publish.
  - intros wb cc conns hv out. unfold WorkbookRequest.publish_req.
    destruct (WorkbookRequest._generate_xml wb cc conns hv)
      as [[wb' warns] [xml|ex]]; simpl; [|discriminate].
    intros H. inversion H. exists xml. split; [reflexivity|].
    apply add_multipart_publish.
  - intros fl conns out. unfold FlowRequest.publish_req.
    destruct (FlowRequest._generate_xml fl conns) as [xml|ex];
      simpl; [|discriminate].
    intros H. inversion H. exists xml. split; [reflexivity|].
    apply add_multipart_publish.
Qed.

Lemma publish_is_multipart_mixed_witness :
  let encode := form_data_encoder "b1" in
  (exists out xml,
      DatasourceRequest.publish_req encode Sample.datasource "sales.tdsx"
        "bytes" None None = Ok out
      /\ DatasourceRequest._generate_xml Sample.datasource None None = Ok xml
      /\ multipart_mixed_of encode "tableau_datasource" xml "sales.tdsx"
           "bytes" out
      /\ snd out = "multipart/mixed; boundary=b1")
  /\ (exists out xml,
        snd (WorkbookRequest.publish_req encode (Sample.workbook None)
               "sales.tdsx" "bytes" None None None) = Ok out
        /\ snd (WorkbookRequest._generate_xml (Sample.workbook None) None
                  None None) = Ok xml
        /\ multipart_mixed_of encode "tableau_workbook" xml "sales.tdsx"
             "bytes" out)
  /\ (exists out xml,
        FlowRequest.publish_req encode Sample.flow "sales.tdsx" "bytes" None
        = Ok out
        /\ FlowRequest._generate_xml Sample.flow None = Ok xml
        /\ multipart_mixed_of encode "tableau_flow" xml "sales.tdsx"
             "bytes" out).
Proof.
  cbv zeta.
  destruct (publish_is_multipart_mixed (form_data_encoder "b1")
              "sales.tdsx" "bytes") as (Hd & Hw & Hf).
  repeat apply conj.
  - destruct (DatasourceRequest.publish_req (form_data_encoder "b1")
                Sample.datasource "sales.tdsx" "bytes" None None)
      as [out|ex] eqn:E; [|discriminate E].
    destruct (Hd _ _ _ _ E) as (xml & Hx & Hm).
    exists out, xml.
    split; [reflexivity|]. split; [exact Hx|]. split; [exact Hm|].
    destruct Hm as (_ & _ & Hb).
    apply (Hb "multipart/form-data" " boundary=b1"); reflexivity.
  - destruct (snd (WorkbookRequest.publish_req (form_data_encoder "b1")
                     (Sample.workbook None) "sales.tdsx" "bytes" None None
                     None)) as [out|ex] eqn:E; [|discriminate E].
    destruct (Hw _ _ _ _ _ E) as (xml & Hx & Hm).
    exists out, xml.
    split; [reflexivity|]. split; [exact Hx|exact Hm].
  - destruct (FlowRequest.publish_req (form_data_encoder "b1") Sample.flow
                "sales.tdsx" "bytes" None) as [out|ex] eqn:E;
      [|discriminate E].
    destruct (Hf _ _ _ E) as (xml & Hx & Hm).
    exists out, xml.
    split; [reflexivity|]. split; [exact Hx|exact Hm].
Defined.

(** ** Unset fields *)

Lemma findall_new t t' : ET.findall (ET.new t) t' = [].
Proof. reflexivity. Qed.

Lemma findall_set e k v t : ET.findall (ET.set e k v) t = ET.findall e t.
Proof. now destruct e. Qed.

Lemma findall_sets e k s t : ET.findall (ET.sets e k s) t = ET.findall e t.
Proof. now destruct e. Qed.

Lemma findall_set_if c e k v t :
  ET.findall (ET.set_if c e k v) t = ET.findall e t.
Proof. destruct c; simpl; auto using findall_set. Qed.

Lemma findall_sets_if c e k s t :
  ET.findall (ET.sets_if c e k s) t = ET.findall e t.
Proof. destruct c; simpl; auto using findall_sets. Qed.

Lemma findall_append e c t :
  ET.findall (ET.append e c) t
  = (ET.findall e t ++ (if String.eqb (ET.tag c) t then [c] else []))%list.
Proof.
  destruct e as [tg a cs]. unfold ET.findall. simpl.
  now rewrite filter_app.
Qed.

Lemma findall_append_if b e c t :
  ET.findall (ET.append_if b e c) t
  = (ET.findall e t
     ++ (if b && String.eqb (ET.tag c) t then [c] else []))%list.
Proof.
  destruct b; simpl.
  - apply findall_append.
  - now rewrite app_nil_r.
Qed.

Lemma tag_set e k v : ET.tag (ET.set e k v) = ET.tag e.
Proof. now destruct e. Qed.

(** Reading the children with a tag through a sequence of assignments. *)
Ltac kids :=
  unfold ET.find;
  repeat first
    [ rewrite findall_sets_if
    | rewrite findall_set_if
    | rewrite findall_sets
    | rewrite findall_set
    | rewrite findall_append_if
    | rewrite findall_append
    | rewrite findall_new
    | rewrite tag_set ];
  cbn [ET.tag ET.new];
  repeat match goal with
         | |- context [String.eqb ?a ?b] =>
             let r := eval vm_compute in (String.eqb a b) in
             change (String.eqb a b) with r
         end;
  rewrite ?andb_false_r, ?andb_true_r;
  cbn [app hd_error].






(** ** Text fields *)







(** ** Serialization succeeds on trees without [None] *)

Lemma tostring_ok t a cs :
  is_ok (ET.tostring (ET.Elem t a cs))
  = is_ok (ET.serialize_attrs a)
    && forallb (fun c => is_ok (ET.tostring c)) cs.
Proof.
  simpl. destruct (ET.serialize_attrs a) as [attrs|ex]; simpl;
    [|reflexivity].
  destruct cs as [|c cs]; [reflexivity|].
  change (forallb (fun c => is_ok (ET.tostring c)) (c :: cs))
    with (is_ok (ET.tostring c)
          && forallb (fun c => is_ok (ET.tostring c)) cs).
  assert (Hgo : forall l,
             is_ok ((fix go (l : list ET.Element) : result string :=
                       match l with
                       | [] => Ok EmptyString
                       | c :: l' =>
                           x <- ET.tostring c ;; y <- go l' ;; Ok (x ++ y)
                       end) l)
             = forallb (fun c => is_ok (ET.tostring c)) l).
  { induction l as [|c' l IH]; [reflexivity|].
    simpl forallb. destruct (ET.tostring c') as [x|ex]; simpl;
      [|reflexivity].
    rewrite <- IH.
    match goal with |- is_ok (bind ?m _) = _ => destruct m end;
      reflexivity. }
  specialize (Hgo (c :: cs)). simpl forallb in Hgo. rewrite <- Hgo.
  match goal with |- is_ok (bind ?m _) = _ => destruct m end; reflexivity.
Qed.

Lemma tostring_append_ok e c :
  is_ok (ET.tostring (ET.append e c))
  = is_ok (ET.tostring e) && is_ok (ET.tostring c).
Proof.
  destruct e as [t a cs]. unfold ET.append. rewrite !tostring_ok.
  rewrite forallb_app. simpl forallb.
  now rewrite andb_true_r, andb_assoc.
Qed.

(** The [views] element built from a list of names. *)
Lemma add_hidden_views_children views :
  forall t a cs,
    WorkbookRequest.add_hidden_views (ET.Elem t a cs) views
    = ET.Elem t a
        (cs ++ map (fun n => ET.Elem "view"
                               [("name", Some n); ("hidden", Some "true")]
                               []) views)%list.
Proof.
  unfold WorkbookRequest.add_hidden_views.
  induction views as [|v views IH]; intros t a cs; simpl.
  - now rewrite app_nil_r.
  - rewrite IH. now rewrite <- app_assoc.
Qed.

Lemma add_hidden_views_ok views :
  is_ok (ET.tostring (WorkbookRequest.add_hidden_views (ET.new "views") views))
  = true.
Proof.
  unfold ET.new. rewrite add_hidden_views_children, tostring_ok.
  simpl app. simpl is_ok. induction views as [|v views IH].
  - reflexivity.
  - simpl map. simpl forallb. now rewrite IH.
Qed.

(** ** Shape of the trees *)

Lemma tag_sets e k s : ET.tag (ET.sets e k s) = ET.tag e.
Proof. now destruct e. Qed.

Lemma tag_set_if c e k v : ET.tag (ET.set_if c e k v) = ET.tag e.
Proof. destruct c; simpl; auto using tag_set. Qed.

Lemma tag_sets_if c e k s : ET.tag (ET.sets_if c e k s) = ET.tag e.
Proof. destruct c; simpl; auto using tag_sets. Qed.

Lemma tag_append e c : ET.tag (ET.append e c) = ET.tag e.
Proof. now destruct e. Qed.

Lemma add_credentials_ok parent cc e :
  _add_credentials_element parent cc = Ok e ->
  exists c, e = ET.append parent c /\ ET.tag c = "connectionCredentials".
Proof.
  unfold _add_credentials_element. destruct (negb _ || negb _);
    [discriminate|].
  cbv zeta. intros H. inversion H. eexists. split; [reflexivity|].
  rewrite tag_sets_if. reflexivity.
Qed.

Lemma add_connection_ok parent c e :
  _add_connections_element parent c = Ok e ->
  exists x, e = ET.append parent x /\ ET.tag x = "connection".
Proof.
  unfold _add_connections_element. destruct (negb _); [discriminate|].
  cbv zeta.
  destruct (ConnectionItem.connection_credentials c) as [cc|]; simpl.
  - destruct (_add_credentials_element _ cc) as [e'|ex] eqn:E; simpl;
      [|discriminate].
    intros H. inversion H. eexists. split; [reflexivity|].
    apply add_credentials_ok in E. destruct E as (x & -> & _).
    rewrite tag_append, tag_set_if. reflexivity.
  - intros H. inversion H. eexists. split; [reflexivity|].
    rewrite tag_set_if. reflexivity.
Qed.

Lemma add_connections_tag cs :
  forall parent e,
    add_connections parent cs = Ok e -> ET.tag e = ET.tag parent.
Proof.
  induction cs as [|c cs IH]; intros parent e; simpl.
  - intros H. now inversion H.
  - destruct (_add_connections_element parent c) as [p'|ex] eqn:E; simpl;
      [|discriminate].
    intros H. apply IH in H. rewrite H.
    apply add_connection_ok in E. destruct E as (x & -> & _).
    apply tag_append.
Qed.

(** The head of a workbook request is a [workbook] element without a
    [views] child. *)
Lemma workbook_head_shape w cc conns e :
  WorkbookRequest.workbook_head w cc conns = Ok e ->
  ET.tag e = "workbook" /\ ET.findall e "views" = [].
Proof.
  unfold WorkbookRequest.workbook_head. cbv zeta.
  destruct (is_not_None cc && is_not_None conns); [discriminate|].
  set (e0 := ET.append _ _).
  assert (H0 : ET.tag e0 = "workbook" /\ ET.findall e0 "views" = []).
  { subst e0. split.
    - now rewrite tag_append, tag_sets_if, tag_set.
    - now kids. }
  clearbody e0. destruct H0 as [Ht Hf].
  assert (H1 : forall e1,
             match cc with
             | Some c => _add_credentials_element e0 c
             | None => Ok e0
             end = Ok e1 ->
             ET.tag e1 = "workbook" /\ ET.findall e1 "views" = []).
  { intros e1. destruct cc as [c|].
    - intros H. apply add_credentials_ok in H.
      destruct H as (x & -> & Hx). split.
      + now rewrite tag_append.
      + rewrite findall_append, Hx, Hf. reflexivity.
    - intros H. inversion H. subst. now split. }
  destruct (match cc with
            | Some c => _add_credentials_element e0 c
            | None => Ok e0
            end) as [e1|ex]; simpl; [|discriminate].
  destruct (H1 e1 eq_refl) as [Ht1 Hf1].
  destruct conns as [cs|].
  - destruct (add_connections (ET.new "connections") cs) as [ce|ex] eqn:E;
      simpl; [|discriminate].
    intros H. inversion H. apply add_connections_tag in E. split.
    + now rewrite tag_append.
    + rewrite findall_append, E, Hf1. reflexivity.
  - intros H. inversion H. subst. now split.
Qed.

(** ** Deprecated arguments *)




Lemma generate_tree_plain w cc conns we :
  WorkbookRequest.workbook_head w cc conns = Ok we ->
  WorkbookRequest.generate_tree w cc conns None
  = (w, [],
     Ok (ET.append (ET.new "tsRequest")
           match WorkbookItem.hidden_views w with
           | Some v =>
               ET.append we
                 (WorkbookRequest.add_hidden_views (ET.new "views") v)
           | None => we
           end)).
Proof.
  intros H. unfold WorkbookRequest.generate_tree. now rewrite H.
Qed.

Lemma generate_xml_tree w cc conns hv :
  WorkbookRequest._generate_xml w cc conns hv
  = (fst (WorkbookRequest.generate_tree w cc conns hv),
     xml_request <- snd (WorkbookRequest.generate_tree w cc conns hv) ;;
     ET.tostring xml_request).
Proof.
  unfold WorkbookRequest._generate_xml.
  now destruct (WorkbookRequest.generate_tree w cc conns hv) as [[w' ws] r].
Qed.



(** ** Repeated calls *)





(* ================================================================== *)
(** * Further properties *)

(** ** When serialization succeeds *)

Lemma Element_nested_ind (P : ET.Element -> Prop) :
  (forall t a cs, Forall P cs -> P (ET.Elem t a cs)) -> forall e, P e.
Proof.
  intros H. fix IH 1. intros [t a cs]. apply H.
  induction cs as [|c cs IHcs]; constructor; [apply IH|apply IHcs].
Qed.

Lemma serialize_attrs_ok d : is_ok (ET.serialize_attrs d) = all_set d.
Proof.
  induction d as [|[k [v|]] d IH]; simpl; [reflexivity| |reflexivity].
  rewrite <- IH. now destruct (ET.serialize_attrs d).
Qed.

Lemma serialize_attrs_raises d ex :
  ET.serialize_attrs d = Raise ex -> ex = cannot_serialize.
Proof.
  revert ex. induction d as [|[k [v|]] d IH]; simpl; intros ex H.
  - discriminate.
  - destruct (ET.serialize_attrs d) as [y|ex']; simpl in H;
      [discriminate|].
    injection H as <-. now apply IH.
  - now injection H as <-.
Qed.

(** The serializer raises nothing but its own exception. *)
Lemma tostring_raises e :
  forall ex, ET.tostring e = Raise ex -> ex = cannot_serialize.
Proof.
  induction e as [t a cs IH] using Element_nested_ind. intros ex.
  assert (Hgo : forall l,
             Forall (fun e => forall ex, ET.tostring e = Raise ex ->
                                         ex = cannot_serialize) l ->
             forall ex',
               (fix go (l : list ET.Element) : result string :=
                  match l with
                  | [] => Ok EmptyString
                  | c :: l' =>
                      x <- ET.tostring c ;; y <- go l' ;; Ok (x ++ y)
                  end) l = Raise ex' -> ex' = cannot_serialize).
  { induction 1 as [|c' l Hc Hl IHl]; intros ex'; simpl.
    - discriminate.
    - destruct (ET.tostring c') as [x|ex''] eqn:Ec; simpl.
      + match goal with
        | |- bind ?m _ = _ -> _ => destruct m as [y|ex3] eqn:El
        end; simpl; [discriminate|].
        intros H. injection H as <-. now apply IHl.
      + intros H. injection H as <-. now apply Hc. }
  specialize (Hgo cs IH). simpl.
  destruct (ET.serialize_attrs a) as [attrs|ex'] eqn:Ea; simpl.
  - destruct cs as [|c cs]; [discriminate|].
    simpl in Hgo.
    match goal with
    | |- bind ?m _ = _ -> _ => destruct m as [body|ex3] eqn:Eb
    end; simpl; [discriminate|].
    intros H. injection H as <-. now apply Hgo.
  - intros H. injection H as <-. now apply serialize_attrs_raises in Ea.
Qed.

Lemma not_serializable e :
  serializable e = false -> ET.tostring e = Raise cannot_serialize.
Proof.
  unfold serializable. destruct (ET.tostring e) as [x|ex] eqn:E;
    [discriminate|].
  intros _. now rewrite (tostring_raises _ E).
Qed.

Lemma serializable_elem t a cs :
  serializable (ET.Elem t a cs) = all_set a && forallb serializable cs.
Proof.
  unfold serializable. now rewrite tostring_ok, serialize_attrs_ok.
Qed.

Lemma all_set_dict_set d k v :
  all_set d = true -> all_set (ET.dict_set d k (Some v)) = true.
Proof.
  unfold all_set. induction d as [|[k' v'] d IH]; simpl; [reflexivity|].
  intros H. apply andb_true_iff in H. destruct H as [H1 H2].
  destruct (String.eqb k' k); simpl.
  - exact H2.
  - now rewrite H1, IH.
Qed.

Lemma all_set_dict_set_none d k : all_set (ET.dict_set d k None) = false.
Proof.
  unfold all_set. induction d as [|[k' v'] d IH]; simpl; [reflexivity|].
  destruct (String.eqb k' k); simpl; [reflexivity|].
  now rewrite IH, andb_false_r.
Qed.

Lemma serializable_new t : serializable (ET.new t) = true.
Proof. reflexivity. Qed.

Lemma serializable_sets e k s :
  serializable e = true -> serializable (ET.sets e k s) = true.
Proof.
  destruct e as [t a cs]. unfold ET.sets, ET.set.
  rewrite !serializable_elem. intros H.
  apply andb_true_iff in H. destruct H as [H1 H2].
  now rewrite all_set_dict_set, H2.
Qed.

Lemma serializable_set e k v :
  serializable e = true ->
  is_not_None v = true ->
  serializable (ET.set e k v) = true.
Proof.
  destruct v as [s|]; [|discriminate]. intros H _.
  now apply serializable_sets.
Qed.

Lemma serializable_set_none e k : serializable (ET.set e k None) = false.
Proof.
  destruct e as [t a cs]. unfold ET.set. rewrite serializable_elem.
  now rewrite all_set_dict_set_none.
Qed.

Lemma serializable_sets_if c e k s :
  serializable e = true -> serializable (ET.sets_if c e k s) = true.
Proof. destruct c; simpl; auto using serializable_sets. Qed.

Lemma serializable_set_if c e k v :
  serializable e = true ->
  (c = true -> is_not_None v = true) ->
  serializable (ET.set_if c e k v) = true.
Proof. destruct c; simpl; auto using serializable_set. Qed.

Lemma serializable_append e c :
  serializable (ET.append e c) = serializable e && serializable c.
Proof. apply tostring_append_ok. Qed.

Lemma serializable_append_if b e c :
  serializable e = true ->
  (b = true -> serializable c = true) ->
  serializable (ET.append_if b e c) = true.
Proof.
  destruct b; simpl; [|auto]. intros H1 H2.
  now rewrite serializable_append, H1, H2.
Qed.

Lemma truthy_str_is_set x : truthy_str x = true -> is_not_None x = true.
Proof. destruct x as [[|]|]; simpl; congruence. Qed.

(** An element with a [None] under some name is not serializable. *)
Lemma get_none_not_serializable e k :
  ET.get e k = Some None -> serializable e = false.
Proof.
  destruct e as [t a cs]. unfold ET.get. simpl ET.attrib.
  rewrite serializable_elem. intros H.
  assert (Ha : all_set a = false).
  { unfold all_set. induction a as [|[k' v'] a IH]; simpl in *;
      [discriminate|].
    destruct (String.eqb k' k).
    - injection H as ->. reflexivity.
    - now rewrite IH, andb_false_r. }
  now rewrite Ha.
Qed.

(** Discharging the side conditions of a sequence of assignments. *)
Ltac serial :=
  repeat first
    [ reflexivity
    | assumption
    | apply serializable_sets_if
    | apply serializable_sets
    | apply serializable_set_if
    | apply serializable_append_if
    | apply serializable_set
    | apply truthy_str_is_set; assumption
    | rewrite serializable_append; apply andb_true_intro; split
    | progress intros ].

Lemma flow_attributes_serializable fa fe fs srv e s :
  serializable e = true ->
  serializable
    (fst (SiteRequest.set_versioned_flow_attributes fa fe fs srv e s))
  = true.
Proof.
  intros H. unfold SiteRequest.set_versioned_flow_attributes.
  destruct (SiteRequest.new_scheme srv).
  - destruct (is_not_None (SiteItem.flows_enabled s));
      cbv iota zeta beta; simpl fst; serial.
  - cbv zeta. destruct (_ || _); simpl fst; serial.
Qed.

(** A decorated builder that serializes its root before it returns
    gives the serialization of that root. *)
Lemma wrapped_serializes_once (f : ET.Element -> ET.Element) :
  _tsrequest_wrapped
    (fun xml_request =>
       let xml_request := f xml_request in
       _ <- ET.tostring xml_request ;;
       Ok xml_request)
  = ET.tostring (f (ET.new "tsRequest")).
Proof.
  unfold _tsrequest_wrapped. cbv zeta.
  destruct (ET.tostring (f (ET.new "tsRequest"))) as [x|ex] eqn:E; simpl.
  - exact E.
  - reflexivity.
Qed.

Lemma site_update_element_serializable s srv :
  serializable (fst (SiteRequest.update_element s srv)) = true.
Proof.
  unfold SiteRequest.update_element. open_site.
  repeat first
    [ apply serializable_sets_if
    | apply serializable_set_if;
        [|intros; first [assumption|apply truthy_str_is_set; assumption]]
    | apply flow_attributes_serializable
    | reflexivity ].
Qed.

(** X1. The update builders, whose assignments are all guarded, never
    raise: for every item the site, data source, database, table, data
    alert, user, connection, workbook, project, metric, subscription,
    flow and column updates return a document. *)
Theorem update_requests_never_raise :
  (forall s srv, is_ok (snd (SiteRequest.update_req s srv)) = true)
  /\ (forall ds, is_ok (DatasourceRequest.update_req ds) = true)
  /\ (forall db, is_ok (DatabaseRequest.update_req db) = true)
  /\ (forall tb, is_ok (TableRequest.update_req tb) = true)
  /\ (forall a, is_ok (DataAlertRequest.update_req a) = true)
  /\ (forall u pw, is_ok (UserRequest.update_req u pw) = true)
  /\ (forall c, is_ok (Connection.update_req c) = true)
  /\ (forall w, is_ok (WorkbookRequest.update_req w) = true)
  /\ (forall p, is_ok (ProjectRequest.update_req p) = true)
  /\ (forall m, is_ok (MetricRequest.update_req m) = true)
  /\ (forall sub, is_ok (SubscriptionRequest.update_req sub) = true)
  /\ (forall fl, is_ok (FlowRequest.update_req fl) = true)
  /\ (forall col, is_ok (ColumnRequest.update_req col) = true).
Proof.
  repeat apply conj.
  - intros s srv. rewrite (proj1 (site_update_document s srv)).
    change (serializable
              (ET.append (ET.new "tsRequest")
                 (fst (SiteRequest.update_element s srv))) = true).
    rewrite serializable_append, site_update_element_serializable.
    reflexivity.
  - intros ds. change (serializable (DatasourceRequest.update_tree ds) = true).
    unfold DatasourceRequest.update_tree, DatasourceRequest.update_element.
    cbv zeta. serial.
  - intros db. change (serializable (DatabaseRequest.update_tree db) = true).
    unfold DatabaseRequest.update_tree, DatabaseRequest.update_element.
    cbv zeta. serial.
  - intros tb. change (serializable (TableRequest.update_tree tb) = true).
    unfold TableRequest.update_tree, TableRequest.update_element.
    cbv zeta. serial.
  - intros a. change (serializable (DataAlertRequest.update_tree a) = true).
    unfold DataAlertRequest.update_tree, DataAlertRequest.update_element.
    cbv zeta. destruct (DataAlertItem.frequency a); serial.
  - intros u pw.
    change (serializable (UserRequest.update_tree u pw) = true).
    unfold UserRequest.update_tree, UserRequest.update_element.
    cbv zeta.
    destruct (UserItem.site_role u) as [r|];
      [destruct (truthy r); [destruct (negb _)|]|]; serial.
  - intros c. unfold Connection.update_req, _tsrequest_wrapped,
      Connection.update_fill. simpl bind.
    change (serializable
              (ET.append (ET.new "tsRequest") (Connection.update_element c))
            = true).
    unfold Connection.update_element. cbv zeta.
    destruct (ConnectionItem.server_address c); serial.
  - intros w. change (serializable (WorkbookRequest.update_tree w) = true).
    unfold WorkbookRequest.update_tree, WorkbookRequest.update_element.
    cbv zeta. serial.
  - intros p. unfold ProjectRequest.update_req. cbv zeta.
    change (serializable
              (ET.append (ET.new "tsRequest")
                 (ProjectRequest.update_element p)) = true).
    unfold ProjectRequest.update_element. cbv zeta. serial.
  - intros m.
    assert (W : MetricRequest.update_req m
                = ET.tostring (ET.append (ET.new "tsRequest")
                                 (MetricRequest.update_element m)))
      by apply (wrapped_serializes_once
                  (fun r => ET.append r (MetricRequest.update_element m))).
    rewrite W. clear W.
    change (serializable
              (ET.append (ET.new "tsRequest")
                 (MetricRequest.update_element m)) = true).
    unfold MetricRequest.update_element. cbv zeta. serial.
    + rewrite serializable_elem. simpl. now rewrite H.
    + rewrite serializable_elem. simpl. now rewrite H.
  - intros sub.
    assert (W : SubscriptionRequest.update_req sub
                = ET.tostring (ET.append (ET.new "tsRequest")
                                 (SubscriptionRequest.update_element sub)))
      by apply (wrapped_serializes_once
                  (fun r => ET.append r
                              (SubscriptionRequest.update_element sub))).
    rewrite W. clear W.
    change (serializable
              (ET.append (ET.new "tsRequest")
                 (SubscriptionRequest.update_element sub)) = true).
    unfold SubscriptionRequest.update_element. cbv zeta. serial.
  - intros fl. unfold FlowRequest.update_req. cbv zeta.
    change (serializable
              (ET.append (ET.new "tsRequest") (FlowRequest.update_element fl))
            = true).
    unfold FlowRequest.update_element. cbv zeta. serial.
  - intros col. unfold ColumnRequest.update_req. cbv zeta.
    change (serializable
              (ET.append (ET.new "tsRequest")
                 (ColumnRequest.update_element col)) = true).
    unfold ColumnRequest.update_element. cbv zeta. serial.
Qed.

(** ** Values stored without a check *)

Lemma site_create_required s srv :
  ET.get (fst (SiteRequest.create_element s srv)) "name"
  = Some (SiteItem.name s)
  /\ ET.get (fst (SiteRequest.create_element s srv)) "contentUrl"
     = Some (SiteItem.content_url s).
Proof.
  unfold SiteRequest.create_element. open_site.
  split; repeat (attrs; try rewrite flow_attributes_other by reflexivity);
    reflexivity.
Qed.

Lemma site_create_element_serializable s srv n u :
  SiteItem.name s = Some n ->
  SiteItem.content_url s = Some u ->
  serializable (fst (SiteRequest.create_element s srv)) = true.
Proof.
  intros Hn Hu. unfold SiteRequest.create_element. open_site.
  rewrite Hn, Hu.
  repeat first
    [ apply serializable_sets_if
    | apply serializable_set_if;
        [|intros; first [assumption|apply truthy_str_is_set; assumption]]
    | apply flow_attributes_serializable
    | apply serializable_set; [|reflexivity]
    | reflexivity ].
Qed.

(** X2. Creation stores the name without a check.  The site creation
    returns a document exactly when the site has a name and a content
    URL, the project creation exactly when the project has a name; in
    the other cases they raise the exception of the serializer, not a
    validation error. *)
Theorem create_requests_need_a_name :
  (forall s srv,
      is_ok (snd (SiteRequest.create_req s srv))
      = is_not_None (SiteItem.name s) && is_not_None (SiteItem.content_url s)
      /\ (is_ok (snd (SiteRequest.create_req s srv)) = false ->
          snd (SiteRequest.create_req s srv) = Raise cannot_serialize))
  /\ (forall p,
        is_ok (ProjectRequest.create_req p) = is_not_None (ProjectItem.name p)
        /\ (is_ok (ProjectRequest.create_req p) = false ->
            ProjectRequest.create_req p = Raise cannot_serialize)).
Proof.
  split.
  - intros s srv. rewrite (proj1 (site_create_document s srv)).
    split; [|apply not_serializable].
    change (serializable
              (ET.append (ET.new "tsRequest")
                 (fst (SiteRequest.create_element s srv)))
            = is_not_None (SiteItem.name s)
              && is_not_None (SiteItem.content_url s)).
    rewrite serializable_append. simpl andb.
    destruct (site_create_required s srv) as [Hn Hu].
    destruct (SiteItem.name s) as [n|] eqn:En.
    + destruct (SiteItem.content_url s) as [u|] eqn:Eu.
      * now rewrite (site_create_element_serializable s srv En Eu).
      * now rewrite (get_none_not_serializable _ _ Hu).
    + now rewrite (get_none_not_serializable _ _ Hn).
  - intros p. unfold ProjectRequest.create_req. cbv zeta.
    split; [|apply not_serializable].
    change (serializable
              (ET.append (ET.new "tsRequest")
                 (ProjectRequest.create_element p))
            = is_not_None (ProjectItem.name p)).
    rewrite serializable_append. simpl andb.
    unfold ProjectRequest.create_element. cbv zeta.
    destruct (ProjectItem.name p) as [n|].
    + serial.
    + apply (get_none_not_serializable _ "name"). now attrs.
Qed.

(** X3. The project creation and the project update build the same
    element for a project with a name that is not empty, unless its
    parent is the empty text: the update then writes an empty
    [parentProjectId], which the creation leaves out.  For an empty
    name the creation writes an empty [name], which the update leaves
    out. *)
Theorem project_create_and_update :
  forall p : ProjectItem.t,
    (truthy_str (ProjectItem.name p) = true ->
     ProjectItem.parent_id p <> Some "" ->
     ProjectRequest.create_element p = ProjectRequest.update_element p)
    /\ (ProjectItem.parent_id p = Some "" ->
        ET.get (ProjectRequest.update_element p) "parentProjectId"
        = Some (Some "")
        /\ ET.has (ProjectRequest.create_element p) "parentProjectId"
           = false)
    /\ (ProjectItem.name p = Some "" ->
        ET.get (ProjectRequest.create_element p) "name" = Some (Some "")
        /\ ET.has (ProjectRequest.update_element p) "name" = false).
Proof.
  intros p. unfold ProjectRequest.create_element,
    ProjectRequest.update_element. cbv zeta. repeat apply conj.
  - intros Hn Hp. rewrite Hn.
    destruct (ProjectItem.parent_id p) as [[|c q]|]; [congruence| |];
      reflexivity.
  - intros Hp. rewrite has_get. attrs. now rewrite Hp.
  - intros Hn. rewrite has_get. attrs. now rewrite Hn.
Qed.

Lemma project_create_and_update_witness :
  ProjectRequest.create_element (Sample.project (Some "Finance") None)
  = ProjectRequest.update_element (Sample.project (Some "Finance") None)
  /\ ET.get (ProjectRequest.update_element
               (Sample.project (Some "Finance") (Some "")))
       "parentProjectId" = Some (Some "")
  /\ ET.has (ProjectRequest.create_element
              (Sample.project (Some "Finance") (Some "")))
       "parentProjectId" = false
  /\ ET.get (ProjectRequest.create_element (Sample.project (Some "") None))
       "name" = Some (Some "")
  /\ ET.has (ProjectRequest.update_element (Sample.project (Some "") None))
       "name" = false.
Proof.
  destruct (project_create_and_update (Sample.project (Some "Finance") None))
    as (H1 & _).
  destruct (project_create_and_update
              (Sample.project (Some "Finance") (Some ""))) as (_ & H2 & _).
  destruct (project_create_and_update (Sample.project (Some "") None))
    as (_ & _ & H3).
  split; [apply H1; [reflexivity|discriminate]|].
  split; [apply H2; reflexivity|].
  split; [apply H2; reflexivity|].
  split; apply H3; reflexivity.
Defined.

Lemma create_requests_need_a_name_witness :
  snd (SiteRequest.create_req SiteItem.empty None) = Raise cannot_serialize
  /\ ProjectRequest.create_req (Sample.project None None)
     = Raise cannot_serialize.
Proof.
  destruct create_requests_need_a_name as [Hs Hp].
  split.
  - apply (proj2 (Hs SiteItem.empty None)). reflexivity.
  - apply (proj2 (Hp (Sample.project None None))). reflexivity.
Defined.

(** ** Favorites and tasks *)

(** X4. Each of the five favorite builders raises the error about the
    id when the id is missing, whatever the name is; the error about the
    name when only the name is missing; and otherwise returns the
    document whose [favorite] element carries the name as [label] and
    has one child, named after the kind of favorite, that carries the
    id. *)
Theorem favorite_requests_need_id_and_name :
  forall (T : FavoriteItem.Type_) (id_ name : option string),
    Forall
      (fun p : (option string -> option string -> result string) * string =>
         match id_, name with
         | None, _ =>
             fst p id_ name
             = Raise (ValueError "id must exist to add to favorites")
         | Some _, None =>
             fst p id_ name
             = Raise (ValueError "Name must exist to add to favorites.")
         | Some i, Some n =>
             fst p id_ name
             = ET.tostring (FavoriteRequest.add_to_tree i (snd p) n)
             /\ is_ok (fst p id_ name) = true
             /\ ET.children (FavoriteRequest.add_to_tree i (snd p) n)
                = [ ET.Elem "favorite" [("label", Some n)]
                      [ ET.Elem (snd p) [("id", Some i)] [] ] ]
         end)
      [ (FavoriteRequest.add_datasource_req T, FavoriteItem.Datasource T);
        (FavoriteRequest.add_flow_req T, FavoriteItem.Flow T);
        (FavoriteRequest.add_project_req T, FavoriteItem.Project T);
        (FavoriteRequest.add_view_req T, FavoriteItem.View T);
        (FavoriteRequest.add_workbook_req T, FavoriteItem.Workbook T) ].
Proof.
  intros T id_ name.
  repeat (apply Forall_cons; [|]); try apply Forall_nil;
    cbn [fst snd];
    (destruct id_ as [i|]; [destruct name as [n|]|]; try reflexivity);
    (split; [reflexivity|]); (split; [|reflexivity]);
    unfold FavoriteRequest.add_datasource_req, FavoriteRequest.add_flow_req,
      FavoriteRequest.add_project_req, FavoriteRequest.add_view_req,
      FavoriteRequest.add_workbook_req, FavoriteRequest.add_req,
      FavoriteRequest._add_to_req;
    match goal with
    | |- is_ok (ET.tostring ?e) = true => change (serializable e = true)
    end;
    unfold FavoriteRequest.add_to_tree; cbv zeta; serial.
Qed.


(** ** Groups *)

(** X6. Creating a group.  The local creation fails exactly for a group
    without a name.  The directory creation fails for a group without a
    name, whatever its domain; for a named group without a domain it
    fails with the error about the domain; and otherwise it returns a
    document whose [import] element carries the domain, and the minimum
    site role as [siteRole] exactly when the group has one.  No minimum
    site role is required. *)
Theorem group_creation :
  forall g : GroupItem.t,
    match GroupItem.name g with
    | None =>
        GroupRequest.create_local_req g
        = Raise (ValueError "Group name must be populated")
        /\ GroupRequest.create_ad_req g
           = Raise (ValueError "Group name must be populated")
    | Some _ =>
        is_ok (GroupRequest.create_local_req g) = true
        /\ match GroupItem.domain_name g with
           | None =>
               GroupRequest.create_ad_req g
               = Raise (ValueError "Group Domain undefined.")
           | Some d =>
               exists root grp imp,
                 GroupRequest.create_ad_tree g = Ok root
                 /\ is_ok (GroupRequest.create_ad_req g) = true
                 /\ ET.find root "group" = Some grp
                 /\ ET.find grp "import" = Some imp
                 /\ ET.get imp "source" = Some (Some "ActiveDirectory")
                 /\ ET.get imp "domainName" = Some (Some d)
                 /\ ET.get imp "siteRole"
                    = match GroupItem.minimum_site_role g with
                      | Some r => Some (Some r)
                      | None => None
                      end
           end
    end.
Proof.
  intros [n d l m]. simpl GroupItem.name. simpl GroupItem.domain_name.
  simpl GroupItem.minimum_site_role.
  destruct n as [n|]; [|split; reflexivity].
  split.
  - unfold GroupRequest.create_local_req, GroupRequest.create_local_tree.
    simpl. destruct m; reflexivity.
  - destruct d as [d|]; [|reflexivity].
    unfold GroupRequest.create_ad_req, GroupRequest.create_ad_tree.
    simpl.
    destruct l as [l|]; destruct m as [m|]; simpl;
      do 3 eexists; repeat split; reflexivity.
Qed.

(** X7. Updating a group without the deprecated argument.  The update
    fails for a group without a name; for a named group of a directory
    domain (a domain other than [local]) without a minimum site role it
    fails with the error about the role; in every other case it returns
    a document, which has an [import] element exactly for a directory
    domain. *)
Theorem group_update_outcomes :
  forall g : GroupItem.t,
    let directory :=
      match GroupItem.domain_name g with
      | Some d => negb (String.eqb d "local")
      | None => false
      end in
    let res := snd (GroupRequest.update_req g None) in
    fst (GroupRequest.update_req g None) = (g, [])
    /\ match GroupItem.name g with
       | None => res = Raise (ValueError "Group name must be populated")
       | Some _ =>
           if directory && negb (is_not_None (GroupItem.minimum_site_role g))
           then res = Raise (ValueError "Minimum site role must be provided.")
           else
             exists root grp,
               GroupRequest.update_tree g = Ok root
               /\ is_ok res = true
               /\ ET.find root "group" = Some grp
               /\ is_not_None (ET.find grp "import") = directory
               /\ group_role root
                  = match GroupItem.minimum_site_role g with
                    | Some r => Some (Some r)
                    | None => None
                    end
       end.
Proof.
  intros [n d l m]. cbv zeta. split; [reflexivity|].
  unfold GroupRequest.update_req. cbn [snd].
  simpl GroupItem.name. simpl GroupItem.domain_name.
  simpl GroupItem.minimum_site_role.
  destruct n as [n|]; [|reflexivity].
  unfold GroupRequest.update_tree. simpl.
  destruct d as [d|]; simpl.
  - destruct (String.eqb d "local"); simpl.
    + destruct m as [m|]; simpl; do 2 eexists; repeat split; reflexivity.
    + destruct m as [m|]; simpl; [|reflexivity].
      destruct l as [l|]; simpl; do 2 eexists; repeat split; reflexivity.
  - destruct m as [m|]; simpl; do 2 eexists; repeat split; reflexivity.
Qed.

(** ** Users and webhooks *)

(** X8. Adding a user returns a document exactly when the user has a
    name and a site role, empty texts included; the document carries
    both as they are. *)
Theorem user_add_outcomes :
  forall (fmt : UserItem.t -> string) (u : UserItem.t),
    is_ok (UserRequest.add_req fmt u)
    = is_not_None (UserItem.name u) && is_not_None (UserItem.site_role u)
    /\ forall n r,
        UserItem.name u = Some n ->
        UserItem.site_role u = Some r ->
        exists root usr,
          UserRequest.add_tree fmt u = Ok root
          /\ ET.find root "user" = Some usr
          /\ ET.get usr "name" = Some (Some n)
          /\ ET.get usr "siteRole" = Some (Some r).
Proof.
  intros fmt [n f e r a]. unfold UserRequest.add_req, UserRequest.add_tree.
  simpl UserItem.name. simpl UserItem.site_role.
  simpl UserItem.auth_setting. split.
  - destruct n as [n|]; [|reflexivity].
    destruct r as [r|]; [|reflexivity].
    cbn [bind is_not_None andb].
    match goal with
    | |- is_ok (ET.tostring ?x) = _ => change (serializable x = true)
    end.
    serial.
  - intros n' r' Hn Hr. rewrite Hn, Hr.
    destruct (truthy_str a); do 2 eexists;
      (split; [reflexivity|]); (split; [reflexivity|]); split; reflexivity.
Qed.

Lemma user_add_outcomes_witness :
  is_ok (UserRequest.add_req Sample.fmt (Sample.user (Some "") (Some "Viewer")))
  = true
  /\ exists root usr,
      UserRequest.add_tree Sample.fmt (Sample.user (Some "") (Some "Viewer"))
      = Ok root
      /\ ET.find root "user" = Some usr
      /\ ET.get usr "name" = Some (Some "")
      /\ ET.get usr "siteRole" = Some (Some "Viewer").
Proof.
  destruct (user_add_outcomes Sample.fmt
              (Sample.user (Some "") (Some "Viewer"))) as [H1 H2].
  split.
  - rewrite H1. reflexivity.
  - apply H2; reflexivity.
Defined.


(** ** Lists of children *)

Lemma fold_append {A} (f : A -> ET.Element) (l : list A) :
  forall t a cs,
    fold_left (fun e x => ET.append e (f x)) l (ET.Elem t a cs)
    = ET.Elem t a (cs ++ map f l)%list.
Proof.
  induction l as [|x l IH]; intros t a cs; simpl.
  - now rewrite app_nil_r.
  - rewrite IH. now rewrite <- app_assoc.
Qed.

Lemma read_all_map {A} (read : ET.Element -> option A)
  (f : A -> ET.Element) (l : list A) :
  (forall x, read (f x) = Some x) -> read_all read (map f l) = Some l.
Proof.
  intros H. induction l as [|x l IH]; simpl; [reflexivity|].
  now rewrite H, IH.
Qed.

Lemma add_rule_appends p (r : PermissionsRule.t) :
  PermissionRequest.add_rule p r
  = ET.append p
      (ET.Elem "granteeCapabilities" []
         [ ET.Elem (Grantee.tag_name (PermissionsRule.grantee r))
             [("id", Grantee.id (PermissionsRule.grantee r))] [];
           ET.Elem "capabilities" []
             (map PermissionRequest.capability_element
                (PermissionsRule.capabilities r)) ]).
Proof.
  unfold PermissionRequest.add_rule,
    PermissionRequest._add_all_capabilities. cbv zeta.
  unfold ET.new. now rewrite fold_append.
Qed.

Lemma permissions_children (rules : list PermissionsRule.t) :
  forall t a cs,
    fold_left PermissionRequest.add_rule rules (ET.Elem t a cs)
    = ET.Elem t a
        (cs ++ map (fun r => ET.Elem "granteeCapabilities" []
                      [ ET.Elem (Grantee.tag_name (PermissionsRule.grantee r))
                          [("id", Grantee.id (PermissionsRule.grantee r))] [];
                        ET.Elem "capabilities" []
                          (map PermissionRequest.capability_element
                             (PermissionsRule.capabilities r)) ])
                rules)%list.
Proof.
  induction rules as [|r rules IH]; intros t a cs; cbn [fold_left map].
  - now rewrite app_nil_r.
  - rewrite add_rule_appends. unfold ET.append at 1. rewrite IH.
    now rewrite <- app_assoc.
Qed.

(** X10. A permissions request holds the rules it was built from: one
    [granteeCapabilities] per rule, in the order of the rules, with the
    grantee under its own tag and one [capability] per entry of the
    rule, in the order of the entries.  Reading the document back gives
    the rules.  The request is serialized exactly when every grantee has
    an id. *)
Theorem permissions_round_trip :
  forall rules : list PermissionsRule.t,
    read_rules (PermissionRequest.add_tree rules) = Some rules
    /\ (exists p,
          ET.find (PermissionRequest.add_tree rules) "permissions" = Some p
          /\ length (ET.children p) = length rules)
    /\ is_ok (PermissionRequest.add_req rules)
       = forallb (fun r => is_not_None
                             (Grantee.id (PermissionsRule.grantee r)))
           rules.
Proof.
  intros rules. unfold PermissionRequest.add_req, PermissionRequest.add_tree.
  cbv zeta. change (ET.new "permissions") with (ET.Elem "permissions" [] []).
  rewrite permissions_children. simpl app.
  repeat apply conj.
  - unfold read_rules. simpl ET.find. cbv iota. simpl ET.children.
    apply read_all_map. intros [[tg i] caps]. unfold read_rule. simpl.
    rewrite read_all_map; [reflexivity|].
    intros [n m]. reflexivity.
  - eexists. split; [reflexivity|]. simpl. now rewrite length_map.
  - fold (serializable
            (ET.append (ET.new "tsRequest")
               (ET.Elem "permissions" []
                  (map (fun r => ET.Elem "granteeCapabilities" []
                          [ ET.Elem
                              (Grantee.tag_name (PermissionsRule.grantee r))
                              [("id", Grantee.id (PermissionsRule.grantee r))]
                              [];
                            ET.Elem "capabilities" []
                              (map PermissionRequest.capability_element
                                 (PermissionsRule.capabilities r)) ])
                     rules)))).
    rewrite serializable_append, serializable_elem. simpl.
    induction rules as [|[[tg i] caps] rules IH]; [reflexivity|].
    simpl map. simpl forallb. rewrite IH. f_equal.
    rewrite !serializable_elem. simpl.
    assert (Hc : forallb serializable
                   (map PermissionRequest.capability_element caps) = true).
    { induction caps as [|[n m] caps IHc]; [reflexivity|].
      simpl. exact IHc. }
    rewrite !serializable_elem, Hc. simpl. now destruct i.
Qed.

(** X11. A tag request holds one [tag] per tag of the set, in the order
    of the iteration, with the tag as its [label]; it is always
    serialized, also for the empty set. *)
Theorem tags_are_listed :
  forall tag_set : list string,
    exists tags,
      ET.find (TagRequest.add_tree tag_set) "tags" = Some tags
      /\ attribute_of "label" (ET.children tags)
         = map (fun t => Some (Some t)) tag_set
      /\ map ET.tag (ET.children tags) = map (fun _ => "tag") tag_set
      /\ is_ok (TagRequest.add_req tag_set) = true.
Proof.
  intros tag_set. unfold TagRequest.add_req, TagRequest.add_tree.
  cbv zeta. change (ET.new "tags") with (ET.Elem "tags" [] []).
  rewrite (fold_append (fun tag => ET.sets (ET.new "tag") "label" tag)).
  simpl app. eexists. split; [reflexivity|]. simpl ET.children.
  unfold attribute_of. rewrite !map_map.
  split; [apply map_ext; reflexivity|].
  split; [apply map_ext; reflexivity|].
  - match goal with
    | |- is_ok (ET.tostring ?x) = true => change (serializable x = true)
    end.
    rewrite serializable_append, serializable_elem. simpl.
    induction tag_set as [|t l IH]; [reflexivity|]. exact IH.
Qed.

(** X12. The request for embedded extracts.  With [include_all] the
    [datasources] element carries [includeAll] and lists nothing,
    whatever list is given.  Without it the element has no [includeAll]
    and lists the ids of the given data sources in their order; for no
    list, or an empty one, it is empty. *)
Theorem embedded_extract_listing :
  forall (include_all : bool) (datasources : option (list (option string))),
    exists le,
      ET.find
        (WorkbookRequest.embedded_extract_fill (ET.new "tsRequest")
           include_all datasources) "datasources" = Some le
      /\ if include_all
         then ET.get le "includeAll" = Some (Some "true")
              /\ ET.children le = []
         else ET.has le "includeAll" = false
              /\ attribute_of "id" (ET.children le)
                 = map Some match datasources with
                            | Some l => l
                            | None => []
                            end
              /\ map ET.tag (ET.children le)
                 = map (fun _ => "datasource")
                     match datasources with
                     | Some l => l
                     | None => []
                     end.
Proof.
  intros include_all datasources.
  unfold WorkbookRequest.embedded_extract_fill. cbv zeta.
  destruct include_all.
  - eexists. split; [reflexivity|]. split; reflexivity.
  - destruct datasources as [[|d ds]|].
    + eexists. split; [reflexivity|]. repeat split.
    + change (ET.new "datasources") with (ET.Elem "datasources" [] []).
      rewrite (fold_append
                 (fun id => ET.set (ET.new "datasource") "id" id)).
      eexists. split; [reflexivity|]. cbn [ET.children app].
      unfold attribute_of. generalize (d :: ds). intros l.
      rewrite !map_map.
      split; [reflexivity|]. split; apply map_ext; reflexivity.
    + eexists. split; [reflexivity|]. repeat split.
Qed.

(** ** Signing in *)

Lemma dict_set_fresh d k v :
  ~ In k (map fst d) -> ET.dict_set d k v = (d ++ [(k, v)])%list.
Proof.
  induction d as [|[k' v'] d IH]; simpl; intros H; [reflexivity|].
  destruct (String.eqb k' k) eqn:E.
  - apply String.eqb_eq in E. tauto.
  - rewrite IH; tauto.
Qed.

Lemma set_all_fresh items :
  forall t d cs,
    NoDup (map fst (d ++ items)) ->
    AuthRequest.set_all (ET.Elem t d cs) items = ET.Elem t (d ++ items)%list cs.
Proof.
  unfold AuthRequest.set_all.
  induction items as [|[k v] items IH]; intros t d cs H; cbn [fold_left].
  - now rewrite app_nil_r.
  - unfold ET.set at 2. cbn [fst snd].
    rewrite dict_set_fresh.
    + rewrite IH; rewrite <- app_assoc; [reflexivity|exact H].
    + rewrite map_app in H. simpl in H. apply NoDup_remove_2 in H.
      intros Hin. apply H. apply in_or_app. now left.
Qed.

(** X13. The sign-in request carries the credentials as they are: when
    the names of the credential dictionary are distinct, the attributes
    of the [credentials] element are its entries, in their order.  The
    element always has a [site] child with the site id as [contentUrl],
    followed by a [user] child with the id to impersonate exactly when
    that id is set and not empty. *)
Theorem signin_carries_credentials :
  forall a : AuthItem.t,
    NoDup (map fst (AuthItem.credentials a)) ->
    exists ce,
      ET.find (AuthRequest.signin_tree a) "credentials" = Some ce
      /\ ET.attrib ce = AuthItem.credentials a
      /\ ET.children ce
         = (ET.Elem "site" [("contentUrl", AuthItem.site_id a)] []
            :: if truthy_str (AuthItem.user_id_to_impersonate a)
               then [ET.Elem "user"
                       [("id", AuthItem.user_id_to_impersonate a)] []]
               else []).
Proof.
  intros a H. unfold AuthRequest.signin_tree. cbv zeta.
  change (ET.new "credentials") with (ET.Elem "credentials" [] []).
  rewrite set_all_fresh by exact H. simpl app.
  destruct (truthy_str (AuthItem.user_id_to_impersonate a));
    eexists; repeat split; reflexivity.
Qed.

Lemma signin_carries_credentials_witness :
  exists ce,
    ET.find (AuthRequest.signin_tree Sample.auth) "credentials" = Some ce
    /\ ET.attrib ce = [("name", Some "ann"); ("password", Some "secret")]
    /\ ET.children ce = [ET.Elem "site" [("contentUrl", Some "sales")] []].
Proof.
  apply (signin_carries_credentials Sample.auth).
  simpl. repeat constructor; simpl; intuition discriminate.
Defined.

(** ** Connections *)

Lemma add_credentials_valid parent cc :
  valid_credentials cc = true ->
  exists c,
    _add_credentials_element parent cc = Ok (ET.append parent c)
    /\ ET.tag c = "connectionCredentials"
    /\ serializable c = true.
Proof.
  unfold valid_credentials, _add_credentials_element. intros H.
  apply andb_true_iff in H. destruct H as [Hp Hn]. rewrite Hp, Hn.
  simpl orb. cbv iota zeta. eexists. split; [reflexivity|]. split.
  - rewrite tag_sets_if. reflexivity.
  - apply truthy_str_is_set in Hp, Hn. serial.
Qed.

Lemma add_credentials_invalid parent cc :
  valid_credentials cc = false ->
  _add_credentials_element parent cc
  = Raise (ValueError "Connection Credentials must have a name and password").
Proof.
  unfold valid_credentials. intros H. apply add_credentials_rejects.
  apply andb_false_iff in H. tauto.
Qed.

Lemma add_connection_valid parent c :
  valid_connection c = true ->
  exists x,
    _add_connections_element parent c = Ok (ET.append parent x)
    /\ ET.tag x = "connection"
    /\ ET.get x "serverAddress" = Some (ConnectionItem.server_address c)
    /\ serializable x = true.
Proof.
  unfold valid_connection, _add_connections_element. intros H.
  apply andb_true_iff in H. destruct H as [Ha Hc]. rewrite Ha.
  simpl negb. cbv iota zeta.
  destruct (ConnectionItem.connection_credentials c) as [cc|].
  - destruct (add_credentials_valid
                (ET.set_if (truthy_str (ConnectionItem.server_port c))
                   (ET.set (ET.new "connection") "serverAddress"
                      (ConnectionItem.server_address c))
                   "serverPort" (ConnectionItem.server_port c)) cc Hc)
      as (x & Hx & Hxt & Hxs).
    rewrite Hx. simpl bind. eexists. split; [reflexivity|].
    split; [now rewrite tag_append, tag_set_if|]. split; [now attrs|].
    apply truthy_str_is_set in Ha. rewrite serializable_append, Hxs.
    rewrite andb_true_r.
    destruct (ConnectionItem.server_address c); [|discriminate Ha].
    apply serializable_set_if; [reflexivity|].
    intros H. now apply truthy_str_is_set.
  - simpl bind. eexists. split; [reflexivity|].
    split; [now rewrite tag_set_if|]. split; [now attrs|].
    apply truthy_str_is_set in Ha.
    destruct (ConnectionItem.server_address c); [|discriminate Ha].
    apply serializable_set_if; [reflexivity|].
    intros H. now apply truthy_str_is_set.
Qed.

Lemma add_connection_invalid parent c :
  valid_connection c = false ->
  exists m, _add_connections_element parent c = Raise (ValueError m).
Proof.
  unfold valid_connection. intros H.
  destruct (truthy_str (ConnectionItem.server_address c)) eqn:Ha.
  - simpl in H. unfold _add_connections_element. rewrite Ha.
    simpl negb. cbv iota zeta.
    destruct (ConnectionItem.connection_credentials c) as [cc|];
      [|discriminate].
    rewrite add_credentials_invalid by exact H. simpl. eauto.
  - rewrite add_connection_rejects by exact Ha. eauto.
Qed.

(** X14. The connections of a request are all or nothing.  When every
    connection has a server address and, if it has credentials, a name
    and a password in them, the element gains one [connection] child per
    connection, in their order, each with its server address, and all
    serializable.  When one connection does not, nothing is built and a
    [ValueError] is raised. *)
Theorem connections_all_or_nothing :
  forall (cs : list ConnectionItem.t) (t : string)
         (a : list (string * ET.attrval)) (children : list ET.Element),
    if forallb valid_connection cs
    then exists es,
        add_connections (ET.Elem t a children) cs
        = Ok (ET.Elem t a (children ++ es)%list)
        /\ map ET.tag es = map (fun _ => "connection") cs
        /\ attribute_of "serverAddress" es
           = map (fun c => Some (ConnectionItem.server_address c)) cs
        /\ forallb serializable es = true
    else exists m,
        add_connections (ET.Elem t a children) cs = Raise (ValueError m).
Proof.
  induction cs as [|c cs IH]; intros t a children.
  - simpl. exists []. now rewrite app_nil_r.
  - cbn [forallb add_connections].
    destruct (valid_connection c) eqn:Hc; cbn [andb].
    + destruct (add_connection_valid (ET.Elem t a children) c Hc)
        as (x & Hx & Hxt & Hxa & Hxs).
      rewrite Hx. cbn [bind ET.append].
      specialize (IH t a (children ++ [x])%list).
      destruct (forallb valid_connection cs).
      * destruct IH as (es & He & Ht & Ha & Hs). exists (x :: es).
        rewrite He, <- app_assoc. split; [reflexivity|].
        unfold attribute_of in *. simpl.
        now rewrite Hxt, Ht, Hxa, Ha, Hxs, Hs.
      * exact IH.
    + destruct (add_connection_invalid (ET.Elem t a children) c Hc)
        as (m & Hm).
      rewrite Hm. simpl. eauto.
Qed.

(** ** Outcomes of the publish builders *)

Lemma add_connections_serializable cs :
  forall parent,
    serializable parent = true ->
    if forallb valid_connection cs
    then exists ce,
        add_connections parent cs = Ok ce /\ serializable ce = true
    else exists m, add_connections parent cs = Raise (ValueError m).
Proof.
  induction cs as [|c cs IH]; intros parent Hp.
  - simpl. eauto.
  - cbn [forallb add_connections].
    destruct (valid_connection c) eqn:Hc; cbn [andb].
    + destruct (add_connection_valid parent c Hc) as (x & Hx & _ & _ & Hxs).
      rewrite Hx. cbn [bind]. apply IH.
      now rewrite serializable_append, Hp, Hxs.
    + destruct (add_connection_invalid parent c Hc) as (m & Hm).
      rewrite Hm. simpl. eauto.
Qed.

Lemma connections_element_outcome cs :
  if forallb valid_connection cs
  then exists ce,
      add_connections (ET.new "connections") cs = Ok ce
      /\ serializable ce = true
  else exists m,
      add_connections (ET.new "connections") cs = Raise (ValueError m).
Proof. now apply add_connections_serializable. Qed.

Lemma children_append e c :
  ET.children (ET.append e c) = (ET.children e ++ [c])%list.
Proof. now destruct e. Qed.

(** The part of a publish request after its head [e]: the credentials,
    then the connections. *)
Lemma credentials_then_connections e
  (cc : option ConnectionCredentials.t)
  (conns : option (list ConnectionItem.t)) :
  let built :=
    e1 <- match cc with
          | Some c => _add_credentials_element e c
          | None => Ok e
          end ;;
    match conns with
    | Some cs =>
        connections_element <- add_connections (ET.new "connections") cs ;;
        Ok (ET.append e1 connections_element)
    | None => Ok e1
    end in
  if negb match cc with Some c => valid_credentials c | None => true end
  then built
       = Raise (ValueError
                  "Connection Credentials must have a name and password")
  else if negb match conns with
               | Some cs => forallb valid_connection cs
               | None => true
               end
       then exists m, built = Raise (ValueError m)
       else exists e', built = Ok e'
                       /\ serializable e' = serializable e
                       /\ ET.tag e' = ET.tag e
                       /\ (forall k, ET.get e' k = ET.get e k)
                       /\ exists more,
                           ET.children e' = (ET.children e ++ more)%list.
Proof.
  cbv zeta.
  assert (Hcc :
            if negb match cc with Some c => valid_credentials c | None => true end
            then match cc with
                 | Some c => _add_credentials_element e c
                 | None => Ok e
                 end
                 = Raise (ValueError
                            "Connection Credentials must have a name and password")
            else exists e1,
                match cc with
                | Some c => _add_credentials_element e c
                | None => Ok e
                end = Ok e1
                /\ serializable e1 = serializable e
                /\ ET.tag e1 = ET.tag e
                /\ (forall k, ET.get e1 k = ET.get e k)
                /\ exists more,
                    ET.children e1 = (ET.children e ++ more)%list).
  { destruct cc as [c|]; simpl negb.
    - destruct (valid_credentials c) eqn:Hv; simpl negb; cbv iota.
      + destruct (add_credentials_valid e c Hv) as (x & Hx & _ & Hs).
        exists (ET.append e x). rewrite Hx. split; [reflexivity|].
        rewrite serializable_append, Hs, andb_true_r, tag_append.
        split; [reflexivity|]. split; [reflexivity|].
        split; [intros k; apply get_append|].
        exists [x]. apply children_append.
      + now apply add_credentials_invalid.
    - exists e. repeat split. exists []. now rewrite app_nil_r. }
  destruct (negb match cc with Some c => valid_credentials c | None => true end).
  - now rewrite Hcc.
  - destruct Hcc as (e1 & -> & Hs1 & Ht1 & Hg1 & more1 & Hm1). simpl bind.
    destruct conns as [cs|]; simpl negb.
    + pose proof (connections_element_outcome cs) as Hc.
      destruct (forallb valid_connection cs); simpl negb; cbv iota.
      * destruct Hc as (ce & -> & Hs). simpl bind.
        exists (ET.append e1 ce). split; [reflexivity|].
        rewrite serializable_append, Hs, andb_true_r, tag_append.
        split; [assumption|]. split; [assumption|].
        split; [intros k; now rewrite get_append|].
        exists (more1 ++ [ce])%list.
        now rewrite children_append, Hm1, app_assoc.
      * destruct Hc as (m & ->). simpl. eauto.
    + exists e1. repeat split; try assumption. now exists more1.
Qed.

Lemma bind_assoc {A B C} (m : result A) (f : A -> result B)
  (g : B -> result C) :
  bind (bind m f) g = bind m (fun x => bind (f x) g).
Proof. now destruct m. Qed.

Lemma publish_tail_assoc {C} e (cc : option ConnectionCredentials.t)
  (conns : option (list ConnectionItem.t)) (K : ET.Element -> result C) :
  (e1 <- match cc with
         | Some c => _add_credentials_element e c
         | None => Ok e
         end ;;
   e2 <- match conns with
         | Some cs =>
             connections_element <-
               add_connections (ET.new "connections") cs ;;
             Ok (ET.append e1 connections_element)
         | None => Ok e1
         end ;;
   K e2)
  = (e' <- (e1 <- match cc with
                  | Some c => _add_credentials_element e c
                  | None => Ok e
                  end ;;
            match conns with
            | Some cs =>
                connections_element <-
                  add_connections (ET.new "connections") cs ;;
                Ok (ET.append e1 connections_element)
            | None => Ok e1
            end) ;;
     K e').
Proof. symmetry. apply bind_assoc. Qed.

(** X15. The outcomes of the data source publish document, in the
    order in which the builder decides them: an error for a connection
    list together with credentials; else an error for credentials
    without a name or a password; else an error for a connection that
    is not valid; else the exception of the serializer when the data
    source has no name or no project id, which the builder stores
    without a check; and a document in every other case. *)
Theorem datasource_publish_outcomes :
  forall (ds : DatasourceItem.t) cc conns,
    let res := DatasourceRequest._generate_xml ds cc conns in
    if is_not_None cc && is_not_None conns
    then res = Raise (RuntimeError both_set_message)
    else if negb match cc with
                 | Some c => valid_credentials c
                 | None => true
                 end
    then res = Raise (ValueError
                        "Connection Credentials must have a name and password")
    else if negb match conns with
                 | Some cs => forallb valid_connection cs
                 | None => true
                 end
    then exists m, res = Raise (ValueError m)
    else if is_not_None (DatasourceItem.name ds)
            && is_not_None (DatasourceItem.project_id ds)
    then is_ok res = true
    else res = Raise cannot_serialize.
Proof.
  intros ds cc conns. cbv zeta.
  unfold DatasourceRequest._generate_xml, DatasourceRequest.generate_tree.
  cbv zeta.
  destruct (is_not_None cc && is_not_None conns); [reflexivity|].
  match goal with
  | |- context [match cc with
                | Some c => _add_credentials_element ?e c
                | None => _
                end] => set (head := e)
  end.
  assert (Hhead : serializable head
                  = is_not_None (DatasourceItem.name ds)
                    && is_not_None (DatasourceItem.project_id ds)).
  { subst head. rewrite serializable_append.
    destruct (DatasourceItem.project_id ds) as [p|].
    - rewrite andb_true_r.
      replace (serializable (ET.set (ET.new "project") "id" (Some p)))
        with true by reflexivity.
      rewrite andb_true_r.
      destruct (DatasourceItem.name ds) as [n|].
      + serial.
      + apply (get_none_not_serializable _ "name"). now attrs.
    - rewrite serializable_set_none. now rewrite !andb_false_r. }
  pose proof (credentials_then_connections head cc conns) as H.
  cbv zeta in H. rewrite publish_tail_assoc.
  destruct (negb match cc with Some c => valid_credentials c | None => true end).
  - now rewrite H.
  - destruct (negb match conns with
                   | Some cs => forallb valid_connection cs
                   | None => true
                   end).
    + destruct H as (m & ->). simpl. eauto.
    + destruct H as (e' & -> & Hs & _). cbn [bind].
      rewrite Hhead in Hs.
      change (is_ok (ET.tostring (ET.append (ET.new "tsRequest") e')))
        with (serializable (ET.append (ET.new "tsRequest") e')).
      destruct (is_not_None (DatasourceItem.name ds)
                && is_not_None (DatasourceItem.project_id ds)).
      * now rewrite serializable_append, Hs.
      * apply not_serializable. now rewrite serializable_append, Hs.
Qed.

Lemma workbook_head_outcome w cc conns :
  if is_not_None cc && is_not_None conns
  then WorkbookRequest.workbook_head w cc conns
       = Raise (RuntimeError both_set_message)
  else if negb match cc with
               | Some c => valid_credentials c
               | None => true
               end
  then WorkbookRequest.workbook_head w cc conns
       = Raise (ValueError
                  "Connection Credentials must have a name and password")
  else if negb match conns with
               | Some cs => forallb valid_connection cs
               | None => true
               end
  then exists m,
      WorkbookRequest.workbook_head w cc conns = Raise (ValueError m)
  else exists we more,
      WorkbookRequest.workbook_head w cc conns = Ok we
      /\ serializable we = is_not_None (WorkbookItem.name w)
      /\ ET.children we
         = (ET.Elem "project"
              [("id", Some (str_opt_str (WorkbookItem.project_id w)))] []
            :: more).
Proof.
  unfold WorkbookRequest.workbook_head. cbv zeta.
  destruct (is_not_None cc && is_not_None conns); [reflexivity|].
  match goal with
  | |- context [match cc with
                | Some c => _add_credentials_element ?e c
                | None => _
                end] => set (head := e)
  end.
  assert (Hhead : serializable head = is_not_None (WorkbookItem.name w)
                  /\ ET.children head
                     = [ET.Elem "project"
                          [("id",
                            Some (str_opt_str (WorkbookItem.project_id w)))]
                          []]).
  { subst head. split.
    - rewrite serializable_append.
      replace (serializable
                 (ET.sets (ET.new "project") "id"
                    (str_opt_str (WorkbookItem.project_id w))))
        with true by reflexivity.
      rewrite andb_true_r.
      destruct (WorkbookItem.name w) as [n|].
      + serial.
      + apply (get_none_not_serializable _ "name"). now attrs.
    - rewrite children_append.
      now destruct (truthy_bool (WorkbookItem.show_tabs w)). }
  destruct Hhead as [Hs Hc].
  pose proof (credentials_then_connections head cc conns) as H.
  cbv zeta in H.
  destruct (negb match cc with Some c => valid_credentials c | None => true end);
    [exact H|].
  destruct (negb match conns with
                 | Some cs => forallb valid_connection cs
                 | None => true
                 end); [exact H|].
  destruct H as (e' & He & Hs' & _ & _ & more & Hm).
  exists e', more. split; [exact He|]. split.
  - now rewrite Hs'.
  - now rewrite Hm, Hc.
Qed.

(** X16. The outcomes of the workbook publish document without the
    deprecated argument: the errors of the data source builder, in the
    same order, but the project id is written as text, so only a missing
    name makes the serializer raise.  The item is left as it was and no
    warning is issued. *)
Theorem workbook_publish_outcomes :
  forall (w : WorkbookItem.t) cc conns,
    let out := WorkbookRequest._generate_xml w cc conns None in
    let res := snd out in
    fst out = (w, [])
    /\ if is_not_None cc && is_not_None conns
       then res = Raise (RuntimeError both_set_message)
       else if negb match cc with
                    | Some c => valid_credentials c
                    | None => true
                    end
       then res = Raise (ValueError
                           "Connection Credentials must have a name and password")
       else if negb match conns with
                    | Some cs => forallb valid_connection cs
                    | None => true
                    end
       then exists m, res = Raise (ValueError m)
       else if is_not_None (WorkbookItem.name w)
       then is_ok res = true
       else res = Raise cannot_serialize.
Proof.
  intros w cc conns. cbv zeta. rewrite generate_xml_tree. cbn [fst snd].
  pose proof (workbook_head_outcome w cc conns) as H.
  unfold WorkbookRequest.generate_tree.
  destruct (is_not_None cc && is_not_None conns).
  { rewrite H. split; reflexivity. }
  destruct (negb match cc with Some c => valid_credentials c | None => true end).
  { rewrite H. split; reflexivity. }
  destruct (negb match conns with
                 | Some cs => forallb valid_connection cs
                 | None => true
                 end).
  { destruct H as (m & ->). split; [reflexivity|]. simpl. eauto. }
  destruct H as (we & more & -> & Hs & _). cbn [fst snd bind].
  split; [reflexivity|].
  match goal with
  | |- context [ET.tostring ?x] =>
      change (ET.tostring x) with (ET.tostring x);
      assert (Hx : serializable x = is_not_None (WorkbookItem.name w))
  end.
  { rewrite serializable_append. simpl andb.
    destruct (WorkbookItem.hidden_views w) as [v|]; [|exact Hs].
    rewrite serializable_append. unfold serializable at 2.
    now rewrite add_hidden_views_ok, andb_true_r. }
  destruct (is_not_None (WorkbookItem.name w)).
  - exact Hx.
  - now apply not_serializable.
Qed.

Lemma find_only_child r x t :
  ET.tag x = t -> ET.find (ET.Elem r [] [x]) t = Some x.
Proof.
  intros H. unfold ET.find, ET.findall. simpl. now rewrite H, String.eqb_refl.
Qed.

Lemma find_first_child e c more :
  ET.children e = c :: more -> ET.find e (ET.tag c) = Some c.
Proof.
  intros H. unfold ET.find, ET.findall. rewrite H. simpl.
  now rewrite String.eqb_refl.
Qed.

(** X17. What the workbook publish document holds when it is built
    without the deprecated argument: the project id as the text
    [str(project_id)], which is [None] for a workbook without a project;
    and a [views] element exactly when the hidden views of the item are
    not [None], listing them in their order, so that an empty list
    gives an empty [views] element. *)
Theorem workbook_project_and_views :
  forall (w : WorkbookItem.t) cc conns root,
    snd (WorkbookRequest.generate_tree w cc conns None) = Ok root ->
    (exists wb prj,
        ET.find root "workbook" = Some wb
        /\ ET.find wb "project" = Some prj
        /\ ET.get prj "id"
           = Some (Some (str_opt_str (WorkbookItem.project_id w))))
    /\ hidden_view_names root
       = match WorkbookItem.hidden_views w with
         | Some v => Some (map Some v)
         | None => None
         end.
Proof.
  intros w cc conns root.
  destruct (WorkbookRequest.workbook_head w cc conns) as [we|ex] eqn:Hh.
  - rewrite (generate_tree_plain _ _ _ Hh). cbn [snd].
    intros H. injection H as <-.
    destruct (workbook_head_shape _ _ _ Hh) as [Ht Hf].
    assert (Hp : exists more,
               ET.children we
               = ET.Elem "project"
                   [("id", Some (str_opt_str (WorkbookItem.project_id w)))]
                   [] :: more).
    { pose proof (workbook_head_outcome w cc conns) as H.
      rewrite Hh in H.
      destruct (is_not_None cc && is_not_None conns); [discriminate H|].
      destruct (negb match cc with
                     | Some c => valid_credentials c
                     | None => true
                     end); [discriminate H|].
      destruct (negb match conns with
                     | Some cs => forallb valid_connection cs
                     | None => true
                     end); [destruct H as (m & H); discriminate H|].
      destruct H as (we' & more & H & _ & Hc). injection H as <-.
      now exists more. }
    destruct Hp as (more & Hp).
    destruct (WorkbookItem.hidden_views w) as [v|].
    + assert (Ht' : ET.tag (ET.append we
                              (WorkbookRequest.add_hidden_views
                                 (ET.new "views") v)) = "workbook")
        by now rewrite tag_append.
      split.
      * do 2 eexists. split; [apply (@find_only_child "tsRequest" _ _ Ht')|].
        split.
        -- apply (@find_first_child
                    (ET.append we
                       (WorkbookRequest.add_hidden_views (ET.new "views") v))
                    (ET.Elem "project"
                       [("id",
                         Some (str_opt_str (WorkbookItem.project_id w)))]
                       [])
                    (more ++ [WorkbookRequest.add_hidden_views
                                (ET.new "views") v])%list).
           now rewrite children_append, Hp.
        -- reflexivity.
      * unfold hidden_view_names. rewrite (@find_only_child "tsRequest" _ _ Ht').
        unfold ET.find. rewrite findall_append, Hf.
        change (ET.new "views") with (ET.Elem "views" [] []).
        rewrite add_hidden_views_children. simpl.
        f_equal. rewrite map_map. apply map_ext. reflexivity.
    + split.
      * do 2 eexists. split; [apply (@find_only_child "tsRequest" _ _ Ht)|].
        split;
          [apply (@find_first_child we
                    (ET.Elem "project"
                       [("id",
                         Some (str_opt_str (WorkbookItem.project_id w)))]
                       []) more Hp)
          |reflexivity].
      * unfold hidden_view_names. rewrite (@find_only_child "tsRequest" _ _ Ht).
        unfold ET.find. now rewrite Hf.
  - unfold WorkbookRequest.generate_tree. rewrite Hh. discriminate.
Qed.

Lemma workbook_project_and_views_witness :
  let w := WorkbookItem.mk (Some "report") None None None (Some []) None
             None in
  exists root,
    snd (WorkbookRequest.generate_tree w None None None) = Ok root
    /\ (exists wb prj,
          ET.find root "workbook" = Some wb
          /\ ET.find wb "project" = Some prj
          /\ ET.get prj "id" = Some (Some "None"))
    /\ hidden_view_names root = Some [].
Proof.
  cbv zeta.
  destruct (snd (WorkbookRequest.generate_tree
                   (WorkbookItem.mk (Some "report") None None None (Some [])
                      None None) None None None)) as [root|ex] eqn:E;
    [|discriminate E].
  exists root. split; [reflexivity|].
  exact (workbook_project_and_views
           (WorkbookItem.mk (Some "report") None None None (Some []) None
              None) None None E).
Defined.

(** ** Subscriptions *)

(** X18. Creating a subscription stores the subject, the id and the
    type of the target, the schedule id and the user id without a
    check: the request is a document exactly when all five are set, and
    the exception of the serializer otherwise.  The subscription has
    the children [content], [schedule] and [user], in this order. *)
Theorem subscription_creation :
  forall sub : SubscriptionItem.t,
    is_ok (SubscriptionRequest.create_req sub)
    = is_not_None (SubscriptionItem.subject sub)
      && is_not_None (Target.id (SubscriptionItem.target sub))
      && is_not_None (Target.type (SubscriptionItem.target sub))
      && is_not_None (SubscriptionItem.schedule_id sub)
      && is_not_None (SubscriptionItem.user_id sub)
    /\ (is_ok (SubscriptionRequest.create_req sub) = false ->
        SubscriptionRequest.create_req sub = Raise cannot_serialize)
    /\ map ET.tag (ET.children (SubscriptionRequest.create_element sub))
       = ["content"; "schedule"; "user"].
Proof.
  intros sub.
  assert (W : SubscriptionRequest.create_req sub
              = ET.tostring (ET.append (ET.new "tsRequest")
                               (SubscriptionRequest.create_element sub)))
    by apply (wrapped_serializes_once
                (fun r => ET.append r
                            (SubscriptionRequest.create_element sub))).
  rewrite W. clear W.
  split; [|split; [apply not_serializable|]].
  - change (serializable
              (ET.append (ET.new "tsRequest")
                 (SubscriptionRequest.create_element sub))
            = is_not_None (SubscriptionItem.subject sub)
              && is_not_None (Target.id (SubscriptionItem.target sub))
              && is_not_None (Target.type (SubscriptionItem.target sub))
              && is_not_None (SubscriptionItem.schedule_id sub)
              && is_not_None (SubscriptionItem.user_id sub)).
    rewrite serializable_append. simpl andb.
    unfold SubscriptionRequest.create_element. cbv zeta.
    rewrite !serializable_append.
    destruct (SubscriptionItem.user_id sub) as [u|];
      [|now rewrite serializable_set_none, !andb_false_r].
    destruct (SubscriptionItem.schedule_id sub) as [sc|];
      [|now rewrite serializable_set_none, !andb_false_r].
    replace (serializable (ET.set (ET.new "user") "id" (Some u)))
      with true by reflexivity.
    replace (serializable (ET.set (ET.new "schedule") "id" (Some sc)))
      with true by reflexivity.
    rewrite !andb_true_r.
    destruct (Target.type (SubscriptionItem.target sub)) as [ty|].
    + destruct (Target.id (SubscriptionItem.target sub)) as [ti|].
      * rewrite !andb_true_r.
        match goal with
        | |- ?a && ?b = _ => assert (Hb : b = true) by serial; rewrite Hb
        end.
        rewrite andb_true_r.
        destruct (SubscriptionItem.subject sub) as [sj|].
        -- serial.
        -- apply (get_none_not_serializable _ "subject"). now attrs.
      * rewrite andb_false_r. simpl.
        match goal with
        | |- _ && ?b = _ =>
            assert (Hb : b = false)
              by (apply (get_none_not_serializable _ "id"); now attrs);
            rewrite Hb
        end.
        now rewrite andb_false_r.
    + rewrite !andb_false_r.
      match goal with
      | |- _ && ?b = _ =>
          assert (Hb : b = false)
            by (apply (get_none_not_serializable _ "type"); now attrs);
          rewrite Hb
      end.
      now rewrite andb_false_r.
  - unfold SubscriptionRequest.create_element. cbv zeta.
    rewrite !children_append, !map_app.
    assert (Hc : forall c e k v, ET.children (ET.set_if c e k v)
                                 = ET.children e)
      by (intros [] [] ? ?; reflexivity).
    assert (Hs : forall c e k v, ET.children (ET.sets_if c e k v)
                                 = ET.children e)
      by (intros [] [] ? ?; reflexivity).
    rewrite !Hc, !Hs. simpl.
    rewrite ?tag_sets_if, ?tag_set. reflexivity.
Qed.

Lemma subscription_creation_witness :
  SubscriptionRequest.create_req
    (SubscriptionItem.mk None None None None None None
       (Target.mk (Some "v1") (Some "View")) None (Some "s1") (Some "u1")
       None)
  = Raise cannot_serialize
  /\ is_ok (SubscriptionRequest.create_req Sample.subscription) = true.
Proof.
  split.
  - apply (proj1 (proj2 (subscription_creation
                           (SubscriptionItem.mk None None None None None None
                              (Target.mk (Some "v1") (Some "View")) None
                              (Some "s1") (Some "u1") None)))).
    reflexivity.
  - rewrite (proj1 (subscription_creation Sample.subscription)).
    reflexivity.
Defined.

(** ** The flow settings, by scheme *)

Lemma flow_warnings fa fe fs srv e s :
  snd (SiteRequest.set_versioned_flow_attributes fa fe fs srv e s)
  = if SiteRequest.new_scheme srv
    then if is_not_None (SiteItem.flows_enabled s)
         then [UserWarning SiteRequest.new_scheme_warning]
         else []
    else if is_not_None (SiteItem.editing_flows_enabled s)
            || is_not_None (SiteItem.scheduling_flows_enabled s)
         then [UserWarning SiteRequest.legacy_scheme_warning]
         else [].
Proof.
  unfold SiteRequest.set_versioned_flow_attributes.
  destruct (SiteRequest.new_scheme srv).
  - now destruct (is_not_None (SiteItem.flows_enabled s)).
  - cbv zeta. now destruct (_ || _).
Qed.

Lemma flow_attributes_on_new_site s srv :
  let e :=
    fst (SiteRequest.set_versioned_flow_attributes
           (lower (str_opt_bool (SiteItem.flows_enabled s)))
           (lower (str_opt_bool (SiteItem.editing_flows_enabled s)))
           (lower (str_opt_bool (SiteItem.scheduling_flows_enabled s)))
           srv (ET.new "site") s) in
  let split := SiteRequest.new_scheme srv in
  ET.get e "editingFlowsEnabled"
  = (if split && is_not_None (SiteItem.editing_flows_enabled s)
     then Some (Some (lower (str_opt_bool
                               (SiteItem.editing_flows_enabled s))))
     else None)
  /\ ET.get e "schedulingFlowsEnabled"
     = (if split && is_not_None (SiteItem.scheduling_flows_enabled s)
        then Some (Some (lower (str_opt_bool
                                  (SiteItem.scheduling_flows_enabled s))))
        else None)
  /\ ET.get e "flowsEnabled"
     = (if negb split
           && (is_not_None (SiteItem.flows_enabled s)
               || is_not_None (SiteItem.editing_flows_enabled s)
               || is_not_None (SiteItem.scheduling_flows_enabled s))
        then Some (Some (lower (str_opt_bool (SiteItem.flows_enabled s))))
        else None).
Proof.
  cbv zeta. unfold SiteRequest.set_versioned_flow_attributes.
  destruct (SiteRequest.new_scheme srv); cbv zeta.
  - rewrite !or_str_flag.
    destruct (SiteItem.flows_enabled s) as [fl|];
      destruct (SiteItem.editing_flows_enabled s) as [ed|];
      destruct (SiteItem.scheduling_flows_enabled s) as [sc|];
      repeat split.
  - rewrite !or_str_flag.
    destruct (SiteItem.flows_enabled s) as [fl|];
      destruct (SiteItem.editing_flows_enabled s) as [ed|];
      destruct (SiteItem.scheduling_flows_enabled s) as [sc|];
      repeat split.
Qed.

(** X19. What the site update and the site creation write for the flow
    settings, for every site and server.  Under the split scheme (no
    server, or a server with the new flow settings) each split attribute
    is written exactly when its own field is set, with the text of that
    field, and [flowsEnabled] is never written; a warning is issued
    when the legacy field is set.  Under the legacy scheme no split
    attribute is written; [flowsEnabled] is written when one of the
    three fields is set, always with the text of the legacy field; a
    warning is issued when a split field is set.  No document carries
    both kinds of attribute. *)
Theorem site_flow_attributes_by_scheme :
  forall (s : SiteItem.t) (srv : option Server.t),
    Forall
      (fun build : SiteItem.t -> option Server.t -> ET.Element * list warning =>
         let e := fst (build s srv) in
         let split := SiteRequest.new_scheme srv in
         ET.get e "editingFlowsEnabled"
         = (if split && is_not_None (SiteItem.editing_flows_enabled s)
            then Some (Some (lower (str_opt_bool
                                      (SiteItem.editing_flows_enabled s))))
            else None)
         /\ ET.get e "schedulingFlowsEnabled"
            = (if split && is_not_None (SiteItem.scheduling_flows_enabled s)
               then Some (Some (lower (str_opt_bool
                                         (SiteItem.scheduling_flows_enabled
                                            s))))
               else None)
         /\ ET.get e "flowsEnabled"
            = (if negb split
                  && (is_not_None (SiteItem.flows_enabled s)
                      || is_not_None (SiteItem.editing_flows_enabled s)
                      || is_not_None (SiteItem.scheduling_flows_enabled s))
               then Some (Some (lower (str_opt_bool
                                         (SiteItem.flows_enabled s))))
               else None)
         /\ snd (build s srv)
            = (if split
               then if is_not_None (SiteItem.flows_enabled s)
                    then [UserWarning SiteRequest.new_scheme_warning]
                    else []
               else if is_not_None (SiteItem.editing_flows_enabled s)
                       || is_not_None (SiteItem.scheduling_flows_enabled s)
                    then [UserWarning SiteRequest.legacy_scheme_warning]
                    else [])
         /\ ET.has e "flowsEnabled"
            && (ET.has e "editingFlowsEnabled"
                || ET.has e "schedulingFlowsEnabled") = false)
      [SiteRequest.update_element; SiteRequest.create_element].
Proof.
  intros s srv.
  destruct (flow_attributes_on_new_site s srv) as (He & Hs & Hf).
  apply Forall_cons; [|apply Forall_cons; [|apply Forall_nil]]; cbv zeta.
  - rewrite !has_get.
    rewrite !site_update_flow_attribute by (simpl; tauto).
    rewrite He, Hs, Hf.
    split; [reflexivity|]. split; [reflexivity|]. split; [reflexivity|].
    split.
    + unfold SiteRequest.update_element. cbv zeta.
      match goal with
      | |- context [SiteRequest.set_versioned_flow_attributes
                      ?a ?b ?c ?d ?e ?f] =>
          pose proof (flow_warnings a b c d e f) as Hw;
          destruct (SiteRequest.set_versioned_flow_attributes a b c d e f)
      end.
      exact Hw.
    + destruct (SiteRequest.new_scheme srv); simpl; [reflexivity|].
      now rewrite andb_false_r.
  - rewrite !has_get.
    rewrite !site_create_flow_attribute by (simpl; tauto).
    rewrite He, Hs, Hf.
    split; [reflexivity|]. split; [reflexivity|]. split; [reflexivity|].
    split.
    + unfold SiteRequest.create_element. cbv zeta.
      match goal with
      | |- context [SiteRequest.set_versioned_flow_attributes
                      ?a ?b ?c ?d ?e ?f] =>
          pose proof (flow_warnings a b c d e f) as Hw;
          destruct (SiteRequest.set_versioned_flow_attributes a b c d e f)
      end.
      exact Hw.
    + destruct (SiteRequest.new_scheme srv); simpl; [reflexivity|].
      now rewrite andb_false_r.
Qed.
